(** * accounts: a shallow embedding of the Django application

    The application keeps all its state in one relational store and
    handles each HTTP request synchronously.  The embedding follows that
    shape: the store is a record of tables (lists of rows, in insertion
    order), a request handler is a function from the store to an outcome
    and the store it leaves behind, and an exception aborts the handler
    but keeps whatever it had already written (no handler of the
    application opens a transaction of its own).

    Source files: accounts/models.py, accounts/permissions.py,
    accounts/serializers.py, accounts/views.py, accounts/urls.py. *)

From Stdlib Require Import ZArith List Ascii String Bool Lia.
From Stdlib Require Import Permutation Sorted.
Import ListNotations.
Local Open Scope string_scope.
Local Open Scope list_scope.
Local Open Scope Z_scope.

(* ================================================================== *)
(** * Rows of the relational store (models.py)                         *)
(* ================================================================== *)

(** Django keeps the password as one encoded string; a string that
    starts with '!' is the unusable marker.  Only that distinction is
    observable through [has_usable_password]. *)
Inductive credential : Type :=
| Unusable
| Usable (encoded : string).

Module User.
Record t : Type := mk
  { id : Z;
    user_id : string;
    email : string;
    is_admin : bool;
    is_teamlead : bool;
    is_active : bool;
    is_staff : bool;
    password : credential }.

Definition has_usable_password (u : t) : bool :=
  match password u with Usable _ => true | Unusable => false end.

(** [AbstractBaseUser.set_password]: a raw string is always encoded to
    a usable credential. *)
Definition set_password (raw : string) (u : t) : t :=
  mk (id u) (user_id u) (email u) (is_admin u) (is_teamlead u)
     (is_active u) (is_staff u) (Usable raw).

Definition set_is_active (b : bool) (u : t) : t :=
  mk (id u) (user_id u) (email u) (is_admin u) (is_teamlead u)
     b (is_staff u) (password u).
End User.

Module Team.
Record t : Type := mk
  { id : Z;
    name : string;
    description : string;
    created_by : Z;
    members : list Z;
    created_at : Z }.
End Team.

Module Task.
Definition PRIORITY_CHOICES : list string := ["LOW"; "MEDIUM"; "HIGH"].
Definition STATUS_CHOICES : list string :=
  ["PENDING"; "IN_PROGRESS"; "COMPLETED"].

Record t : Type := mk
  { id : Z;
    title : string;
    description : string;
    created_by : Z;
    parent_task : option Z;
    estimated_start_date : Z;
    estimated_end_date : Z;
    priority : string;
    status : string;
    created_at : Z;
    updated_at : Z }.

Definition is_subtask (self : t) : bool :=
  match parent_task self with Some _ => true | None => false end.
End Task.

Module Todo.
Record t : Type := mk
  { id : Z; title : string; date : Z; is_done : bool; created_by : Z }.
End Todo.

Module Conversation.
Record t : Type := mk
  { id : Z; user1 : Z; user2 : Z; created_at : Z }.
End Conversation.

Module Message.
Record t : Type := mk
  { id : Z;
    conversation : Z;
    sender : Z;
    text : string;
    is_read : bool;
    timestamp : Z }.
End Message.

Record DB : Type := mkDB
  { users : list User.t;
    teams : list Team.t;
    tasks : list Task.t;
    todos : list Todo.t;
    conversations : list Conversation.t;
    messages : list Message.t }.

Definition empty_db : DB := mkDB [] [] [] [] [] [].

Definition with_users (f : list User.t -> list User.t) (db : DB) : DB :=
  mkDB (f (users db)) (teams db) (tasks db) (todos db)
       (conversations db) (messages db).
Definition with_teams (f : list Team.t -> list Team.t) (db : DB) : DB :=
  mkDB (users db) (f (teams db)) (tasks db) (todos db)
       (conversations db) (messages db).
Definition with_tasks (f : list Task.t -> list Task.t) (db : DB) : DB :=
  mkDB (users db) (teams db) (f (tasks db)) (todos db)
       (conversations db) (messages db).
Definition with_conversations
    (f : list Conversation.t -> list Conversation.t) (db : DB) : DB :=
  mkDB (users db) (teams db) (tasks db) (todos db)
       (f (conversations db)) (messages db).
Definition with_messages
    (f : list Message.t -> list Message.t) (db : DB) : DB :=
  mkDB (users db) (teams db) (tasks db) (todos db)
       (conversations db) (f (messages db)).

(* ================================================================== *)
(** * Request handlers: state and exceptions                           *)
(* ================================================================== *)

(** The exceptions a handler can end with.  The first four are turned
    into 4xx responses by the framework; the others are not caught by
    any code of the application and surface as a server error. *)
Inductive exn : Type :=
| ValidationError (detail : string)
| Http404
| NotAuthenticated
| PermissionDenied
| DoesNotExist
| MultipleObjectsReturned
| IntegrityError
| RelatedObjectDoesNotExist
| KeyError
| ValueError.

Inductive outcome (A : Type) : Type :=
| Ok (a : A)
| Raise (e : exn).
Arguments Ok {A} a.
Arguments Raise {A} e.

Definition Req (A : Type) : Type := DB -> outcome A * DB.

Definition ret {A} (a : A) : Req A := fun db => (Ok a, db).
Definition raise {A} (e : exn) : Req A := fun db => (Raise e, db).
Definition bind {A B} (c : Req A) (k : A -> Req B) : Req B :=
  fun db =>
    match c db with
    | (Ok a, db') => k a db'
    | (Raise e, db') => (Raise e, db')
    end.
Definition read : Req DB := fun db => (Ok db, db).
Definition modify (f : DB -> DB) : Req unit := fun db => (Ok tt, f db).

(** [try: c except e: h] *)
Definition catch {A} (c : Req A) (h : exn -> option (Req A)) : Req A :=
  fun db =>
    match c db with
    | (Ok a, db') => (Ok a, db')
    | (Raise e, db') =>
        match h e with
        | Some handler => handler db'
        | None => (Raise e, db')
        end
    end.

Declare Scope req_scope.
Delimit Scope req_scope with req.
Notation "x <- c ;; k" := (bind c (fun x => k))
  (at level 61, c at next level, right associativity) : req_scope.
Notation "c ;;; k" := (bind c (fun _ => k))
  (at level 61, right associativity) : req_scope.
Local Open Scope req_scope.

Fixpoint for_each {A} (l : list A) (body : A -> Req unit) : Req unit :=
  match l with
  | [] => ret tt
  | x :: l' => body x ;;; for_each l' body
  end.

(* ================================================================== *)
(** * The ORM operations the application calls                         *)
(* ================================================================== *)

(** The primary key the store gives a new row: above every key in use. *)
Definition next_id (ids : list Z) : Z := 1 + fold_right Z.max 0 ids.

(** [QuerySet.get]: exactly one row, or an exception. *)
Definition get {A} (rows : list A) : Req A :=
  match rows with
  | [] => raise DoesNotExist
  | [r] => ret r
  | _ => raise MultipleObjectsReturned
  end.

(** [QuerySet.first] *)
Definition first {A} (rows : list A) : option A := hd_error rows.

(** [get_object_or_404] *)
Definition get_object_or_404 {A} (rows : list A) : Req A :=
  catch (get rows)
        (fun e => match e with
                  | DoesNotExist => Some (raise Http404)
                  | _ => None
                  end).

(** Python's [sorted(l, key=...)] and the ORM's [order_by(field)]: a
    stable sort, ascending in the key. *)
Fixpoint insert_by {A} (key : A -> Z) (x : A) (l : list A) : list A :=
  match l with
  | [] => [x]
  | y :: l' => if key x <=? key y then x :: y :: l'
               else y :: insert_by key x l'
  end.

Definition sorted {A} (key : A -> Z) (l : list A) : list A :=
  fold_right (insert_by key) [] l.

(** A field of a request payload, as the serializer field receives it:
    the key is absent, or its value is not of the field's type (not a
    string, not a date, not a boolean, ...), or it is the value [a] of
    that type.  For a character field [a] is the string as the client
    sent it; what the field does with it (trimming, the blank test, the
    choices, the validators) is in the field functions below. *)
Inductive raw (A : Type) : Type :=
| Absent
| Malformed
| Given (a : A).
Arguments Absent {A}.
Arguments Malformed {A}.
Arguments Given {A} a.

(** A string is the sequence of its characters, one [ascii] for each
    code point below 256.  [str.isspace] on those: the controls 9 to 13
    and 28 to 31, the space, NEL (133) and the no-break space (160). *)
Definition is_space (c : ascii) : bool :=
  let n := N_of_ascii c in
  ((9 <=? n) && (n <=? 13) || (28 <=? n) && (n <=? 32)
   || (n =? 133) || (n =? 160))%N.

(** [str.lstrip()], [str.rstrip()] and [str.strip()] *)
Fixpoint lstrip (s : string) : string :=
  match s with
  | String c s' => if is_space c then lstrip s' else s
  | EmptyString => EmptyString
  end.

Fixpoint rstrip (s : string) : string :=
  match s with
  | String c s' =>
      match rstrip s' with
      | EmptyString => if is_space c then EmptyString
                       else String c EmptyString
      | t => String c t
      end
  | EmptyString => EmptyString
  end.

Definition strip (s : string) : string := rstrip (lstrip s).

(** What [ProhibitNullCharactersValidator] looks for. *)
Fixpoint has_nul (s : string) : bool :=
  match s with
  | String c s' => Ascii.eqb c zero || has_nul s'
  | EmptyString => false
  end.

(** [serializers.CharField()]: required; [trim_whitespace] is on, so
    the value handed on is the trimmed one; [allow_blank] is off, so a
    value that is blank after trimming is refused; and the field's own
    validator refuses a NUL character. *)
Definition required_char (field : string) (r : raw string) : Req string :=
  match r with
  | Given data =>
      let value := strip data in
      if String.eqb value "" then raise (ValidationError field)
      else if has_nul value then raise (ValidationError field)
      else ret value
  | _ => raise (ValidationError field)
  end.

(** [serializers.CharField(required=False, allow_blank=True)], also the
    field [ModelSerializer] builds for a [TextField(blank=True)]: the
    key may be absent, and a blank value is handed on as the empty
    string. *)
Definition optional_char (field : string) (r : raw string)
  : Req (option string) :=
  match r with
  | Given data =>
      let value := strip data in
      if has_nul value then raise (ValidationError field)
      else ret (Some value)
  | Absent => ret None
  | Malformed => raise (ValidationError field)
  end.

(** The address test of [django.core.validators.EmailValidator].  It is
    framework code; the handlers are embedded over any such test. *)
Class EmailValidator : Type := valid_email : string -> bool.

(** [serializers.EmailField()]: a [CharField] whose trimmed value has
    to pass the address test. *)
Definition email_field {ev : EmailValidator} (field : string)
    (r : raw string) : Req string :=
  value <- required_char field r ;;
  if valid_email value then ret value else raise (ValidationError field).

(** A required field of any other type. *)
Definition required {A} (field : string) (r : raw A) : Req A :=
  match r with
  | Given a => ret a
  | _ => raise (ValidationError field)
  end.

(** A field declared with [required=False]: the key stays out of the
    validated data when the payload does not carry it. *)
Definition optional {A} (field : string) (r : raw A) : Req (option A) :=
  match r with
  | Given a => ret (Some a)
  | Absent => ret None
  | Malformed => raise (ValidationError field)
  end.

(* ================================================================== *)
(** * Permission classes (permissions.py and rest_framework)           *)
(* ================================================================== *)

Inductive permission : Type :=
| AllowAny
| IsAuthenticated
| IsAdmin
| IsTeamLead
| IsAdminOrTeamLead
| IsTeamCreator.

(** [request.user] is [None] for an anonymous request. *)
Definition has_permission (p : permission) (user : option User.t) : bool :=
  match p, user with
  | AllowAny, _ => true
  | IsAuthenticated, Some _ => true
  | IsAdmin, Some u => User.is_admin u
  | IsTeamLead, Some u => User.is_teamlead u
  | IsAdminOrTeamLead, Some u => User.is_admin u || User.is_teamlead u
  | IsTeamCreator, _ => true   (* only [has_object_permission] is defined *)
  | _, None => false
  end.

(** [APIView.check_permissions] *)
Definition check_permissions (ps : list permission) (user : option User.t)
  : Req unit :=
  if forallb (fun p => has_permission p user) ps then ret tt
  else match user with
       | None => raise NotAuthenticated
       | Some _ => raise PermissionDenied
       end.

(** The handlers below read [request.user] after [IsAuthenticated] let
    the request through. *)
Definition authenticated (user : option User.t) : Req User.t :=
  check_permissions [IsAuthenticated] user ;;;
  match user with
  | Some u => ret u
  | None => raise NotAuthenticated
  end.

(* ================================================================== *)
(** * Conversations and messages (models.py, views.py)                 *)
(* ================================================================== *)

(** A [Conversation] object that has not been written yet. *)
Record ConversationInstance : Type := mkInstance
  { i_user1 : option User.t;
    i_user2 : option User.t }.

(** Reading a foreign key attribute that was never assigned. *)
Definition related (o : option User.t) : Req User.t :=
  match o with
  | Some u => ret u
  | None => raise RelatedObjectDoesNotExist
  end.

Definition pair_is (a b : Z) (c : Conversation.t) : bool :=
  (Conversation.user1 c =? a) && (Conversation.user2 c =? b).

(** [models.Model.save] of a new conversation: an INSERT, refused by the
    constraint [unique_conversation_pair] on (user1, user2). *)
Definition Conversation_insert (now a b : Z) : Req Conversation.t :=
  fun db =>
    if existsb (pair_is a b) (conversations db)
    then (Raise IntegrityError, db)
    else
      let row :=
        Conversation.mk (next_id (map Conversation.id (conversations db)))
                        a b now in
      (Ok row, with_conversations (fun l => l ++ [row]) db).

(** [Conversation.save]:
      if self.user1.id > self.user2.id: swap
      super().save() *)
Definition Conversation_save (now : Z) (self : ConversationInstance)
  : Req Conversation.t :=
  a <- related (i_user1 self) ;;
  b <- related (i_user2 self) ;;
  let self' :=
    if User.id a >? User.id b
    then mkInstance (i_user2 self) (i_user1 self)
    else self in
  a' <- related (i_user1 self') ;;
  b' <- related (i_user2 self') ;;
  Conversation_insert now (User.id a') (User.id b').

Definition Conversation_objects_get (a b : User.t) : Req Conversation.t :=
  db <- read ;;
  get (filter (pair_is (User.id a) (User.id b)) (conversations db)).

(** [Conversation.objects.get_or_create(user1=a, user2=b)], as the
    manager does it: fetch; when nothing matches, create; when the
    create hits the constraint, fetch again. *)
Definition Conversation_objects_get_or_create (now : Z) (a b : User.t)
  : Req (Conversation.t * bool) :=
  catch
    (c <- Conversation_objects_get a b ;; ret (c, false))
    (fun e =>
       match e with
       | DoesNotExist =>
           Some
             (catch
                (c <- Conversation_save now (mkInstance (Some a) (Some b)) ;;
                 ret (c, true))
                (fun e' =>
                   match e' with
                   | IntegrityError =>
                       Some
                         (catch
                            (c <- Conversation_objects_get a b ;;
                             ret (c, false))
                            (fun e'' =>
                               match e'' with
                               | DoesNotExist => Some (raise IntegrityError)
                               | _ => None
                               end))
                   | _ => None
                   end))
       | _ => None
       end).

(** views.py:
      u1, u2 = sorted([user1, user2], key=lambda u: u.id)
      return Conversation.objects.get_or_create(user1=u1, user2=u2) *)
Definition get_or_create_conversation (now : Z) (user1 user2 : User.t)
  : Req (Conversation.t * bool) :=
  match sorted User.id [user1; user2] with
  | [u1; u2] => Conversation_objects_get_or_create now u1 u2
  | _ => raise ValueError
  end.

(** [Message.objects.create]: [sender] is a NOT NULL column. *)
Definition Message_objects_create
    (now conversation : Z) (sender : option Z) (text : string)
    (is_read : bool) : Req Message.t :=
  fun db =>
    match sender with
    | None => (Raise IntegrityError, db)
    | Some s =>
        let row :=
          Message.mk (next_id (map Message.id (messages db)))
                     conversation s text is_read now in
        (Ok row, with_messages (fun l => l ++ [row]) db)
    end.

(** [conversation.messages.order_by("timestamp")] *)
Definition conversation_messages (conversation_id : Z) (db : DB)
  : list Message.t :=
  sorted Message.timestamp
         (filter (fun m => Message.conversation m =? conversation_id)
                 (messages db)).

Definition User_objects_get_by_id (pk : Z) : Req User.t :=
  db <- read ;;
  get (filter (fun u => User.id u =? pk) (users db)).

Definition Conversation_objects_get_by_id (pk : Z) : Req Conversation.t :=
  db <- read ;;
  get (filter (fun c => Conversation.id c =? pk) (conversations db)).

(** [SendMessageView.post]; [text] is [request.data["text"]]. *)
Definition SendMessageView_post
    (now : Z) (user : option User.t) (receiver_id : Z)
    (text : option string) : Req Message.t :=
  caller <- authenticated user ;;
  receiver <- User_objects_get_by_id receiver_id ;;
  r <- get_or_create_conversation now caller receiver ;;
  t <- match text with Some t => ret t | None => raise KeyError end ;;
  Message_objects_create now (Conversation.id (fst r))
                         (Some (User.id caller)) t false.

(** [ChatHistoryView.get] *)
Definition ChatHistoryView_get
    (now : Z) (user : option User.t) (user_id : Z) : Req (list Message.t) :=
  caller <- authenticated user ;;
  other_user <- User_objects_get_by_id user_id ;;
  r <- get_or_create_conversation now caller other_user ;;
  db <- read ;;
  ret (conversation_messages (Conversation.id (fst r)) db).

(** [MessageByConversationAPIView.get_queryset]; two model objects are
    equal when their primary keys are. *)
Definition MessageByConversationAPIView_get_queryset
    (caller : User.t) (conversation_id : Z) : Req (list Message.t) :=
  conversation <- Conversation_objects_get_by_id conversation_id ;;
  if negb (existsb (Z.eqb (User.id caller))
                   [Conversation.user1 conversation;
                    Conversation.user2 conversation])
  then ret []
  else db <- read ;; ret (conversation_messages (Conversation.id conversation) db).

(** GET /conversations/<conversation_id>/messages/ *)
Definition MessageByConversationAPIView_list
    (user : option User.t) (conversation_id : Z) : Req (list Message.t) :=
  caller <- authenticated user ;;
  MessageByConversationAPIView_get_queryset caller conversation_id.

(** The writable fields of [MessageSerializer]. *)
Record MessagePayload : Type := mkMessagePayload
  { p_conversation : raw Z;
    p_text : raw string;
    p_is_read : raw bool }.

Record MessageData : Type := mkMessageData
  { v_conversation : Z;
    v_text : string;
    v_is_read : option bool }.

Definition MessageSerializer_is_valid (p : MessagePayload) : Req MessageData :=
  pk <- required "conversation" (p_conversation p) ;;
  db <- read ;;
  (if existsb (fun c => Conversation.id c =? pk) (conversations db)
   then ret tt else raise (ValidationError "conversation")) ;;;
  text <- required_char "text" (p_text p) ;;
  is_read <- optional "is_read" (p_is_read p) ;;
  ret (mkMessageData pk text is_read).

(** [MessageByConversationAPIView.perform_create]:
      conversation = Conversation.objects.get(id=conversation_id)
      serializer.save(sender=self.request.user, conversation=conversation) *)
Definition MessageByConversationAPIView_perform_create
    (now : Z) (caller : User.t) (conversation_id : Z) (v : MessageData)
  : Req Message.t :=
  conversation <- Conversation_objects_get_by_id conversation_id ;;
  Message_objects_create now (Conversation.id conversation)
                         (Some (User.id caller)) (v_text v)
                         (match v_is_read v with Some b => b | None => false end).

(** POST /conversations/<conversation_id>/messages/ *)
Definition MessageByConversationAPIView_create
    (now : Z) (user : option User.t) (conversation_id : Z)
    (p : MessagePayload) : Req Message.t :=
  caller <- authenticated user ;;
  v <- MessageSerializer_is_valid p ;;
  MessageByConversationAPIView_perform_create now caller conversation_id v.

(** POST /conversations/: every field of [ConversationSerializer] is
    read-only, so the validated data is empty and
    [perform_create] saves [Conversation(user1=request.user)]. *)
Definition ConversationListCreateAPIView_create
    (now : Z) (user : option User.t) : Req Conversation.t :=
  caller <- authenticated user ;;
  Conversation_save now (mkInstance (Some caller) None).

(* ================================================================== *)
(** * Setting the password (serializers.py, views.py)                  *)
(* ================================================================== *)

Record SetPasswordPayload : Type := mkSetPasswordPayload
  { sp_user_id : raw string;
    sp_email : raw string;
    sp_password : raw string }.

(** [validated_data] after [validate]: the three fields and the key
    ["user"] that [validate] adds. *)
Record SetPasswordData : Type := mkSetPasswordData
  { d_user_id : string;
    d_email : string;
    d_password : string;
    d_user : User.t }.

(** The lookup [user_id=..., email=...]. *)
Definition names_user (user_id email : string) (u : User.t) : bool :=
  String.eqb (User.user_id u) user_id && String.eqb (User.email u) email.

Definition User_objects_get (user_id email : string) : Req User.t :=
  db <- read ;;
  get (filter (names_user user_id email) (users db)).

(** [user.save()] on a loaded row: UPDATE by primary key, INSERT when
    no row has that key. *)
Definition User_save (u : User.t) : Req unit :=
  modify (with_users (fun rows =>
    if existsb (fun r => User.id r =? User.id u) rows
    then map (fun r => if User.id r =? User.id u then u else r) rows
    else rows ++ [u])).

(** [SetPasswordSerializer.validate] *)
Definition SetPasswordSerializer_validate (user_id email password : string)
  : Req SetPasswordData :=
  user <- catch (User_objects_get user_id email)
                (fun e => match e with
                          | DoesNotExist =>
                              Some (raise (ValidationError "User not found"))
                          | _ => None
                          end) ;;
  if User.has_usable_password user
  then raise (ValidationError "Password already set")
  else ret (mkSetPasswordData user_id email password user).

Definition SetPasswordSerializer_is_valid {ev : EmailValidator}
    (p : SetPasswordPayload) : Req SetPasswordData :=
  user_id <- required_char "user_id" (sp_user_id p) ;;
  email <- email_field "email" (sp_email p) ;;
  password <- required_char "password" (sp_password p) ;;
  SetPasswordSerializer_validate user_id email password.

(** [SetPasswordSerializer.save] *)
Definition SetPasswordSerializer_save (d : SetPasswordData) : Req User.t :=
  let user := d_user d in
  let user := User.set_password (d_password d) user in
  let user := User.set_is_active true user in
  User_save user ;;;
  ret user.

(** [SetPasswordAPI.post] *)
Definition SetPasswordAPI_post {ev : EmailValidator}
    (user : option User.t) (p : SetPasswordPayload) : Req string :=
  check_permissions [AllowAny] user ;;;
  d <- SetPasswordSerializer_is_valid p ;;
  SetPasswordSerializer_save d ;;;
  ret "Password set successfully".

(* ================================================================== *)
(** * Teams (views.py, serializers.py)                                 *)
(* ================================================================== *)

Inductive action : Type :=
| list_ | create | retrieve | update | partial_update | destroy.

Definition action_eqb (a b : action) : bool :=
  match a, b with
  | list_, list_ | create, create | retrieve, retrieve
  | update, update | partial_update, partial_update
  | destroy, destroy => true
  | _, _ => false
  end.

(** [TeamViewSet.get_permissions] *)
Definition TeamViewSet_get_permissions (a : action) : list permission :=
  if existsb (action_eqb a) [update; partial_update; destroy]
  then [IsAuthenticated; IsTeamCreator]
  else [IsAuthenticated].

Record CreateTeamPayload : Type := mkCreateTeamPayload
  { tp_name : raw string;
    tp_description : raw string;
    tp_members : raw (list string) }.

Record CreateTeamData : Type := mkCreateTeamData
  { td_name : string;
    td_description : option string;
    td_members : option (list User.t) }.

(** [SlugRelatedField(slug_field="user_id", queryset=User.objects.all())] *)
Definition slug_to_user (slug : string) : Req User.t :=
  db <- read ;;
  catch (get (filter (fun u => String.eqb (User.user_id u) slug) (users db)))
        (fun e => match e with
                  | DoesNotExist => Some (raise (ValidationError "members"))
                  | _ => None
                  end).

Fixpoint map_req {A B} (f : A -> Req B) (l : list A) : Req (list B) :=
  match l with
  | [] => ret []
  | x :: l' => y <- f x ;; ys <- map_req f l' ;; ret (y :: ys)
  end.

Definition CreateTeamSerializer_is_valid (p : CreateTeamPayload)
  : Req CreateTeamData :=
  name <- required_char "name" (tp_name p) ;;
  (if (100 <? Z.of_nat (String.length name))
   then raise (ValidationError "name") else ret tt) ;;;
  description <- optional_char "description" (tp_description p) ;;
  slugs <- optional "members" (tp_members p) ;;
  members <- match slugs with
             | Some l => us <- map_req slug_to_user l ;; ret (Some us)
             | None => ret None
             end ;;
  ret (mkCreateTeamData name description members).

Definition Team_objects_create (now : Z) (name description : string)
    (created_by : Z) : Req Team.t :=
  fun db =>
    let row := Team.mk (next_id (map Team.id (teams db)))
                       name description created_by [] now in
    (Ok row, with_teams (fun l => l ++ [row]) db).

(** [team.members.add] with several users: a many-to-many relation
    holds each user at most once. *)
Definition members_add (objs : list Z) (members : list Z) : list Z :=
  fold_left (fun acc x => if existsb (Z.eqb x) acc then acc else acc ++ [x])
            objs members.

Definition Team_members_add (team_id : Z) (objs : list Z) : Req unit :=
  modify (with_teams (map (fun t =>
    if Team.id t =? team_id
    then Team.mk (Team.id t) (Team.name t) (Team.description t)
                 (Team.created_by t) (members_add objs (Team.members t))
                 (Team.created_at t)
    else t))).

(** [TeamViewSet.perform_create]; [serializer.save] creates the row and
    sets the validated members, then the view adds the caller and the
    members again.  The result is the key of the new row. *)
Definition TeamViewSet_perform_create
    (now : Z) (caller : User.t) (v : CreateTeamData) : Req Z :=
  team <- Team_objects_create now (td_name v)
            (match td_description v with Some d => d | None => "" end)
            (User.id caller) ;;
  match td_members v with
  | Some ms => Team_members_add (Team.id team) (map User.id ms)
  | None => ret tt
  end ;;;
  Team_members_add (Team.id team) [User.id caller] ;;;
  let members := match td_members v with Some ms => ms | None => [] end in
  match members with
  | [] => ret tt
  | _ => Team_members_add (Team.id team) (map User.id members)
  end ;;;
  ret (Team.id team).

(** POST /teams/ ; the response shows the row as it is stored. *)
Definition TeamViewSet_create
    (now : Z) (user : option User.t) (p : CreateTeamPayload) : Req Team.t :=
  check_permissions (TeamViewSet_get_permissions create) user ;;;
  caller <- authenticated user ;;
  v <- CreateTeamSerializer_is_valid p ;;
  pk <- TeamViewSet_perform_create now caller v ;;
  db <- read ;;
  get (filter (fun t => Team.id t =? pk) (teams db)).

(* ================================================================== *)
(** * Tasks and subtasks (serializers.py, views.py)                    *)
(* ================================================================== *)

(** One entry of ["subtasks_data"] as the client sends it.  The key
    ["id"] may be in the payload; [SubtaskCreateSerializer] declares no
    field for it (the declaration is commented out in the source). *)
Record SubtaskPayload : Type := mkSubtaskPayload
  { sp_id : raw Z;
    sp_title : raw string;
    sp_description : raw string;
    sp_estimated_start_date : raw Z;
    sp_estimated_end_date : raw Z;
    sp_priority : raw string;
    sp_status : raw string }.

(** One validated entry: a dictionary whose keys are the declared
    fields.  [sd_id] is the result of [sub.get("id")]. *)
Record SubtaskData : Type := mkSubtaskData
  { sd_id : option Z;
    sd_title : string;
    sd_description : option string;
    sd_estimated_start_date : Z;
    sd_estimated_end_date : Z;
    sd_priority : string;
    sd_status : string }.

(** [serializers.ChoiceField(choices=...)] *)
Definition choice (field : string) (choices : list string) (r : raw string)
  : Req string :=
  match r with
  | Given s => if existsb (String.eqb s) choices then ret s
               else raise (ValidationError field)
  | _ => raise (ValidationError field)
  end.

(** The declared fields of [SubtaskCreateSerializer], in order. *)
Definition SubtaskCreateSerializer_is_valid (p : SubtaskPayload)
  : Req SubtaskData :=
  title <- required_char "title" (sp_title p) ;;
  description <- optional_char "description" (sp_description p) ;;
  estimated_start_date <-
    required "estimated_start_date" (sp_estimated_start_date p) ;;
  estimated_end_date <-
    required "estimated_end_date" (sp_estimated_end_date p) ;;
  priority <- choice "priority" Task.PRIORITY_CHOICES (sp_priority p) ;;
  status <- match sp_status p with
            | Absent => ret "PENDING"
            | r => choice "status" Task.STATUS_CHOICES r
            end ;;
  ret (mkSubtaskData None title description estimated_start_date
                     estimated_end_date priority status).

(** The writable fields of [TaskSerializer] in a POST or PUT. *)
Record TaskPayload : Type := mkTaskPayload
  { tk_title : raw string;
    tk_description : raw string;
    tk_estimated_start_date : raw Z;
    tk_estimated_end_date : raw Z;
    tk_priority : raw string;
    tk_status : raw string;
    tk_subtasks_data : raw (list SubtaskPayload) }.

Record TaskData : Type := mkTaskData
  { vd_title : string;
    vd_description : option string;
    vd_estimated_start_date : Z;
    vd_estimated_end_date : Z;
    vd_priority : option string;
    vd_status : option string;
    vd_subtasks_data : option (list SubtaskData) }.

Definition optional_choice (field : string) (choices : list string)
    (r : raw string) : Req (option string) :=
  match r with
  | Absent => ret None
  | r => s <- choice field choices r ;; ret (Some s)
  end.

(** [TaskSerializer(data=...).is_valid(raise_exception=True)]: the
    model fields, then the nested list, entry by entry. *)
Definition TaskSerializer_is_valid (p : TaskPayload) : Req TaskData :=
  title <- required_char "title" (tk_title p) ;;
  (if (255 <? Z.of_nat (String.length title))
   then raise (ValidationError "title") else ret tt) ;;;
  description <- optional_char "description" (tk_description p) ;;
  estimated_start_date <-
    required "estimated_start_date" (tk_estimated_start_date p) ;;
  estimated_end_date <-
    required "estimated_end_date" (tk_estimated_end_date p) ;;
  priority <- optional_choice "priority" Task.PRIORITY_CHOICES (tk_priority p) ;;
  status <- optional_choice "status" Task.STATUS_CHOICES (tk_status p) ;;
  entries <- optional "subtasks_data" (tk_subtasks_data p) ;;
  subtasks_data <-
    match entries with
    | Some l => subs <- map_req SubtaskCreateSerializer_is_valid l ;;
                ret (Some subs)
    | None => ret None
    end ;;
  ret (mkTaskData title description estimated_start_date estimated_end_date
                  priority status subtasks_data).

Definition or_default {A} (o : option A) (d : A) : A :=
  match o with Some a => a | None => d end.

(** [Task.objects.create(...)]: an INSERT; the primary key comes from
    the store unless the keyword arguments carry one. *)
Definition Task_objects_create
    (now : Z) (pk : option Z) (title : string) (description : option string)
    (created_by : Z) (parent_task : option Z)
    (estimated_start_date estimated_end_date : Z)
    (priority status : option string) : Req Task.t :=
  fun db =>
    let fresh := next_id (map Task.id (tasks db)) in
    let key := or_default pk fresh in
    if existsb (fun t => Task.id t =? key) (tasks db)
    then (Raise IntegrityError, db)
    else
      let row :=
        Task.mk key title (or_default description "") created_by parent_task
                estimated_start_date estimated_end_date
                (or_default priority "MEDIUM") (or_default status "PENDING")
                now now in
      (Ok row, with_tasks (fun l => l ++ [row]) db).

(** [task.save()] on a loaded row; [updated_at] is [auto_now], set on
    the object and in the row. *)
Definition Task_save (now : Z) (t : Task.t) : Req Task.t :=
  let t' :=
    Task.mk (Task.id t) (Task.title t) (Task.description t)
            (Task.created_by t) (Task.parent_task t)
            (Task.estimated_start_date t) (Task.estimated_end_date t)
            (Task.priority t) (Task.status t) (Task.created_at t) now in
  modify (with_tasks (fun rows =>
    if existsb (fun r => Task.id r =? Task.id t) rows
    then map (fun r => if Task.id r =? Task.id t then t' else r) rows
    else rows ++ [t'])) ;;;
  ret t'.

Definition create_subtask (now : Z) (parent : Z) (user : User.t)
    (sub : SubtaskData) : Req unit :=
  Task_objects_create now (sd_id sub) (sd_title sub) (sd_description sub)
    (User.id user) (Some parent)
    (sd_estimated_start_date sub) (sd_estimated_end_date sub)
    (Some (sd_priority sub)) (Some (sd_status sub)) ;;;
  ret tt.

(** [TaskSerializer.create] *)
Definition TaskSerializer_create (now : Z) (user : User.t)
    (validated_data : TaskData) : Req Task.t :=
  let subtasks_data := or_default (vd_subtasks_data validated_data) [] in
  main_task <-
    Task_objects_create now None (vd_title validated_data)
      (vd_description validated_data) (User.id user) None
      (vd_estimated_start_date validated_data)
      (vd_estimated_end_date validated_data)
      (vd_priority validated_data) (vd_status validated_data) ;;
  for_each subtasks_data (create_subtask now (Task.id main_task) user) ;;;
  ret main_task.

(** The [setattr] loops of [TaskSerializer.update]: every key of the
    dictionary overwrites the attribute of the same name. *)
Definition set_task_fields (instance : Task.t) (v : TaskData) : Task.t :=
  Task.mk (Task.id instance) (vd_title v)
          (or_default (vd_description v) (Task.description instance))
          (Task.created_by instance) (Task.parent_task instance)
          (vd_estimated_start_date v) (vd_estimated_end_date v)
          (or_default (vd_priority v) (Task.priority instance))
          (or_default (vd_status v) (Task.status instance))
          (Task.created_at instance) (Task.updated_at instance).

Definition set_subtask_fields (subtask : Task.t) (sub : SubtaskData) : Task.t :=
  Task.mk (Task.id subtask) (sd_title sub)
          (or_default (sd_description sub) (Task.description subtask))
          (Task.created_by subtask) (Task.parent_task subtask)
          (sd_estimated_start_date sub) (sd_estimated_end_date sub)
          (sd_priority sub) (sd_status sub)
          (Task.created_at subtask) (Task.updated_at subtask).

Definition is_child_with_id (sub_id parent : Z) (t : Task.t) : bool :=
  (Task.id t =? sub_id)
  && match Task.parent_task t with
     | Some p => p =? parent
     | None => false
     end.

(** The body of the loop over [subtasks_data] in [TaskSerializer.update]. *)
Definition update_subtask (now : Z) (instance : Task.t) (user : User.t)
    (sub : SubtaskData) : Req unit :=
  let create_branch := create_subtask now (Task.id instance) user sub in
  match sd_id sub with
  | Some sub_id =>
      if sub_id =? 0 then create_branch
      else
        db <- read ;;
        match first (filter (is_child_with_id sub_id (Task.id instance))
                            (tasks db)) with
        | Some subtask =>
            Task_save now (set_subtask_fields subtask sub) ;;; ret tt
        | None => ret tt
        end
  | None => create_branch
  end.

(** [TaskSerializer.update] *)
Definition TaskSerializer_update (now : Z) (user : User.t)
    (instance : Task.t) (validated_data : TaskData) : Req Task.t :=
  let subtasks_data := or_default (vd_subtasks_data validated_data) [] in
  instance <- Task_save now (set_task_fields instance validated_data) ;;
  for_each subtasks_data (update_subtask now instance user) ;;;
  ret instance.

(** POST /tasks/ : validate, then [perform_create]. *)
Definition TaskViewSet_create
    (now : Z) (user : option User.t) (p : TaskPayload) : Req Task.t :=
  caller <- authenticated user ;;
  validated_data <- TaskSerializer_is_valid p ;;
  TaskSerializer_create now caller validated_data.

(** [TaskViewSet.get_object] *)
Definition TaskViewSet_get_object (caller : User.t) (pk : Z) : Req Task.t :=
  db <- read ;;
  get_object_or_404
    (filter (fun t => (Task.id t =? pk)
                      && (Task.created_by t =? User.id caller))
            (tasks db)).

(** PUT /tasks/<pk>/ : fetch the instance, validate, then
    [perform_update]. *)
Definition TaskViewSet_update
    (now : Z) (user : option User.t) (pk : Z) (p : TaskPayload) : Req Task.t :=
  caller <- authenticated user ;;
  instance <- TaskViewSet_get_object caller pk ;;
  validated_data <- TaskSerializer_is_valid p ;;
  TaskSerializer_update now caller instance validated_data.

(** [TaskViewSet.add_subtask] *)
Definition TaskViewSet_add_subtask
    (now : Z) (user : option User.t) (pk : Z) (p : SubtaskPayload)
  : Req string :=
  caller <- authenticated user ;;
  db <- read ;;
  parent_task <-
    get_object_or_404
      (filter (fun t => (Task.id t =? pk)
                        && (Task.created_by t =? User.id caller)
                        && negb (Task.is_subtask t))
              (tasks db)) ;;
  validated_data <- SubtaskCreateSerializer_is_valid p ;;
  create_subtask now (Task.id parent_task) caller validated_data ;;;
  ret "Subtask created successfully".

(* ================================================================== *)
(** * The other message and conversation handlers (models.py, views.py) *)
(* ================================================================== *)

(** [message.save()] on a loaded row: UPDATE by primary key, INSERT
    when no row has that key. *)
Definition Message_save (m : Message.t) : Req unit :=
  modify (with_messages (fun rows =>
    if existsb (fun r => Message.id r =? Message.id m) rows
    then map (fun r => if Message.id r =? Message.id m then m else r) rows
    else rows ++ [m])).

Definition set_is_read (b : bool) (m : Message.t) : Message.t :=
  Message.mk (Message.id m) (Message.conversation m) (Message.sender m)
             (Message.text m) b (Message.timestamp m).

(** [Message.mark_as_read]; the result is the object after the call. *)
Definition Message_mark_as_read (self : Message.t) : Req Message.t :=
  if negb (Message.is_read self)
  then let self := set_is_read true self in
       Message_save self ;;; ret self
  else ret self.

(** views.py, [MessageListCreateAPIView], POST /messages/ : the
    inherited [perform_create] is [serializer.save()], with no sender. *)
Definition MessageListCreateAPIView_create
    (now : Z) (user : option User.t) (p : MessagePayload) : Req Message.t :=
  authenticated user ;;;
  v <- MessageSerializer_is_valid p ;;
  Message_objects_create now (v_conversation v) None (v_text v)
                         (match v_is_read v with Some b => b | None => false end).

(** [Meta.ordering = ["-created_at"]] *)
Definition newest_first {A} (created_at : A -> Z) (rows : list A) : list A :=
  sorted (fun r => - created_at r) rows.

(** [ConversationListCreateAPIView.get_queryset]:
      Conversation.objects.filter(user1=user)
      | Conversation.objects.filter(user2=user) *)
Definition ConversationListCreateAPIView_get_queryset
    (user : User.t) (db : DB) : list Conversation.t :=
  newest_first Conversation.created_at
    (filter (fun c => (Conversation.user1 c =? User.id user)
                      || (Conversation.user2 c =? User.id user))
            (conversations db)).

(* ================================================================== *)
(** * Users (serializers.py, views.py)                                 *)
(* ================================================================== *)

(** [UserViewSet.get_permissions] *)
Definition UserViewSet_get_permissions (a : action) : list permission :=
  if action_eqb a list_ then [IsAuthenticated; IsAdminOrTeamLead]
  else if existsb (action_eqb a) [create; update; partial_update; destroy]
       then [IsAuthenticated; IsAdmin]
       else [IsAuthenticated].

Record CreateUserPayload : Type := mkCreateUserPayload
  { cu_user_id : raw string;
    cu_email : raw string;
    cu_is_admin : raw bool;
    cu_is_teamlead : raw bool;
    cu_is_active : raw bool }.

Record CreateUserData : Type := mkCreateUserData
  { cv_user_id : string;
    cv_email : string;
    cv_is_admin : bool;
    cv_is_teamlead : bool;
    cv_is_active : bool }.

(** [serializers.BooleanField(required=False, default=False)] *)
Definition boolean_default_false (field : string) (r : raw bool) : Req bool :=
  match r with
  | Given b => ret b
  | Absent => ret false
  | Malformed => raise (ValidationError field)
  end.

(** A plain [CharField] asks nothing of the format of its value. *)
Definition any_text (value : string) : bool := true.

(** A model character field with [max_length] and [unique=True]: a
    [CharField], or an [EmailField] whose [format] is the address test;
    the serializer checks the format and the length, and runs a
    [UniqueValidator] against the user table. *)
Definition unique_char (field : string) (max_length : Z)
    (format : string -> bool) (column : User.t -> string) (r : raw string)
  : Req string :=
  s <- required_char field r ;;
  (if format s then ret tt else raise (ValidationError field)) ;;;
  (if max_length <? Z.of_nat (String.length s)
   then raise (ValidationError field) else ret tt) ;;;
  db <- read ;;
  if existsb (fun u => String.eqb (column u) s) (users db)
  then raise (ValidationError field)
  else ret s.

Definition CreateUserSerializer_is_valid {ev : EmailValidator}
    (p : CreateUserPayload) : Req CreateUserData :=
  user_id <- unique_char "user_id" 50 any_text User.user_id (cu_user_id p) ;;
  email <- unique_char "email" 254 valid_email User.email (cu_email p) ;;
  is_admin <- boolean_default_false "is_admin" (cu_is_admin p) ;;
  is_teamlead <- boolean_default_false "is_teamlead" (cu_is_teamlead p) ;;
  is_active <- boolean_default_false "is_active" (cu_is_active p) ;;
  ret (mkCreateUserData user_id email is_admin is_teamlead is_active).

(** [user.save()] of a new user: an INSERT under the two unique
    constraints of the model. *)
Definition User_insert (user_id email : string)
    (is_admin is_teamlead is_active is_staff : bool) (password : credential)
  : Req User.t :=
  fun db =>
    if existsb (fun u => String.eqb (User.user_id u) user_id
                         || String.eqb (User.email u) email) (users db)
    then (Raise IntegrityError, db)
    else
      let row := User.mk (next_id (map User.id (users db))) user_id email
                         is_admin is_teamlead is_active is_staff password in
      (Ok row, with_users (fun l => l ++ [row]) db).

(** [CreateUserSerializer.create]: a [User] built from the validated
    data, then [user.set_unusable_password()] and [user.save()]. *)
Definition CreateUserSerializer_create (validated_data : CreateUserData)
  : Req User.t :=
  User_insert (cv_user_id validated_data) (cv_email validated_data)
              (cv_is_admin validated_data) (cv_is_teamlead validated_data)
              (cv_is_active validated_data) false Unusable.

(** [UserViewSet.create] *)
Definition UserViewSet_create {ev : EmailValidator}
    (user : option User.t) (p : CreateUserPayload) : Req User.t :=
  check_permissions (UserViewSet_get_permissions create) user ;;;
  validated_data <- CreateUserSerializer_is_valid p ;;
  CreateUserSerializer_create validated_data.

(** GET /users/ : [User.objects.all().order_by("id")] *)
Definition UserViewSet_list (user : option User.t) : Req (list User.t) :=
  check_permissions (UserViewSet_get_permissions list_) user ;;;
  db <- read ;;
  ret (sorted User.id (users db)).

(* ================================================================== *)
(** * The remaining permission classes (permissions.py, views.py)      *)
(* ================================================================== *)

(** views.py, [IsTeamCreator.has_object_permission]: the class
    [TeamViewSet] uses. *)
Definition views_IsTeamCreator (user : User.t) (obj : Team.t) : bool :=
  Team.created_by obj =? User.id user.

(** [IsTeamCreatorForTask.has_permission]; [team] is
    [request.data.get("team")]. *)
Definition IsTeamCreatorForTask_has_permission
    (user : User.t) (view_action : action) (team : option Z) : Req bool :=
  if negb (action_eqb view_action create) then ret true
  else
    match team with
    | None => ret false
    | Some team_id =>
        if team_id =? 0 then ret false
        else
          db <- read ;;
          catch
            (t <- get (filter (fun t => Team.id t =? team_id) (teams db)) ;;
             ret (Team.created_by t =? User.id user))
            (fun e => match e with
                      | DoesNotExist => Some (ret false)
                      | _ => None
                      end)
    end.

(* ================================================================== *)
(** * Teams: list, update, destroy (views.py, serializers.py)          *)
(* ================================================================== *)

(** [TeamViewSet.get_queryset]; a team row holds its member set, so the
    [.distinct()] of the source has nothing to remove here. *)
Definition TeamViewSet_get_queryset (a : action) (user : User.t) (db : DB)
  : list Team.t :=
  newest_first Team.created_at
    (if existsb (action_eqb a) [update; partial_update; destroy]
     then filter (fun t => Team.created_by t =? User.id user) (teams db)
     else filter (fun t => (Team.created_by t =? User.id user)
                           || existsb (Z.eqb (User.id user)) (Team.members t))
                 (teams db)).

(** [has_object_permission] of the permission classes a view lists;
    only views.py's [IsTeamCreator] defines one. *)
Definition has_object_permission (p : permission) (user : option User.t)
    (obj : Team.t) : bool :=
  match p, user with
  | IsTeamCreator, Some u => views_IsTeamCreator u obj
  | IsTeamCreator, None => false
  | _, _ => true
  end.

(** [GenericAPIView.get_object] on [TeamViewSet]: fetch from the
    queryset of the action, then [check_object_permissions]. *)
Definition TeamViewSet_get_object (a : action) (user : option User.t)
    (caller : User.t) (pk : Z) : Req Team.t :=
  db <- read ;;
  obj <- get_object_or_404
           (filter (fun t => Team.id t =? pk)
                   (TeamViewSet_get_queryset a caller db)) ;;
  if forallb (fun p => has_object_permission p user obj)
             (TeamViewSet_get_permissions a)
  then ret obj
  else raise PermissionDenied.

(** The validated data of [TeamSerializer]; with [partial=True] no key
    is required. *)
Record TeamData : Type := mkTeamData
  { ud_name : option string;
    ud_description : option string;
    ud_members : option (list User.t) }.

Definition TeamSerializer_is_valid (partial : bool) (p : CreateTeamPayload)
  : Req TeamData :=
  name <- match tp_name p with
          | Absent => if partial then ret None
                      else raise (ValidationError "name")
          | r => s <- required_char "name" r ;; ret (Some s)
          end ;;
  (match name with
   | Some s => if 100 <? Z.of_nat (String.length s)
               then raise (ValidationError "name") else ret tt
   | None => ret tt
   end) ;;;
  description <- optional_char "description" (tp_description p) ;;
  slugs <- optional "members" (tp_members p) ;;
  members <- match slugs with
             | Some l => us <- map_req slug_to_user l ;; ret (Some us)
             | None => ret None
             end ;;
  ret (mkTeamData name description members).

(** [team.members.set(objs)] *)
Definition Team_members_set (team_id : Z) (objs : list Z) : Req unit :=
  modify (with_teams (map (fun t =>
    if Team.id t =? team_id
    then Team.mk (Team.id t) (Team.name t) (Team.description t)
                 (Team.created_by t) (members_add objs [])
                 (Team.created_at t)
    else t))).

(** [team.save()] on a loaded row; the member set is not a column. *)
Definition Team_save (t : Team.t) : Req unit :=
  modify (with_teams (map (fun r =>
    if Team.id r =? Team.id t
    then Team.mk (Team.id t) (Team.name t) (Team.description t)
                 (Team.created_by t) (Team.members r) (Team.created_at t)
    else r))).

(** [TeamViewSet.perform_update]: [serializer.save()] writes the fields
    and sets the members it was given; the view then sets the members
    again. *)
Definition TeamViewSet_perform_update (instance : Team.t) (v : TeamData)
  : Req unit :=
  let team :=
    Team.mk (Team.id instance)
            (or_default (ud_name v) (Team.name instance))
            (or_default (ud_description v) (Team.description instance))
            (Team.created_by instance) (Team.members instance)
            (Team.created_at instance) in
  Team_save team ;;;
  match ud_members v with
  | Some ms => Team_members_set (Team.id team) (map User.id ms)
  | None => ret tt
  end ;;;
  match ud_members v with
  | Some members => Team_members_set (Team.id team) (map User.id members)
  | None => ret tt
  end.

(** PUT and PATCH /teams/<pk>/ ; the response shows the stored row. *)
Definition TeamViewSet_update (partial : bool) (user : option User.t)
    (pk : Z) (p : CreateTeamPayload) : Req Team.t :=
  let a := if partial then partial_update else update in
  check_permissions (TeamViewSet_get_permissions a) user ;;;
  caller <- authenticated user ;;
  instance <- TeamViewSet_get_object a user caller pk ;;
  v <- TeamSerializer_is_valid partial p ;;
  TeamViewSet_perform_update instance v ;;;
  db <- read ;;
  get (filter (fun t => Team.id t =? Team.id instance) (teams db)).

(** DELETE /teams/<pk>/ ; nothing else in the store refers to a team. *)
Definition TeamViewSet_destroy (user : option User.t) (pk : Z) : Req unit :=
  check_permissions (TeamViewSet_get_permissions destroy) user ;;;
  caller <- authenticated user ;;
  instance <- TeamViewSet_get_object destroy user caller pk ;;
  modify (with_teams (filter (fun t => negb (Team.id t =? Team.id instance)))).

(* ================================================================== *)
(** * Todos (views.py, serializers.py)                                 *)
(* ================================================================== *)

Definition with_todos (f : list Todo.t -> list Todo.t) (db : DB) : DB :=
  mkDB (users db) (teams db) (tasks db) (f (todos db))
       (conversations db) (messages db).

(** A response built by the handler itself: status code and body. *)
Record Response (A : Type) : Type := mkResponse
  { status_code : Z;
    data : A }.
Arguments mkResponse {A} status_code data.
Arguments status_code {A} r.
Arguments data {A} r.

Record TodoPayload : Type := mkTodoPayload
  { tdp_title : raw string;
    tdp_date : raw Z;
    tdp_is_done : raw bool }.

Record TodoData : Type := mkTodoData
  { tdv_title : string;
    tdv_date : Z;
    tdv_is_done : option bool }.

Definition TodoSerializer_is_valid (p : TodoPayload) : Req TodoData :=
  title <- required_char "title" (tdp_title p) ;;
  (if 255 <? Z.of_nat (String.length title)
   then raise (ValidationError "title") else ret tt) ;;;
  date <- required "date" (tdp_date p) ;;
  is_done <- optional "is_done" (tdp_is_done p) ;;
  ret (mkTodoData title date is_done).

Definition Todo_objects_create (title : string) (date : Z) (is_done : bool)
    (created_by : Z) : Req Todo.t :=
  fun db =>
    let row := Todo.mk (next_id (map Todo.id (todos db)))
                       title date is_done created_by in
    (Ok row, with_todos (fun l => l ++ [row]) db).

(** [todo.save()] on a loaded row. *)
Definition Todo_save (t : Todo.t) : Req unit :=
  modify (with_todos (fun rows =>
    if existsb (fun r => Todo.id r =? Todo.id t) rows
    then map (fun r => if Todo.id r =? Todo.id t then t else r) rows
    else rows ++ [t])).

(** [TodoViewSet.list]; [date] is the query parameter when it is given
    and not empty, as a date.  [Meta.ordering = ["date"]]. *)
Definition TodoViewSet_list (user : option User.t) (date : option Z)
  : Req (list Todo.t) :=
  caller <- authenticated user ;;
  db <- read ;;
  let todos :=
    match date with
    | Some date_str =>
        filter (fun t => (Todo.date t =? date_str)
                         && (Todo.created_by t =? User.id caller)
                         && negb (Todo.is_done t))
               (todos db)
    | None =>
        filter (fun t => (Todo.created_by t =? User.id caller)
                         && negb (Todo.is_done t))
               (todos db)
    end in
  ret (sorted Todo.date todos).

(** [TodoViewSet.create]: [serializer.is_valid()] does not raise; 201
    with the new row, or 400 with the errors. *)
Definition TodoViewSet_create (user : option User.t) (p : TodoPayload)
  : Req (Response (Todo.t + string)) :=
  caller <- authenticated user ;;
  valid <- catch (v <- TodoSerializer_is_valid p ;; ret (inl v))
                 (fun e => match e with
                           | ValidationError detail => Some (ret (inr detail))
                           | _ => None
                           end) ;;
  match valid with
  | inl v =>
      t <- Todo_objects_create (tdv_title v) (tdv_date v)
             (or_default (tdv_is_done v) false) (User.id caller) ;;
      ret (mkResponse 201 (inl t))
  | inr errors => ret (mkResponse 400 (inr errors))
  end.

Definition set_is_done (b : bool) (t : Todo.t) : Todo.t :=
  Todo.mk (Todo.id t) (Todo.title t) (Todo.date t) b (Todo.created_by t).

(** [TodoViewSet.update] *)
Definition TodoViewSet_update (user : option User.t) (pk : Z)
  : Req (Response string) :=
  caller <- authenticated user ;;
  db <- read ;;
  found <- catch
             (todo <- get (filter (fun t => (Todo.id t =? pk)
                                            && (Todo.created_by t
                                                =? User.id caller))
                                  (todos db)) ;;
              ret (Some todo))
             (fun e => match e with
                       | DoesNotExist => Some (ret None)
                       | _ => None
                       end) ;;
  match found with
  | None => ret (mkResponse 404 "Todo not found")
  | Some todo =>
      Todo_save (set_is_done true todo) ;;;
      ret (mkResponse 200 "completed")
  end.

(* ================================================================== *)
(** * Tasks: the list (views.py, serializers.py)                       *)
(* ================================================================== *)

(** [TaskViewSet.get_queryset] *)
Definition TaskViewSet_get_queryset (user : User.t) (db : DB) : list Task.t :=
  newest_first Task.created_at
    (filter (fun t => (Task.created_by t =? User.id user)
                      && negb (Task.is_subtask t))
            (tasks db)).

(** [task.subtasks.all()], what [SubTaskSerializer(many=True)] shows. *)
Definition subtasks_of (task : Task.t) (db : DB) : list Task.t :=
  newest_first Task.created_at
    (filter (fun t => match Task.parent_task t with
                      | Some p => p =? Task.id task
                      | None => false
                      end)
            (tasks db)).

(** GET /tasks/ : each task with its subtasks attached. *)
Definition TaskViewSet_list (user : option User.t)
  : Req (list (Task.t * list Task.t)) :=
  caller <- authenticated user ;;
  db <- read ;;
  ret (map (fun t => (t, subtasks_of t db))
           (TaskViewSet_get_queryset caller db)).

(* ================================================================== *)
(** * Tasks: delete (views.py, models.py)                              *)
(* ================================================================== *)

Definition has_parent_in (ids : list Z) (t : Task.t) : bool :=
  match Task.parent_task t with
  | Some p => existsb (Z.eqb p) ids
  | None => false
  end.

(** The keys a delete collects: [parent_task] is declared with
    [on_delete=models.CASCADE], so the rows whose parent is collected
    are collected too, round after round.  The rounds are bounded by
    the number of rows, the longest a chain of parents can be. *)
Fixpoint cascade (rounds : nat) (ids : list Z) (rows : list Task.t) : list Z :=
  match rounds with
  | O => ids
  | S n => cascade n (ids ++ map Task.id (filter (has_parent_in ids) rows)) rows
  end.

(** [task.delete()] *)
Definition Task_delete (t : Task.t) : Req unit :=
  modify (with_tasks (fun rows =>
    let collected := cascade (List.length rows) [Task.id t] rows in
    filter (fun r => negb (existsb (Z.eqb (Task.id r)) collected)) rows)).

(** DELETE /tasks/<pk>/ : [get_object], then [instance.delete()]. *)
Definition TaskViewSet_destroy (user : option User.t) (pk : Z) : Req unit :=
  caller <- authenticated user ;;
  instance <- TaskViewSet_get_object caller pk ;;
  Task_delete instance.

(* ================================================================== *)
(** * Users: update (views.py, serializers.py)                         *)
(* ================================================================== *)

(** The validated data of [UserSerializer]; with [partial=True] no key
    is required, and the three flags are never required. *)
Record UserData : Type := mkUserData
  { uv_user_id : option string;
    uv_email : option string;
    uv_is_admin : option bool;
    uv_is_teamlead : option bool;
    uv_is_active : option bool }.

(** A unique character field of [UserSerializer] on an update: the
    [UniqueValidator] leaves the row being updated out of the
    comparison. *)
Definition unique_char_on_update (field : string) (max_length : Z)
    (format : string -> bool) (column : User.t -> string) (partial : bool)
    (instance : User.t) (r : raw string) : Req (option string) :=
  match r with
  | Absent => if partial then ret None else raise (ValidationError field)
  | r =>
      s <- required_char field r ;;
      (if format s then ret tt else raise (ValidationError field)) ;;;
      (if max_length <? Z.of_nat (String.length s)
       then raise (ValidationError field) else ret tt) ;;;
      db <- read ;;
      if existsb (fun u => String.eqb (column u) s
                           && negb (User.id u =? User.id instance))
                 (users db)
      then raise (ValidationError field)
      else ret (Some s)
  end.

Definition UserSerializer_is_valid {ev : EmailValidator} (partial : bool)
    (instance : User.t) (p : CreateUserPayload) : Req UserData :=
  user_id <- unique_char_on_update "user_id" 50 any_text User.user_id
               partial instance (cu_user_id p) ;;
  email <- unique_char_on_update "email" 254 valid_email User.email
             partial instance (cu_email p) ;;
  is_admin <- optional "is_admin" (cu_is_admin p) ;;
  is_teamlead <- optional "is_teamlead" (cu_is_teamlead p) ;;
  is_active <- optional "is_active" (cu_is_active p) ;;
  ret (mkUserData user_id email is_admin is_teamlead is_active).

(** [ModelSerializer.update]: every validated key overwrites the
    attribute of the same name. *)
Definition set_user_fields (instance : User.t) (v : UserData) : User.t :=
  User.mk (User.id instance)
          (or_default (uv_user_id v) (User.user_id instance))
          (or_default (uv_email v) (User.email instance))
          (or_default (uv_is_admin v) (User.is_admin instance))
          (or_default (uv_is_teamlead v) (User.is_teamlead instance))
          (or_default (uv_is_active v) (User.is_active instance))
          (User.is_staff instance) (User.password instance).

(** PUT and PATCH /users/<pk>/ *)
Definition UserViewSet_update {ev : EmailValidator} (partial : bool)
    (user : option User.t) (pk : Z) (p : CreateUserPayload) : Req User.t :=
  let a := if partial then partial_update else update in
  check_permissions (UserViewSet_get_permissions a) user ;;;
  db <- read ;;
  instance <- get_object_or_404
                (filter (fun u => User.id u =? pk) (sorted User.id (users db))) ;;
  v <- UserSerializer_is_valid partial instance p ;;
  let instance := set_user_fields instance v in
  User_save instance ;;;
  ret instance.

(* ================================================================== *)
(** * Vocabulary of the properties                                     *)
(* ================================================================== *)

Definition key_le {A} (key : A -> Z) (x y : A) : Prop := key x <= key y.

(** A handler that leaves the store as it found it. *)
Definition read_only {A} (c : Req A) : Prop := forall db, snd (c db) = db.

(** A validation step: it returns or raises [ValidationError], and
    writes nothing. *)
Definition validation {A} (c : Req A) : Prop :=
  forall db, (exists a, c db = (Ok a, db))
             \/ (exists detail, c db = (Raise (ValidationError detail), db)).

(** A validation step that refuses on the store [db]; one that refuses
    on every store. *)
Definition rejects {A} (c : Req A) (db : DB) : Prop :=
  exists detail, c db = (Raise (ValidationError detail), db).

Definition rejected {A} (c : Req A) : Prop := forall db, rejects c db.

(** An invalid subtask payload: one [SubtaskCreateSerializer] does not
    accept. *)
Definition invalid_subtask (s : SubtaskPayload) (db : DB) : Prop :=
  forall v, SubtaskCreateSerializer_is_valid s db <> (Ok v, db).

Definition new_conversation (now a b : Z) (db : DB) : Conversation.t :=
  Conversation.mk (next_id (map Conversation.id (conversations db))) a b now.

Definition add_conversation (c : Conversation.t) (db : DB) : DB :=
  with_conversations (fun l => l ++ [c]) db.

(** The store's constraint [unique_conversation_pair]. *)
Definition unique_conversation_pair (db : DB) : Prop :=
  NoDup (map (fun c => (Conversation.user1 c, Conversation.user2 c))
             (conversations db)).

(** Two rows are conversations of the same unordered pair of users. *)
Definition same_pair (c d : Conversation.t) : Prop :=
  (Conversation.user1 c = Conversation.user1 d
   /\ Conversation.user2 c = Conversation.user2 d)
  \/ (Conversation.user1 c = Conversation.user2 d
      /\ Conversation.user2 c = Conversation.user1 d).

Definition one_row_per_pair (db : DB) : Prop :=
  ForallOrdPairs (fun c d => ~ same_pair c d) (conversations db).

(** The invariant with the strict order, [user1.id < user2.id]. *)
Definition canonical_strict (db : DB) : Prop :=
  Forall (fun c => Conversation.user1 c < Conversation.user2 c)
         (conversations db)
  /\ one_row_per_pair db.

(** The invariant with [user1.id <= user2.id]: equality is the
    conversation of a user with themselves. *)
Definition canonical (db : DB) : Prop :=
  Forall (fun c => Conversation.user1 c <= Conversation.user2 c)
         (conversations db)
  /\ one_row_per_pair db.

(** The requests and calls that save a conversation. *)
Inductive conversation_op : Type :=
| OpSave (self : ConversationInstance)
| OpGetOrCreate (user1 user2 : User.t)
| OpSendMessage (user : option User.t) (receiver_id : Z)
                (text : option string)
| OpChatHistory (user : option User.t) (user_id : Z)
| OpCreateConversation (user : option User.t).

Definition run_conversation_op (now : Z) (op : conversation_op) (db : DB)
  : DB :=
  match op with
  | OpSave self => snd (Conversation_save now self db)
  | OpGetOrCreate user1 user2 =>
      snd (get_or_create_conversation now user1 user2 db)
  | OpSendMessage user receiver_id text =>
      snd (SendMessageView_post now user receiver_id text db)
  | OpChatHistory user user_id => snd (ChatHistoryView_get now user user_id db)
  | OpCreateConversation user =>
      snd (ConversationListCreateAPIView_create now user db)
  end.

(** A message refers to a conversation one of whose two participants is
    its sender. *)
Definition sender_participates (db : DB) (m : Message.t) : Prop :=
  exists c, In c (conversations db)
            /\ Conversation.id c = Message.conversation m
            /\ (Message.sender m = Conversation.user1 c
                \/ Message.sender m = Conversation.user2 c).

Definition senders_are_participants (db : DB) : Prop :=
  Forall (sender_participates db) (messages db).

(** Referential integrity of [Message.conversation]. *)
Definition messages_refer_to_conversations (db : DB) : Prop :=
  Forall (fun m => In (Message.conversation m)
                      (map Conversation.id (conversations db)))
         (messages db).

(** What a handler may do to the conversation table: nothing, or append
    one row for a pair [lo <= hi] that had none. *)
Definition conversation_step (now : Z) (db db' : DB) : Prop :=
  conversations db' = conversations db
  \/ exists lo hi,
       lo <= hi
       /\ existsb (pair_is lo hi) (conversations db) = false
       /\ conversations db' = conversations db ++ [new_conversation now lo hi db].

(** The user row after a successful set-password request. *)
Definition activated (password : string) (u : User.t) : User.t :=
  User.set_is_active true (User.set_password password u).

Definition replace_user (u u' : User.t) (rows : list User.t) : list User.t :=
  map (fun r => if User.id r =? User.id u then u' else r) rows.

(** What a handler returns, when it returns. *)
Definition returns {A} (P : A -> Prop) (c : Req A) : Prop :=
  forall db a db', c db = (Ok a, db') -> P a.

(** A handler that leaves every task row whose key is not [pk] in the
    table, as it was. *)
Definition keeps_other_tasks {A} (pk : Z) (c : Req A) : Prop :=
  forall db t, In t (tasks db) -> Task.id t <> pk ->
               In t (tasks (snd (c db))).

Definition without_id (subs : option (list SubtaskData)) : Prop :=
  Forall (fun sub => sd_id sub = None) (or_default subs []).

(** Sample rows used to run the handlers. *)
Definition alice : User.t :=
  User.mk 1 "alice" "alice@example.com" false false true false (Usable "pw").
Definition bob : User.t :=
  User.mk 2 "bob" "bob@example.com" false false true false (Usable "pw").
Definition carol : User.t :=
  User.mk 3 "carol" "carol@example.com" false false true false Unusable.

(** A store with one conversation, between alice and bob. *)
Definition chat_db : DB :=
  mkDB [alice; bob; carol] [] [] [] [Conversation.mk 1 1 2 0] [].

(** A store with a task of alice (1) that has one subtask (2). *)
Definition task_db : DB :=
  mkDB [alice; bob; carol] []
       [Task.mk 1 "release" "" 1 None 10 20 "MEDIUM" "PENDING" 0 0;
        Task.mk 2 "changelog" "" 1 (Some 1) 10 12 "LOW" "PENDING" 0 0]
       [] [] [].

Definition subtask_payload (pk : raw Z) (title : string) : SubtaskPayload :=
  mkSubtaskPayload pk (Given title) Absent (Given 11) (Given 12)
                   (Given "HIGH") Absent.

(** The last step of [SendMessageView.post], once the conversation [c]
    is at hand in the store [db]. *)
Definition deliver (now : Z) (caller : User.t) (text : option string)
    (c : Conversation.t) (db : DB) : outcome Message.t * DB :=
  match text with
  | None => (Raise KeyError, db)
  | Some t =>
      let m := Message.mk (next_id (map Message.id (messages db)))
                          (Conversation.id c) (User.id caller) t false now in
      (Ok m, with_messages (fun l => l ++ [m]) db)
  end.

(** The conversation [c] is in the list GET /conversations/ gives [u]. *)
Definition lists_conversation (u : User.t) (c : Conversation.t) (db : DB)
  : Prop :=
  In c (ConversationListCreateAPIView_get_queryset u db).

(** The three unique columns of the user table. *)
Definition users_unique (db : DB) : Prop :=
  NoDup (map User.id (users db))
  /\ NoDup (map User.user_id (users db))
  /\ NoDup (map User.email (users db)).

Definition dave_admin : User.t :=
  User.mk 4 "dave" "dave@example.com" true false true true (Usable "pw").


(** A store with one team: created by bob, with bob and alice in it. *)
Definition team_db : DB :=
  mkDB [alice; bob; carol]
       [Team.mk 1 "search" "" 2 [2; 1] 0]
       [] [] [] [].



(** A store with two todos of alice and one of bob. *)
Definition todo_db : DB :=
  mkDB [alice; bob] [] []
       [Todo.mk 1 "water plants" 20 false 1;
        Todo.mk 2 "file taxes" 10 false 1;
        Todo.mk 3 "call mum" 10 false 2]
       [] [].

(** The row [create_subtask] writes for a validated entry, under the
    primary key [key]. *)
Definition subtask_row (now parent : Z) (user : User.t) (sub : SubtaskData)
    (key : Z) : Task.t :=
  Task.mk key (sd_title sub) (or_default (sd_description sub) "")
          (User.id user) (Some parent)
          (sd_estimated_start_date sub) (sd_estimated_end_date sub)
          (sd_priority sub) (sd_status sub) now now.

(** The task table after the loop over the validated entries: one row
    per entry, in order, each under the next free key. *)
Fixpoint append_subtasks (now parent : Z) (user : User.t)
    (subs : list SubtaskData) (rows : list Task.t) : list Task.t :=
  match subs with
  | [] => rows
  | sub :: subs' =>
      append_subtasks now parent user subs'
        (rows ++ [subtask_row now parent user sub (next_id (map Task.id rows))])
  end.

(** The row [TaskSerializer.create] writes for the task itself. *)
Definition main_task_row (now : Z) (user : User.t) (v : TaskData) (key : Z)
  : Task.t :=
  Task.mk key (vd_title v) (or_default (vd_description v) "")
          (User.id user) None
          (vd_estimated_start_date v) (vd_estimated_end_date v)
          (or_default (vd_priority v) "MEDIUM")
          (or_default (vd_status v) "PENDING") now now.

(** The row of a task after [TaskSerializer.update] saved it. *)
Definition saved_task (now : Z) (instance : Task.t) (v : TaskData) : Task.t :=
  let t := set_task_fields instance v in
  Task.mk (Task.id t) (Task.title t) (Task.description t)
          (Task.created_by t) (Task.parent_task t)
          (Task.estimated_start_date t) (Task.estimated_end_date t)
          (Task.priority t) (Task.status t) (Task.created_at t) now.

(** Nesting is one level deep: the parent of a subtask exists and is
    itself a top-level task. *)
Definition nested_once (rows : list Task.t) : Prop :=
  forall t p,
    In t rows -> Task.parent_task t = Some p ->
    (exists q, In q rows /\ Task.id q = p)
    /\ (forall q, In q rows -> Task.id q = p -> Task.parent_task q = None).

Definition tasks_well_formed (db : DB) : Prop :=
  NoDup (map Task.id (tasks db)) /\ nested_once (tasks db).

(** The values a required [CharField] accepts: something is left
    after trimming, and it holds no NUL character. *)
Definition accepted (data : string) : Prop :=
  strip data <> "" /\ has_nul (strip data) = false.

(** A string of whitespace only, the empty string included. *)
Fixpoint all_space (s : string) : bool :=
  match s with
  | String c s' => is_space c && all_space s'
  | EmptyString => true
  end.

(** The value of an optional key, or its default. *)
Definition given_or {A} (r : raw A) (d : A) : A :=
  match r with Given a => a | _ => d end.

(** The payloads [TodoSerializer] accepts: a title that is accepted and
    has at most 255 characters once trimmed, a date, and no ill-formed
    flag. *)
Definition todo_accepted (p : TodoPayload) : Prop :=
  exists title date,
    tdp_title p = Given title /\ accepted title
    /\ Z.of_nat (String.length (strip title)) <= 255
    /\ tdp_date p = Given date
    /\ tdp_is_done p <> Malformed.

(** An address test to run the examples with: it asks for an at sign. *)
Fixpoint has_at_sign (s : string) : bool :=
  match s with
  | String c s' => Ascii.eqb c "@" || has_at_sign s'
  | EmptyString => false
  end.

Definition sample_validator : EmailValidator := has_at_sign.

(* ================================================================== *)
(** * General facts about the ORM operations                           *)
(* ================================================================== *)

Section ListFacts.
Context {A : Type}.

Lemma filter_nil_existsb (f : A -> bool) (l : list A) :
  filter f l = [] -> existsb f l = false.
Proof.
  induction l as [|x l IH]; simpl; [reflexivity|].
  destruct (f x); [discriminate | exact IH].
Qed.

Lemma existsb_false_filter (f : A -> bool) (l : list A) :
  existsb f l = false -> filter f l = [].
Proof.
  induction l as [|x l IH]; simpl; [reflexivity|].
  destruct (f x); simpl; [discriminate | exact IH].
Qed.

Lemma filter_cons_existsb (f : A -> bool) (l : list A) x r :
  filter f l = x :: r -> existsb f l = true.
Proof.
  intros H. destruct (existsb f l) eqn:E; [reflexivity|].
  rewrite (existsb_false_filter _ _ E) in H. discriminate.
Qed.

Lemma filter_In_head (f : A -> bool) (l : list A) x r :
  filter f l = x :: r -> In x l /\ f x = true.
Proof.
  intros H. apply filter_In. rewrite H. left. reflexivity.
Qed.

Lemma insert_by_perm (key : A -> Z) x l :
  Permutation (x :: l) (insert_by key x l).
Proof.
  induction l as [|y l IH]; simpl; [reflexivity|].
  destruct (key x <=? key y); [reflexivity|].
  rewrite perm_swap. constructor. exact IH.
Qed.

Lemma sorted_perm (key : A -> Z) l : Permutation l (sorted key l).
Proof.
  induction l as [|x l IH]; simpl; [constructor|].
  rewrite <- insert_by_perm. constructor. exact IH.
Qed.

Lemma insert_by_sorted (key : A -> Z) x l :
  StronglySorted (key_le key) l ->
  StronglySorted (key_le key) (insert_by key x l).
Proof.
  induction 1 as [|y l Hs IH Hy]; simpl.
  - repeat constructor.
  - destruct (key x <=? key y) eqn:E.
    + apply Z.leb_le in E. constructor.
      * constructor; assumption.
      * constructor; [exact E|].
        eapply Forall_impl; [|exact Hy].
        unfold key_le. intros; lia.
    + apply Z.leb_gt in E. constructor; [exact IH|].
      rewrite <- insert_by_perm. constructor; [|exact Hy].
      unfold key_le. lia.
Qed.

Lemma sorted_sorted (key : A -> Z) l :
  StronglySorted (key_le key) (sorted key l).
Proof.
  induction l as [|x l IH]; simpl;
    [constructor | apply insert_by_sorted, IH].
Qed.

Lemma sorted_pair (key : A -> Z) a b :
  sorted key [a; b] = if key a <=? key b then [a; b] else [b; a].
Proof. reflexivity. Qed.

Lemma ForallOrdPairs_snoc (R : A -> A -> Prop) l x :
  ForallOrdPairs R l -> Forall (fun a => R a x) l ->
  ForallOrdPairs R (l ++ [x]).
Proof.
  induction 1 as [|a l Ha Hl IH]; intros Hx; simpl.
  - repeat constructor.
  - inversion Hx; subst. constructor; [|apply IH; assumption].
    apply Forall_app. split; [exact Ha | repeat constructor; assumption].
Qed.
End ListFacts.

Lemma next_id_above (ids : list Z) x : In x ids -> x < next_id ids.
Proof.
  unfold next_id. induction ids as [|y ids IH]; cbn [fold_right In]; [tauto|].
  intros [->|H]; [|specialize (IH H)]; lia.
Qed.

Lemma next_id_fresh (ids : list Z) : ~ In (next_id ids) ids.
Proof. intros H. apply next_id_above in H. lia. Qed.

Lemma read_only_ret {A} (a : A) : read_only (ret a).
Proof. intros db; reflexivity. Qed.

Lemma read_only_raise {A} e : read_only (@raise A e).
Proof. intros db; reflexivity. Qed.

Lemma read_only_read : read_only read.
Proof. intros db; reflexivity. Qed.

Lemma read_only_bind {A B} (c : Req A) (k : A -> Req B) :
  read_only c -> (forall a, read_only (k a)) -> read_only (bind c k).
Proof.
  intros Hc Hk db. unfold bind. specialize (Hc db).
  destruct (c db) as [[a|e] db']; simpl in *; subst; [apply Hk | reflexivity].
Qed.

Lemma read_only_get {A} (rows : list A) : read_only (get rows).
Proof. destruct rows as [|r [|r' rows]]; intros db; reflexivity. Qed.

Lemma read_only_catch {A} (c : Req A) h :
  read_only c -> (forall e k, h e = Some k -> read_only k) ->
  read_only (catch c h).
Proof.
  intros Hc Hh db. unfold catch. specialize (Hc db).
  destruct (c db) as [[a|e] db']; simpl in *; subst; [reflexivity|].
  destruct (h e) as [k|] eqn:E; [eapply Hh; eauto | reflexivity].
Qed.

Lemma read_only_check_permissions ps user :
  read_only (check_permissions ps user).
Proof.
  unfold check_permissions. destruct (forallb _ ps);
    [apply read_only_ret | destruct user; apply read_only_raise].
Qed.

Lemma read_only_authenticated user : read_only (authenticated user).
Proof.
  apply read_only_bind; [apply read_only_check_permissions|].
  intros _. destruct user; [apply read_only_ret | apply read_only_raise].
Qed.

Lemma authenticated_some u db : authenticated (Some u) db = (Ok u, db).
Proof. reflexivity. Qed.

(** Trimming leaves nothing exactly of the strings of whitespace, and
    trimming twice is trimming once. *)
Lemma all_space_lstrip s : all_space (lstrip s) = all_space s.
Proof.
  induction s as [|c s IH]; [reflexivity|]. cbn [lstrip all_space].
  destruct (is_space c) eqn:E; [exact IH|].
  cbn [all_space]. rewrite E. reflexivity.
Qed.

Lemma rstrip_blank s : rstrip s = "" <-> all_space s = true.
Proof.
  induction s as [|c s IH]; [split; reflexivity|]. cbn [rstrip all_space].
  destruct (rstrip s) as [|d t].
  - destruct (is_space c); cbn [andb].
    + split; intros _; [apply IH|]; reflexivity.
    + split; discriminate.
  - split; [discriminate|]. intros H. apply andb_true_iff in H.
    destruct H as [_ H]. apply IH in H. discriminate H.
Qed.

Lemma strip_blank s : strip s = "" <-> all_space s = true.
Proof. unfold strip. rewrite rstrip_blank, all_space_lstrip. tauto. Qed.

Lemma lstrip_idempotent s : lstrip (lstrip s) = lstrip s.
Proof.
  induction s as [|c s IH]; [reflexivity|]. cbn [lstrip].
  destruct (is_space c) eqn:E; [exact IH|]. cbn [lstrip]. rewrite E.
  reflexivity.
Qed.

Lemma rstrip_idempotent s : rstrip (rstrip s) = rstrip s.
Proof.
  induction s as [|c s IH]; [reflexivity|]. cbn [rstrip].
  destruct (rstrip s) as [|d t] eqn:E.
  - destruct (is_space c) eqn:Ec; [reflexivity|].
    cbn [rstrip]. rewrite Ec. reflexivity.
  - cbn [rstrip]. cbn [rstrip] in IH. rewrite IH. reflexivity.
Qed.

Lemma lstrip_rstrip s : lstrip (rstrip (lstrip s)) = rstrip (lstrip s).
Proof.
  induction s as [|c s IH]; [reflexivity|]. cbn [lstrip].
  destruct (is_space c) eqn:E; [exact IH|]. cbn [rstrip].
  destruct (rstrip s) as [|d t]; rewrite ?E; cbn [lstrip]; rewrite E;
    reflexivity.
Qed.

Lemma strip_idempotent s : strip (strip s) = strip s.
Proof.
  unfold strip. rewrite lstrip_rstrip. apply rstrip_idempotent.
Qed.

Example strip_examples :
  strip "  buy milk " = "buy milk"
  /\ strip "   " = ""
  /\ strip "release" = "release"
  /\ strip (String "009" (String "010" "a b")) = "a b".
Proof. repeat split. Qed.

Lemma required_char_given f s db :
  accepted s -> required_char f (Given s) db = (Ok (strip s), db).
Proof.
  intros [Hb Hn]. unfold required_char. cbv zeta.
  apply String.eqb_neq in Hb. rewrite Hb, Hn. reflexivity.
Qed.

(** A required character field hands on the trimmed value of an
    accepted one, and refuses every other payload. *)
Lemma required_char_cases f r db :
  (exists s, r = Given s /\ accepted s
             /\ required_char f r db = (Ok (strip s), db))
  \/ ((forall s, r = Given s -> ~ accepted s)
      /\ required_char f r db = (Raise (ValidationError f), db)).
Proof.
  destruct r as [| |s]; try (right; split; [discriminate | reflexivity]).
  unfold required_char. cbv zeta.
  destruct (String.eqb (strip s) "") eqn:Eb.
  - right. split; [|reflexivity]. intros s' E [Hb _]. inversion E; subst s'.
    apply String.eqb_eq in Eb. contradiction.
  - destruct (has_nul (strip s)) eqn:En.
    + right. split; [|reflexivity]. intros s' E [_ Hn]. inversion E; subst s'.
      congruence.
    + left. exists s. apply String.eqb_neq in Eb.
      repeat split; assumption.
Qed.

Lemma required_char_refused f s db :
  ~ accepted s ->
  required_char f (Given s) db = (Raise (ValidationError f), db).
Proof.
  intros Hs.
  destruct (required_char_cases f (Given s) db)
    as [(s' & E & Ha & _) | [_ Hr]]; [|exact Hr].
  inversion E; subst s'. contradiction.
Qed.

Lemma email_field_given {ev : EmailValidator} f s db :
  accepted s -> valid_email (strip s) = true ->
  email_field f (Given s) db = (Ok (strip s), db).
Proof.
  intros Ha Hv. unfold email_field, bind.
  rewrite (required_char_given _ _ _ Ha), Hv. reflexivity.
Qed.

(* ================================================================== *)
(** * Conversations: canonical pairs                                   *)
(* ================================================================== *)

Lemma Conversation_insert_spec now a b db :
  Conversation_insert now a b db =
  if existsb (pair_is a b) (conversations db)
  then (Raise IntegrityError, db)
  else (Ok (new_conversation now a b db),
        add_conversation (new_conversation now a b db) db).
Proof. reflexivity. Qed.

Lemma Conversation_save_spec now a b db :
  Conversation_save now (mkInstance (Some a) (Some b)) db =
  Conversation_insert now (Z.min (User.id a) (User.id b))
                          (Z.max (User.id a) (User.id b)) db.
Proof.
  unfold Conversation_save, bind, related, ret; simpl.
  destruct (User.id a >? User.id b) eqn:E; simpl.
  - apply Z.gtb_lt in E. rewrite Z.min_r, Z.max_l by lia. reflexivity.
  - rewrite Z.gtb_ltb in E. apply Z.ltb_ge in E.
    rewrite Z.min_l, Z.max_r by lia. reflexivity.
Qed.

Lemma Conversation_objects_get_or_create_spec now a b db :
  User.id a <= User.id b ->
  Conversation_objects_get_or_create now a b db =
  match filter (pair_is (User.id a) (User.id b)) (conversations db) with
  | [] => (Ok (new_conversation now (User.id a) (User.id b) db, true),
           add_conversation
             (new_conversation now (User.id a) (User.id b) db) db)
  | [c] => (Ok (c, false), db)
  | _ => (Raise MultipleObjectsReturned, db)
  end.
Proof.
  intros Hle.
  unfold Conversation_objects_get_or_create, Conversation_objects_get.
  unfold catch at 1. unfold bind at 1 2. unfold read at 1.
  destruct (filter _ (conversations db)) as [|c [|c' rest]] eqn:F;
    try reflexivity.
  cbn [get raise].
  unfold catch at 1. unfold bind at 1.
  rewrite Conversation_save_spec, Z.min_l, Z.max_r by lia.
  rewrite Conversation_insert_spec, (filter_nil_existsb _ _ F).
  reflexivity.
Qed.

(** The pair the view looks up and creates. *)
Lemma get_or_create_conversation_spec now A B db :
  let lo := Z.min (User.id A) (User.id B) in
  let hi := Z.max (User.id A) (User.id B) in
  get_or_create_conversation now A B db =
  match filter (pair_is lo hi) (conversations db) with
  | [] => (Ok (new_conversation now lo hi db, true),
           add_conversation (new_conversation now lo hi db) db)
  | [c] => (Ok (c, false), db)
  | _ => (Raise MultipleObjectsReturned, db)
  end.
Proof.
  intros lo hi. subst lo hi.
  unfold get_or_create_conversation. rewrite sorted_pair.
  destruct (User.id A <=? User.id B) eqn:E.
  - apply Z.leb_le in E.
    rewrite Conversation_objects_get_or_create_spec by exact E.
    rewrite Z.min_l, Z.max_r by lia. reflexivity.
  - apply Z.leb_gt in E.
    rewrite Conversation_objects_get_or_create_spec by lia.
    rewrite Z.min_r, Z.max_l by lia. reflexivity.
Qed.

Lemma pair_is_true a b c :
  pair_is a b c = true <-> Conversation.user1 c = a /\ Conversation.user2 c = b.
Proof.
  unfold pair_is. rewrite andb_true_iff, !Z.eqb_eq. reflexivity.
Qed.

Lemma unique_pair_filter a b (l : list Conversation.t) :
  NoDup (map (fun c => (Conversation.user1 c, Conversation.user2 c)) l) ->
  filter (pair_is a b) l = [] \/ exists c, filter (pair_is a b) l = [c].
Proof.
  induction l as [|x l IH]; simpl; intros Hnd; [left; reflexivity|].
  inversion Hnd as [|? ? Hnotin Hnd']; subst.
  destruct (pair_is a b x) eqn:Ex.
  - right. exists x. f_equal.
    destruct (filter (pair_is a b) l) as [|y r] eqn:F; [reflexivity|].
    exfalso. apply Hnotin.
    destruct (filter_In_head _ _ _ _ F) as [Hin Hy].
    apply pair_is_true in Ex. apply pair_is_true in Hy.
    destruct Ex as [<- <-]. destruct Hy as [<- <-].
    apply (in_map (fun c => (Conversation.user1 c, Conversation.user2 c))).
    exact Hin.
  - apply IH, Hnd'.
Qed.

(** C1.  For distinct users A and B, [get_or_create_conversation]
    does not depend on the order of its arguments: on the same store the
    two calls are the same computation; the row it returns joins the
    smaller id (user1) with the larger (user2), and the call with the
    arguments swapped then returns that very row without creating
    another; and where the store's uniqueness constraint holds the call
    does return a row. *)
Theorem C1_get_or_create_conversation_order_independent :
  forall (now : Z) (A B : User.t) (db : DB),
    User.id A <> User.id B ->
    get_or_create_conversation now A B db
      = get_or_create_conversation now B A db
    /\ (forall c created db',
          get_or_create_conversation now A B db = (Ok (c, created), db') ->
          Conversation.user1 c = Z.min (User.id A) (User.id B)
          /\ Conversation.user2 c = Z.max (User.id A) (User.id B)
          /\ Conversation.user1 c < Conversation.user2 c
          /\ In c (conversations db')
          /\ forall now',
               get_or_create_conversation now' B A db' = (Ok (c, false), db'))
    /\ (unique_conversation_pair db ->
        exists c created db',
          get_or_create_conversation now A B db = (Ok (c, created), db')).
Proof.
  intros now A B db Hne.
  pose proof (get_or_create_conversation_spec now A B db) as HAB.
  pose proof (get_or_create_conversation_spec now B A db) as HBA.
  cbv zeta in HAB, HBA.
  rewrite (Z.min_comm (User.id B)), (Z.max_comm (User.id B)) in HBA.
  split; [congruence|]. split.
  - intros c created db' Hrun. rewrite HAB in Hrun.
    assert (Hc : Conversation.user1 c = Z.min (User.id A) (User.id B)
                 /\ Conversation.user2 c = Z.max (User.id A) (User.id B)
                 /\ In c (conversations db')
                 /\ filter (pair_is (Z.min (User.id A) (User.id B))
                                    (Z.max (User.id A) (User.id B)))
                           (conversations db') = [c]).
    { destruct (filter _ (conversations db)) as [|x [|y r]] eqn:F;
        inversion Hrun; subst; clear Hrun.
      - unfold add_conversation, with_conversations; simpl.
        repeat split.
        + apply in_or_app. right. left. reflexivity.
        + rewrite filter_app, F. simpl. unfold pair_is at 1. simpl.
          rewrite !Z.eqb_refl. reflexivity.
      - destruct (filter_In_head _ _ _ _ F) as [Hin Hp].
        apply pair_is_true in Hp. destruct Hp as [H1 H2].
        repeat split; assumption. }
    destruct Hc as (H1 & H2 & Hin & F').
    repeat split; try assumption; [lia|].
    intros now'.
    rewrite get_or_create_conversation_spec.
    rewrite (Z.min_comm (User.id B)), (Z.max_comm (User.id B)), F'.
    reflexivity.
  - intros Hu. rewrite HAB.
    destruct (unique_pair_filter (Z.min (User.id A) (User.id B))
                (Z.max (User.id A) (User.id B)) _ Hu) as [F|[c F]];
      rewrite F; eauto.
Qed.

Lemma C1_witness :
  User.id alice <> User.id bob
  /\ get_or_create_conversation 0 alice bob empty_db
     = get_or_create_conversation 0 bob alice empty_db.
Proof.
  split; [discriminate|].
  apply (C1_get_or_create_conversation_order_independent 0 alice bob empty_db).
  discriminate.
Defined.

(* ================================================================== *)
(** * Conversations: the invariant of the table                        *)
(* ================================================================== *)

Lemma canonical_same_table db db' :
  conversations db' = conversations db -> canonical db -> canonical db'.
Proof. unfold canonical, one_row_per_pair. intros ->. tauto. Qed.

Lemma canonical_add now lo hi db :
  lo <= hi ->
  existsb (pair_is lo hi) (conversations db) = false ->
  canonical db ->
  Forall (fun c => Conversation.user1 c <= Conversation.user2 c)
         (conversations db ++ [new_conversation now lo hi db])
  /\ ForallOrdPairs (fun c d => ~ same_pair c d)
                    (conversations db ++ [new_conversation now lo hi db]).
Proof.
  intros Hle Hnone [Hord Huniq]. split.
  - apply Forall_app. split; [exact Hord|]. repeat constructor. exact Hle.
  - apply ForallOrdPairs_snoc; [exact Huniq|].
    rewrite Forall_forall in Hord |- *. intros c Hin Hsame.
    specialize (Hord c Hin).
    assert (Hp : pair_is lo hi c = true).
    { apply pair_is_true. unfold same_pair, new_conversation in Hsame.
      simpl in Hsame. lia. }
    assert (Hex : existsb (pair_is lo hi) (conversations db) = true)
      by (apply existsb_exists; exists c; split; assumption).
    congruence.
Qed.

Lemma canonical_step now db db' :
  conversation_step now db db' -> canonical db -> canonical db'.
Proof.
  intros [Hsame | (lo & hi & Hle & Hnone & Happ)] Hinv.
  - eapply canonical_same_table; eassumption.
  - unfold canonical, one_row_per_pair. rewrite Happ.
    apply canonical_add; assumption.
Qed.

Lemma step_insert now a b db :
  a <= b -> conversation_step now db (snd (Conversation_insert now a b db)).
Proof.
  intros Hle. rewrite Conversation_insert_spec.
  destruct (existsb (pair_is a b) (conversations db)) eqn:E; simpl.
  - left. reflexivity.
  - right. exists a, b. repeat split; assumption.
Qed.

Lemma step_save now self db :
  conversation_step now db (snd (Conversation_save now self db)).
Proof.
  destruct self as [[a|] [b|]]; try (left; reflexivity).
  rewrite Conversation_save_spec. apply step_insert. lia.
Qed.

Lemma step_get_or_create now A B db :
  conversation_step now db (snd (get_or_create_conversation now A B db)).
Proof.
  rewrite get_or_create_conversation_spec.
  destruct (filter _ (conversations db)) as [|c [|c' r]] eqn:F; simpl;
    try (left; reflexivity).
  right. exists (Z.min (User.id A) (User.id B)), (Z.max (User.id A) (User.id B)).
  repeat split; [lia | apply filter_nil_existsb, F].
Qed.

Lemma User_objects_get_by_id_cases pk db :
  (exists u, User_objects_get_by_id pk db = (Ok u, db)
             /\ filter (fun u => User.id u =? pk) (users db) = [u])
  \/ (exists e, User_objects_get_by_id pk db = (Raise e, db)).
Proof.
  unfold User_objects_get_by_id, bind, read.
  destruct (filter _ (users db)) as [|u [|u' r]]; simpl.
  - right. eexists. reflexivity.
  - left. exists u. split; reflexivity.
  - right. eexists. reflexivity.
Qed.

Lemma step_send now user receiver_id text db :
  conversation_step now db
    (snd (SendMessageView_post now user receiver_id text db)).
Proof.
  unfold SendMessageView_post. destruct user as [caller|]; [|left; reflexivity].
  unfold bind at 1. rewrite authenticated_some.
  unfold bind at 1.
  destruct (User_objects_get_by_id_cases receiver_id db)
    as [(u & -> & _) | (e & ->)]; [|left; reflexivity].
  unfold bind at 1.
  pose proof (step_get_or_create now caller u db) as Hstep.
  destruct (get_or_create_conversation now caller u db) as [[r|e] db1];
    simpl in Hstep; [|exact Hstep].
  destruct text as [t|]; simpl; exact Hstep.
Qed.

Lemma step_history now user user_id db :
  conversation_step now db (snd (ChatHistoryView_get now user user_id db)).
Proof.
  unfold ChatHistoryView_get. destruct user as [caller|]; [|left; reflexivity].
  unfold bind at 1. rewrite authenticated_some.
  unfold bind at 1.
  destruct (User_objects_get_by_id_cases user_id db)
    as [(u & -> & _) | (e & ->)]; [|left; reflexivity].
  unfold bind at 1.
  pose proof (step_get_or_create now caller u db) as Hstep.
  destruct (get_or_create_conversation now caller u db) as [[r|e] db1];
    simpl in Hstep; exact Hstep.
Qed.

Lemma ConversationListCreateAPIView_create_fails now caller db :
  ConversationListCreateAPIView_create now (Some caller) db
  = (Raise RelatedObjectDoesNotExist, db).
Proof. reflexivity. Qed.

Lemma step_create_conversation now user db :
  conversation_step now db
    (snd (ConversationListCreateAPIView_create now user db)).
Proof. destruct user; left; reflexivity. Qed.

(** C2 (amended).  Every operation that saves a conversation keeps the
    invariant of the conversation table in this form: each row has
    [user1.id <= user2.id], and no two rows are conversations of the
    same unordered pair of users. *)
Theorem C2_conversation_invariant_preserved :
  forall (now : Z) (op : conversation_op) (db : DB),
    canonical db -> canonical (run_conversation_op now op db).
Proof.
  intros now op db. apply (canonical_step now).
  destruct op; simpl.
  - apply step_save.
  - apply step_get_or_create.
  - apply step_send.
  - apply step_history.
  - apply step_create_conversation.
Qed.

Lemma C2_witness :
  canonical empty_db
  /\ canonical (run_conversation_op 0 (OpGetOrCreate bob alice) empty_db).
Proof.
  assert (H : canonical empty_db) by (split; constructor).
  split; [exact H|].
  apply (C2_conversation_invariant_preserved 0 (OpGetOrCreate bob alice)
           empty_db H).
Defined.

(** C2 as stated fails: a user who sends a message to themselves
    (POST /send/1/ by user 1) leaves a row with [user1.id = user2.id]. *)
Lemma C2_counterexample :
  let db := mkDB [alice] [] [] [] [] [] in
  canonical_strict db
  /\ conversations (run_conversation_op 0 (OpSendMessage (Some alice) 1 (Some "hi")) db)
     = [Conversation.mk 1 1 1 0]
  /\ ~ canonical_strict
         (run_conversation_op 0 (OpSendMessage (Some alice) 1 (Some "hi")) db).
Proof.
  cbv zeta. split; [split; constructor|].
  assert (E : conversations
                (run_conversation_op 0 (OpSendMessage (Some alice) 1 (Some "hi"))
                   (mkDB [alice] [] [] [] [] []))
              = [Conversation.mk 1 1 1 0]) by reflexivity.
  split; [exact E|].
  intros [H _]. rewrite E in H.
  inversion H as [|c l Hlt _]; subst. simpl in Hlt. lia.
Qed.

(* ================================================================== *)
(** * Messages                                                         *)
(* ================================================================== *)

Lemma Conversation_objects_get_by_id_found pk conv db :
  filter (fun c => Conversation.id c =? pk) (conversations db) = [conv] ->
  Conversation_objects_get_by_id pk db = (Ok conv, db)
  /\ Conversation.id conv = pk /\ In conv (conversations db).
Proof.
  intros F. unfold Conversation_objects_get_by_id, bind, read.
  rewrite F. split; [reflexivity|].
  destruct (filter_In_head _ _ _ _ F) as [Hin Hid].
  apply Z.eqb_eq in Hid. split; assumption.
Qed.

(** C6.  Listing the messages of an existing conversation: a caller who
    is neither [user1] nor [user2] gets the empty list; a participant
    gets all the messages of the conversation, and only those, in
    non-decreasing [timestamp] order.  The store is not changed. *)
Theorem C6_list_messages_participant_gate :
  forall (caller : User.t) (conversation_id : Z) (conv : Conversation.t)
         (db : DB),
    filter (fun c => Conversation.id c =? conversation_id) (conversations db)
      = [conv] ->
    (User.id caller <> Conversation.user1 conv
     /\ User.id caller <> Conversation.user2 conv ->
     MessageByConversationAPIView_list (Some caller) conversation_id db
       = (Ok [], db))
    /\ (User.id caller = Conversation.user1 conv
        \/ User.id caller = Conversation.user2 conv ->
        exists ms,
          MessageByConversationAPIView_list (Some caller) conversation_id db
            = (Ok ms, db)
          /\ Permutation
               (filter (fun m => Message.conversation m =? conversation_id)
                       (messages db))
               ms
          /\ StronglySorted (key_le Message.timestamp) ms).
Proof.
  intros caller conversation_id conv db F.
  destruct (Conversation_objects_get_by_id_found _ _ _ F) as (Hget & Hid & _).
  assert (Hrun :
    MessageByConversationAPIView_list (Some caller) conversation_id db
    = if negb ((User.id caller =? Conversation.user1 conv)
               || ((User.id caller =? Conversation.user2 conv) || false))
      then (Ok [], db)
      else (Ok (conversation_messages (Conversation.id conv) db), db)).
  { unfold MessageByConversationAPIView_list.
    unfold bind at 1. rewrite authenticated_some.
    unfold MessageByConversationAPIView_get_queryset.
    unfold bind at 1. rewrite Hget. cbn [existsb].
    destruct (negb _); reflexivity. }
  rewrite Hrun. split.
  - intros [H1 H2].
    apply Z.eqb_neq in H1. apply Z.eqb_neq in H2.
    rewrite H1, H2. reflexivity.
  - intros Hpart.
    assert (E : (User.id caller =? Conversation.user1 conv)
                || ((User.id caller =? Conversation.user2 conv) || false)
                = true).
    { destruct Hpart as [<- | <-]; rewrite Z.eqb_refl;
        [reflexivity | apply orb_true_iff; right; reflexivity]. }
    rewrite E. cbn [negb].
    exists (conversation_messages conversation_id db).
    rewrite Hid. split; [reflexivity|].
    unfold conversation_messages.
    split; [apply sorted_perm | apply sorted_sorted].
Qed.

Lemma C6_witness :
  let db := mkDB [alice; bob; carol] [] [] []
                 [Conversation.mk 1 1 2 0]
                 [Message.mk 1 1 2 "later" false 9;
                  Message.mk 2 1 1 "earlier" false 4] in
  MessageByConversationAPIView_list (Some carol) 1 db = (Ok [], db).
Proof.
  cbv zeta.
  apply (C6_list_messages_participant_gate carol 1 (Conversation.mk 1 1 2 0)).
  - reflexivity.
  - split; discriminate.
Defined.

Lemma fresh_conversation_has_no_message pk db :
  messages_refer_to_conversations db ->
  ~ In pk (map Conversation.id (conversations db)) ->
  conversation_messages pk db = [].
Proof.
  unfold messages_refer_to_conversations, conversation_messages.
  intros Href Hfresh.
  replace (filter _ (messages db)) with (@nil Message.t); [reflexivity|].
  symmetry. apply existsb_false_filter.
  apply not_true_is_false. intros Hex.
  apply existsb_exists in Hex. destruct Hex as (m & Hin & Heq).
  apply Z.eqb_eq in Heq. rewrite Forall_forall in Href.
  specialize (Href m Hin). rewrite Heq in Href. contradiction.
Qed.

(** C10.  GET /history/<user_id>/ by a caller who has no conversation
    with the target user writes to the store: it appends the row of the
    canonical pair (smaller id, larger id) to the conversation table,
    returns the empty message list, and leaves every other table as it
    was. *)
Theorem C10_chat_history_creates_conversation :
  forall (now : Z) (caller target : User.t) (user_id : Z) (db : DB),
    filter (fun u => User.id u =? user_id) (users db) = [target] ->
    filter (pair_is (Z.min (User.id caller) (User.id target))
                    (Z.max (User.id caller) (User.id target)))
           (conversations db) = [] ->
    messages_refer_to_conversations db ->
    exists db',
      ChatHistoryView_get now (Some caller) user_id db = (Ok [], db')
      /\ conversations db'
         = conversations db
           ++ [Conversation.mk (next_id (map Conversation.id (conversations db)))
                 (Z.min (User.id caller) (User.id target))
                 (Z.max (User.id caller) (User.id target)) now]
      /\ conversations db' <> conversations db
      /\ users db' = users db
      /\ teams db' = teams db
      /\ tasks db' = tasks db
      /\ todos db' = todos db
      /\ messages db' = messages db.
Proof.
  intros now caller target user_id db Huser Hnone Href.
  set (lo := Z.min (User.id caller) (User.id target)) in *.
  set (hi := Z.max (User.id caller) (User.id target)) in *.
  exists (add_conversation (new_conversation now lo hi db) db).
  split.
  - unfold ChatHistoryView_get.
    unfold bind at 1. rewrite authenticated_some.
    unfold bind at 1. unfold User_objects_get_by_id, bind at 1, read.
    rewrite Huser. cbn [get ret].
    unfold bind at 1. rewrite get_or_create_conversation_spec.
    fold lo hi. rewrite Hnone.
    unfold bind, read, ret. cbn [fst Conversation.id new_conversation].
    f_equal.
    assert (Hm : forall pk,
               conversation_messages pk
                 (add_conversation (new_conversation now lo hi db) db)
               = conversation_messages pk db) by reflexivity.
    unfold new_conversation in Hm. rewrite Hm.
    rewrite fresh_conversation_has_no_message;
      [reflexivity | exact Href | apply next_id_fresh].
  - repeat split; try reflexivity.
    unfold add_conversation, with_conversations; simpl.
    intros Heq. apply (f_equal (@List.length _)) in Heq.
    rewrite List.length_app in Heq. simpl in Heq. lia.
Qed.

Lemma C10_witness :
  let db := mkDB [alice; bob] [] [] [] [] [] in
  exists db',
    ChatHistoryView_get 7 (Some bob) 1 db = (Ok [], db')
    /\ conversations db' = [Conversation.mk 1 1 2 7]
    /\ users db' = users db
    /\ messages db' = messages db.
Proof.
  cbv zeta.
  destruct (C10_chat_history_creates_conversation 7 bob alice 1
              (mkDB [alice; bob] [] [] [] [] []))
    as (db' & Hrun & Hconv & _ & Husers & _ & _ & _ & Hmsgs).
  - reflexivity.
  - reflexivity.
  - constructor.
  - exists db'. repeat split; assumption.
Defined.

Lemma get_or_create_conversation_result now A B db r db1 :
  get_or_create_conversation now A B db = (r, db1) ->
  messages db1 = messages db
  /\ (forall x, In x (conversations db) -> In x (conversations db1))
  /\ forall c created,
       r = Ok (c, created) ->
       In c (conversations db1)
       /\ Conversation.user1 c = Z.min (User.id A) (User.id B)
       /\ Conversation.user2 c = Z.max (User.id A) (User.id B).
Proof.
  rewrite get_or_create_conversation_spec.
  destruct (filter _ (conversations db)) as [|x [|y l]] eqn:F;
    intros Hrun; inversion Hrun; subst; clear Hrun.
  - split; [reflexivity|]. split.
    + intros x Hin. simpl. apply in_or_app. left. exact Hin.
    + intros c created Hr. inversion Hr; subst. simpl.
      repeat split. apply in_or_app. right. left. reflexivity.
  - split; [reflexivity|]. split; [auto|].
    intros c created Hr. inversion Hr; subst.
    destruct (filter_In_head _ _ _ _ F) as [Hin Hp].
    apply pair_is_true in Hp. tauto.
  - split; [reflexivity|]. split; [auto|]. discriminate.
Qed.

Lemma sender_participates_mono db db1 m :
  (forall x, In x (conversations db) -> In x (conversations db1)) ->
  sender_participates db m -> sender_participates db1 m.
Proof.
  intros Hsub (c & Hin & Hrest). exists c. split; [apply Hsub, Hin | exact Hrest].
Qed.

(** The sibling of the handler of C5: [SendMessageView.post] stores a
    message only in the conversation of the sender. *)
Lemma SendMessageView_post_keeps_senders now user receiver_id text db :
  senders_are_participants db ->
  senders_are_participants
    (snd (SendMessageView_post now user receiver_id text db)).
Proof.
  intros Hinv. unfold SendMessageView_post.
  destruct user as [caller|]; [|exact Hinv].
  unfold bind at 1. rewrite authenticated_some.
  unfold bind at 1.
  destruct (User_objects_get_by_id_cases receiver_id db)
    as [(u & -> & _) | (e & ->)]; [|exact Hinv].
  unfold bind at 1.
  destruct (get_or_create_conversation now caller u db) as [r db1] eqn:G.
  destruct (get_or_create_conversation_result _ _ _ _ _ _ G)
    as (Hmsgs & Hsub & Hrow).
  assert (Hinv1 : senders_are_participants db1).
  { unfold senders_are_participants in *. rewrite Hmsgs.
    eapply Forall_impl; [|exact Hinv].
    intros m. apply sender_participates_mono, Hsub. }
  destruct r as [[c created]|e]; [|exact Hinv1].
  destruct (Hrow c created eq_refl) as (Hin & H1 & H2).
  destruct text as [t|]; [|exact Hinv1].
  unfold bind, ret, Message_objects_create, senders_are_participants.
  cbn [fst snd messages with_messages].
  apply Forall_app. split.
  - eapply Forall_impl; [|exact Hinv1].
    intros m (x & Hx & Hrest). exists x. split; [exact Hx | exact Hrest].
  - constructor; [|constructor].
    exists c. split; [exact Hin|]. split; [reflexivity|].
    cbn [Message.sender]. lia.
Qed.

Lemma MessageByConversationAPIView_perform_create_any_caller
    now caller pk conv v db :
  filter (fun c => Conversation.id c =? pk) (conversations db) = [conv] ->
  exists m,
    MessageByConversationAPIView_perform_create now caller pk v db
    = (Ok m, with_messages (fun l => l ++ [m]) db)
    /\ Message.sender m = User.id caller
    /\ Message.conversation m = pk.
Proof.
  intros F.
  destruct (Conversation_objects_get_by_id_found _ _ _ F) as (Hget & Hid & _).
  unfold MessageByConversationAPIView_perform_create.
  unfold bind. rewrite Hget. unfold Message_objects_create.
  eexists. split; [reflexivity|]. split; [reflexivity | exact Hid].
Qed.

(** C5 fails on the code.  POST /conversations/1/messages/ by carol,
    who is not in conversation 1 (alice and bob), stores a message whose
    sender is carol: the handler looks the conversation up by id and
    never compares its participants with the caller. *)
Theorem C5_non_participant_message_is_stored :
  let p := mkMessagePayload (Given 1) (Given "hello") Absent in
  let m := Message.mk 1 1 3 "hello" false 5 in
  senders_are_participants chat_db
  /\ MessageByConversationAPIView_list (Some carol) 1 chat_db
     = (Ok [], chat_db)
  /\ MessageByConversationAPIView_create 5 (Some carol) 1 p chat_db
     = (Ok m, with_messages (fun l => l ++ [m]) chat_db)
  /\ ~ senders_are_participants (with_messages (fun l => l ++ [m]) chat_db).
Proof.
  cbv zeta. split; [constructor|].
  split; [reflexivity|]. split; [reflexivity|].
  intros H. inversion H as [|m l Hm _]; subst.
  destruct Hm as (c & Hin & _ & Hsender).
  destruct Hin as [<- | []]. simpl in Hsender. lia.
Qed.

(* ================================================================== *)
(** * Teams                                                            *)
(* ================================================================== *)

(** The permission list of the create action admits every
    authenticated caller. *)
Lemma TeamViewSet_create_permissions_pass (u : User.t) db :
  check_permissions (TeamViewSet_get_permissions create) (Some u) db
  = (Ok tt, db).
Proof. reflexivity. Qed.

Lemma rows_with_other_keys pk (f : Team.t -> Team.t) (l : list Team.t) :
  ~ In pk (map Team.id l) ->
  map (fun t => if Team.id t =? pk then f t else t) l = l.
Proof.
  induction l as [|x l IH]; simpl; intros Hnotin; [reflexivity|].
  destruct (Team.id x =? pk) eqn:E.
  - apply Z.eqb_eq in E. tauto.
  - rewrite IH by tauto. reflexivity.
Qed.

Lemma no_row_with_fresh_key pk (l : list Team.t) :
  ~ In pk (map Team.id l) -> filter (fun t => Team.id t =? pk) l = [].
Proof.
  intros Hnotin. apply existsb_false_filter, not_true_is_false.
  intros Hex. apply existsb_exists in Hex. destruct Hex as (t & Hin & E).
  apply Z.eqb_eq in E. apply Hnotin. rewrite <- E. apply in_map, Hin.
Qed.

(** On any store and for a caller with any role flags, a create request
    that carries only a name stores the team under the trimmed name,
    with the caller as its creator and only member. *)
Lemma TeamViewSet_create_any_role now (caller : User.t) name db :
  accepted name -> Z.of_nat (String.length (strip name)) <= 100 ->
  let team := Team.mk (next_id (map Team.id (teams db))) (strip name) ""
                      (User.id caller) [User.id caller] now in
  TeamViewSet_create now (Some caller)
                     (mkCreateTeamPayload (Given name) Absent Absent) db
  = (Ok team, with_teams (fun l => l ++ [team]) db).
Proof.
  intros Hname Hlen. cbv zeta.
  pose proof (next_id_fresh (map Team.id (teams db))) as Hfresh.
  unfold TeamViewSet_create.
  unfold bind at 1. rewrite TeamViewSet_create_permissions_pass.
  unfold bind at 1. rewrite authenticated_some.
  unfold bind at 1.
  assert (Hvalid : CreateTeamSerializer_is_valid
                     (mkCreateTeamPayload (Given name) Absent Absent) db
                   = (Ok (mkCreateTeamData (strip name) None None), db)).
  { unfold CreateTeamSerializer_is_valid. cbn [tp_name tp_description tp_members].
    unfold bind at 1. rewrite (required_char_given _ _ _ Hname).
    apply Z.ltb_ge in Hlen. rewrite Hlen. reflexivity. }
  rewrite Hvalid.
  unfold TeamViewSet_perform_create, Team_objects_create, Team_members_add.
  unfold bind, modify, ret, read, with_teams.
  cbn [td_name td_description td_members Team.id teams fst snd members_add
       fold_left existsb Team.name Team.description Team.created_by
       Team.members Team.created_at app].
  rewrite map_app, filter_app. cbn [map filter Team.id].
  rewrite Z.eqb_refl. cbn [Team.id filter].
  rewrite (rows_with_other_keys _ _ _ Hfresh).
  rewrite (no_row_with_fresh_key _ _ Hfresh). cbn [app Team.id].
  rewrite Z.eqb_refl. reflexivity.
Qed.

(** C3 fails on the code.  carol is neither admin nor team lead, and
    [IsAdminOrTeamLead] would refuse her; [TeamViewSet.get_permissions]
    asks only for [IsAuthenticated] on create, so her POST /teams/
    stores a team with her as creator and member. *)
Theorem C3_plain_user_creates_team :
  let p := mkCreateTeamPayload (Given "search") Absent Absent in
  let db := mkDB [carol] [] [] [] [] [] in
  let team := Team.mk 1 "search" "" 3 [3] 7 in
  User.is_admin carol = false
  /\ User.is_teamlead carol = false
  /\ has_permission IsAdminOrTeamLead (Some carol) = false
  /\ TeamViewSet_get_permissions create = [IsAuthenticated]
  /\ TeamViewSet_create 7 (Some carol) p db
     = (Ok team, with_teams (fun _ => [team]) db).
Proof. cbv zeta. repeat split. Qed.

(* ================================================================== *)
(** * Adding a subtask                                                 *)
(* ================================================================== *)

(** C8.  [add_subtask] on a target that is missing, is owned by someone
    else, or has a parent itself (every row with the target's id fails
    one of the three filters) answers 404 and writes nothing, whatever
    the payload. *)
Theorem C8_add_subtask_not_found :
  forall (now : Z) (caller : User.t) (pk : Z) (p : SubtaskPayload) (db : DB),
    (forall t, In t (tasks db) -> Task.id t = pk ->
               Task.created_by t <> User.id caller
               \/ Task.parent_task t <> None) ->
    TaskViewSet_add_subtask now (Some caller) pk p db = (Raise Http404, db).
Proof.
  intros now caller pk p db Hno.
  unfold TaskViewSet_add_subtask.
  unfold bind at 1. rewrite authenticated_some.
  unfold bind at 1, read at 1. unfold bind at 1.
  replace (filter _ (tasks db)) with (@nil Task.t); [reflexivity|].
  symmetry. apply existsb_false_filter, not_true_is_false.
  intros Hex. apply existsb_exists in Hex.
  destruct Hex as (t & Hin & Hf).
  rewrite !andb_true_iff, !Z.eqb_eq, negb_true_iff in Hf.
  destruct Hf as [[Hid Hown] Htop].
  destruct (Hno t Hin Hid) as [H | H]; [contradiction|].
  unfold Task.is_subtask in Htop.
  destruct (Task.parent_task t); [discriminate | contradiction].
Qed.

Lemma C8_witness :
  TaskViewSet_add_subtask 30 (Some alice) 2 (subtask_payload Absent "notes")
                          task_db
  = (Raise Http404, task_db).
Proof.
  apply (C8_add_subtask_not_found 30 alice 2 (subtask_payload Absent "notes")
           task_db).
  intros t [<- | [<- | []]] Hid.
  - discriminate Hid.
  - right. discriminate.
Defined.

(* ================================================================== *)
(** * Setting the password                                             *)
(* ================================================================== *)

Lemma primary_key_identifies (rows : list User.t) u r :
  NoDup (map User.id rows) -> In u rows -> In r rows ->
  User.id r = User.id u -> r = u.
Proof.
  induction rows as [|x rows IH]; simpl; intros Hnd Hu Hr Hid; [tauto|].
  inversion Hnd as [|? ? Hnotin Hnd']; subst.
  destruct Hu as [->|Hu], Hr as [->|Hr]; try reflexivity.
  - exfalso. apply Hnotin. rewrite <- Hid. apply in_map, Hr.
  - exfalso. apply Hnotin. rewrite Hid. apply in_map, Hu.
  - apply IH; assumption.
Qed.

Lemma filter_replace_user f u u' rows :
  NoDup (map User.id rows) -> In u rows -> f u' = f u ->
  filter f (replace_user u u' rows) = replace_user u u' (filter f rows).
Proof.
  intros Hnd Hu Hf. unfold replace_user.
  assert (H : forall r, In r rows ->
                f (if User.id r =? User.id u then u' else r) = f r).
  { intros r Hr. destruct (User.id r =? User.id u) eqn:E; [|reflexivity].
    apply Z.eqb_eq in E.
    rewrite (primary_key_identifies rows u r Hnd Hu Hr E). exact Hf. }
  clear Hnd Hu. induction rows as [|x rows IH]; simpl; [reflexivity|].
  rewrite (H x (or_introl eq_refl)).
  destruct (f x); simpl; rewrite IH; auto using in_cons.
Qed.

Lemma SetPasswordAPI_post_spec {ev : EmailValidator} user p uid mail pw u db :
  sp_user_id p = Given uid -> sp_email p = Given mail ->
  sp_password p = Given pw ->
  accepted uid -> accepted mail -> valid_email (strip mail) = true ->
  accepted pw ->
  filter (names_user (strip uid) (strip mail)) (users db) = [u] ->
  SetPasswordAPI_post user p db =
  if User.has_usable_password u
  then (Raise (ValidationError "Password already set"), db)
  else (Ok "Password set successfully",
        with_users (replace_user u (activated (strip pw) u)) db).
Proof.
  intros Eu Em Ep Hu Hm Hv Hp F.
  unfold SetPasswordAPI_post, SetPasswordSerializer_is_valid.
  rewrite Eu, Em, Ep.
  unfold bind at 1. cbn [check_permissions forallb has_permission andb ret].
  unfold bind at 1 2. rewrite (required_char_given _ _ _ Hu).
  unfold bind at 1. rewrite (email_field_given _ _ _ Hm Hv).
  unfold bind at 1. rewrite (required_char_given _ _ _ Hp).
  unfold SetPasswordSerializer_validate, User_objects_get.
  unfold bind at 1. unfold catch, bind at 1, read. rewrite F. cbn [get ret].
  destruct (User.has_usable_password u) eqn:Usable; [reflexivity|].
  unfold ret, SetPasswordSerializer_save, bind, User_save, modify.
  cbn [d_user d_password User.id User.set_password User.set_is_active].
  destruct (filter_In_head _ _ _ _ F) as [Hin _].
  assert (Hex : existsb (fun r => User.id r =? User.id u) (users db) = true).
  { apply existsb_exists. exists u. split; [exact Hin | apply Z.eqb_refl]. }
  unfold with_users. rewrite Hex. reflexivity.
Qed.

(** A request whose password field is refused ends in a validation
    error before the user is looked up. *)
Lemma SetPasswordAPI_post_password_refused
    {ev : EmailValidator} user p uid mail db :
  sp_user_id p = Given uid -> sp_email p = Given mail ->
  accepted uid -> accepted mail -> valid_email (strip mail) = true ->
  (forall pw, sp_password p = Given pw -> ~ accepted pw) ->
  SetPasswordAPI_post user p db = (Raise (ValidationError "password"), db).
Proof.
  intros Eu Em Hu Hm Hv Hp.
  unfold SetPasswordAPI_post, SetPasswordSerializer_is_valid.
  rewrite Eu, Em.
  unfold bind at 1. cbn [check_permissions forallb has_permission andb ret].
  unfold bind at 1 2. rewrite (required_char_given _ _ _ Hu).
  unfold bind at 1. rewrite (email_field_given _ _ _ Hm Hv).
  unfold bind at 1.
  destruct (required_char_cases "password" (sp_password p) db)
    as [(pw & E & Ha & _) | [_ ->]]; [|reflexivity].
  exfalso. exact (Hp pw E Ha).
Qed.

(** A request for a user whose credential is usable ends in a
    validation error, whatever its password field holds. *)
Lemma SetPasswordAPI_post_usable {ev : EmailValidator} user p uid mail u db :
  sp_user_id p = Given uid -> sp_email p = Given mail ->
  accepted uid -> accepted mail -> valid_email (strip mail) = true ->
  filter (names_user (strip uid) (strip mail)) (users db) = [u] ->
  User.has_usable_password u = true ->
  exists detail,
    SetPasswordAPI_post user p db = (Raise (ValidationError detail), db).
Proof.
  intros Eu Em Hu Hm Hv F Husable.
  destruct (required_char_cases "password" (sp_password p) db)
    as [(pw & Ep & Hp & _) | [Hp _]].
  - exists "Password already set".
    rewrite (SetPasswordAPI_post_spec user p uid mail pw u db
               Eu Em Ep Hu Hm Hv Hp F), Husable.
    reflexivity.
  - exists "password".
    exact (SetPasswordAPI_post_password_refused user p uid mail db
             Eu Em Hu Hm Hv Hp).
Qed.

(** C9.  The [user_id] and [email] of a set-password request are
    trimmed and name a user.  When that user's credential is already
    usable the request fails with a validation error ("Password already
    set" for an accepted password) and the store is unchanged.
    Otherwise a request with an accepted password succeeds, rewrites
    only that user's row, and leaves the credential usable and
    [is_active] true, after which every further set-password request
    for the same user fails: the operation succeeds at most once.  A
    request whose password is refused (missing, blank after trimming)
    fails and changes nothing. *)
Theorem C9_set_password_at_most_once {ev : EmailValidator} :
  forall (user : option User.t) (p : SetPasswordPayload)
         (uid mail : string) (u : User.t) (db : DB),
    sp_user_id p = Given uid -> sp_email p = Given mail ->
    accepted uid -> accepted mail -> valid_email (strip mail) = true ->
    NoDup (map User.id (users db)) ->
    filter (names_user (strip uid) (strip mail)) (users db) = [u] ->
    (User.has_usable_password u = true ->
     (exists detail,
        SetPasswordAPI_post user p db = (Raise (ValidationError detail), db))
     /\ forall pw,
          sp_password p = Given pw -> accepted pw ->
          SetPasswordAPI_post user p db
            = (Raise (ValidationError "Password already set"), db))
    /\ (User.has_usable_password u = false ->
        (forall pw,
           sp_password p = Given pw -> accepted pw ->
           let u' := activated (strip pw) u in
           let db' := with_users (replace_user u u') db in
           SetPasswordAPI_post user p db = (Ok "Password set successfully", db')
           /\ User.has_usable_password u' = true
           /\ User.is_active u' = true
           /\ filter (names_user (strip uid) (strip mail)) (users db') = [u']
           /\ (forall r, In r (users db) -> User.id r <> User.id u ->
                         In r (users db'))
           /\ forall user2 p2 uid2 mail2,
                sp_user_id p2 = Given uid2 -> sp_email p2 = Given mail2 ->
                strip uid2 = strip uid -> strip mail2 = strip mail ->
                exists detail,
                  SetPasswordAPI_post user2 p2 db'
                    = (Raise (ValidationError detail), db'))
        /\ ((forall pw, sp_password p = Given pw -> ~ accepted pw) ->
            SetPasswordAPI_post user p db
              = (Raise (ValidationError "password"), db))).
Proof.
  intros user p uid mail u db Eu Em Hu Hm Hv Hnd F.
  split; intros Husable.
  - split.
    + exact (SetPasswordAPI_post_usable user p uid mail u db
               Eu Em Hu Hm Hv F Husable).
    + intros pw Ep Hp.
      rewrite (SetPasswordAPI_post_spec user p uid mail pw u db
                 Eu Em Ep Hu Hm Hv Hp F), Husable.
      reflexivity.
  - split.
    + intros pw Ep Hp. cbv zeta.
      pose proof (SetPasswordAPI_post_spec user p uid mail pw u db
                    Eu Em Ep Hu Hm Hv Hp F) as Hrun.
      rewrite Husable in Hrun.
      destruct (filter_In_head _ _ _ _ F) as [Hin Hnames].
      assert (F' : filter (names_user (strip uid) (strip mail))
                     (users (with_users
                               (replace_user u (activated (strip pw) u)) db))
                   = [activated (strip pw) u]).
      { cbn [users with_users].
        rewrite filter_replace_user; [|exact Hnd|exact Hin|reflexivity].
        rewrite F. unfold replace_user. simpl. rewrite Z.eqb_refl.
        reflexivity. }
      split; [exact Hrun|]. split; [reflexivity|]. split; [reflexivity|].
      split; [exact F'|]. split.
      * intros r Hr Hne. cbn [users with_users]. unfold replace_user.
        apply in_map_iff. exists r. split; [|exact Hr].
        apply Z.eqb_neq in Hne. rewrite Hne. reflexivity.
      * intros user2 p2 uid2 mail2 Eu2 Em2 Su Sm.
        apply (SetPasswordAPI_post_usable user2 p2 uid2 mail2
                 (activated (strip pw) u)); try assumption.
        -- unfold accepted. rewrite Su. exact Hu.
        -- unfold accepted. rewrite Sm. exact Hm.
        -- rewrite Sm. exact Hv.
        -- rewrite Su, Sm. exact F'.
        -- reflexivity.
    + intros Hp.
      exact (SetPasswordAPI_post_password_refused user p uid mail db
               Eu Em Hu Hm Hv Hp).
Qed.

Lemma C9_witness :
  let p := mkSetPasswordPayload (Given "carol ") (Given " carol@example.com")
                                (Given " s3cret ") in
  let db := mkDB [alice; bob; carol] [] [] [] [] [] in
  SetPasswordAPI_post (ev := sample_validator) None p db
  = (Ok "Password set successfully",
     with_users (replace_user carol (activated "s3cret" carol)) db).
Proof.
  cbv zeta.
  refine (proj1 (proj1 (proj2 (C9_set_password_at_most_once
            (ev := sample_validator) None
            (mkSetPasswordPayload (Given "carol ") (Given " carol@example.com")
                                  (Given " s3cret "))
            "carol " " carol@example.com" carol
            (mkDB [alice; bob; carol] [] [] [] [] [])
            eq_refl eq_refl _ _ eq_refl _ eq_refl) eq_refl)
            " s3cret " eq_refl _)).
  - split; [discriminate | reflexivity].
  - split; [discriminate | reflexivity].
  - repeat constructor; simpl; intuition discriminate.
  - split; [discriminate | reflexivity].
Defined.

(* ================================================================== *)
(** * Tasks: validation comes before any write                         *)
(* ================================================================== *)

Lemma validation_ret {A} (a : A) : validation (ret a).
Proof. intros db. left. exists a. reflexivity. Qed.

Lemma validation_raise {A} detail : validation (@raise A (ValidationError detail)).
Proof. intros db. right. exists detail. reflexivity. Qed.

Lemma validation_bind {A B} (c : Req A) (k : A -> Req B) :
  validation c -> (forall a, validation (k a)) -> validation (bind c k).
Proof.
  intros Hc Hk db. unfold bind.
  destruct (Hc db) as [(a & ->) | (d & ->)]; [apply Hk|].
  right. exists d. reflexivity.
Qed.

Lemma rejects_bind {A B} (c : Req A) (k : A -> Req B) db :
  rejects c db -> rejects (bind c k) db.
Proof.
  intros (d & Hc). unfold rejects, bind. rewrite Hc.
  exists d. reflexivity.
Qed.

Lemma rejects_after {A B} (c : Req A) (k : A -> Req B) db :
  validation c -> (forall a, rejects (k a) db) -> rejects (bind c k) db.
Proof.
  intros Hc Hk. unfold rejects, bind.
  destruct (Hc db) as [(a & ->) | (d & ->)]; [apply Hk|].
  exists d. reflexivity.
Qed.

Lemma rejects_ret_bind {A B} (a : A) (k : A -> Req B) db :
  rejects (k a) db -> rejects (bind (ret a) k) db.
Proof. intros Hk. exact Hk. Qed.

(** A validation step refuses what it does not accept. *)
Lemma not_accepted_rejects {A} (c : Req A) db :
  validation c -> (forall a, c db <> (Ok a, db)) -> rejects c db.
Proof.
  intros Hc Hno. destruct (Hc db) as [(a & Ha) | Hd]; [|exact Hd].
  exfalso. exact (Hno a Ha).
Qed.

Lemma validation_required_char f r : validation (required_char f r).
Proof.
  destruct r as [| |s]; cbn [required_char]; try apply validation_raise.
  cbv zeta. destruct (String.eqb (strip s) ""); [apply validation_raise|].
  destruct (has_nul (strip s)); [apply validation_raise | apply validation_ret].
Qed.

Lemma validation_optional_char f r : validation (optional_char f r).
Proof.
  destruct r as [| |s]; cbn [optional_char];
    try first [apply validation_raise | apply validation_ret].
  cbv zeta.
  destruct (has_nul (strip s)); [apply validation_raise | apply validation_ret].
Qed.

Lemma validation_required {A} f (r : raw A) : validation (required f r).
Proof.
  destruct r; simpl; first [apply validation_raise | apply validation_ret].
Qed.

Lemma validation_optional {A} f (r : raw A) : validation (optional f r).
Proof.
  destruct r; simpl; first [apply validation_raise | apply validation_ret].
Qed.

Lemma validation_choice f cs r : validation (choice f cs r).
Proof.
  destruct r as [| |s]; simpl; try apply validation_raise.
  destruct (existsb _ cs); [apply validation_ret | apply validation_raise].
Qed.

Lemma validation_optional_choice f cs r : validation (optional_choice f cs r).
Proof.
  unfold optional_choice. destruct r as [| |s]; [apply validation_ret| |];
    (apply validation_bind;
     [apply validation_choice | intros; apply validation_ret]).
Qed.

Lemma validation_if {A} (b : bool) (c1 c2 : Req A) :
  validation c1 -> validation c2 -> validation (if b then c1 else c2).
Proof. destruct b; tauto. Qed.

Create HintDb validation.
#[local] Hint Resolve validation_ret validation_raise validation_required_char
  validation_optional_char validation_required validation_optional
  validation_choice
  validation_optional_choice validation_if : validation.

Lemma validation_subtask p : validation (SubtaskCreateSerializer_is_valid p).
Proof.
  unfold SubtaskCreateSerializer_is_valid.
  repeat (apply validation_bind; [auto with validation | intros ?]).
  - destruct (sp_status p); auto with validation.
  - auto with validation.
Qed.

Lemma validation_map_req {A B} (f : A -> Req B) l :
  (forall a, validation (f a)) -> validation (map_req f l).
Proof.
  intros Hf. induction l as [|x l IH]; simpl; [apply validation_ret|].
  apply validation_bind; [apply Hf|]. intros y.
  apply validation_bind; [exact IH|]. intros ys. apply validation_ret.
Qed.

Lemma map_req_rejects {A B} (f : A -> Req B) l s db :
  (forall a, validation (f a)) -> In s l -> rejects (f s) db ->
  rejects (map_req f l) db.
Proof.
  intros Hf. induction l as [|x l IH]; simpl; [tauto|].
  intros [-> | Hin] Hs.
  - apply rejects_bind, Hs.
  - apply rejects_after; [apply Hf|]. intros y.
    apply rejects_bind, IH; assumption.
Qed.

Lemma TaskSerializer_is_valid_rejects p l s db :
  tk_subtasks_data p = Given l -> In s l ->
  rejects (SubtaskCreateSerializer_is_valid s) db ->
  rejects (TaskSerializer_is_valid p) db.
Proof.
  intros El Hin Hs. unfold TaskSerializer_is_valid. rewrite El.
  do 7 (apply rejects_after; [auto with validation | intros ?]).
  apply (rejects_ret_bind (Some l)).
  apply rejects_bind, rejects_bind.
  eapply map_req_rejects; eauto using validation_subtask.
Qed.

(** Some of the entries [SubtaskCreateSerializer] refuses: one without
    a title, one whose title is blank once trimmed, one whose priority
    is not among the choices. *)
Lemma missing_title_rejected p :
  sp_title p = Absent -> rejected (SubtaskCreateSerializer_is_valid p).
Proof.
  intros E db. unfold SubtaskCreateSerializer_is_valid. rewrite E.
  apply rejects_bind. eexists. reflexivity.
Qed.

Lemma blank_title_rejected p t :
  sp_title p = Given t -> strip t = "" ->
  rejected (SubtaskCreateSerializer_is_valid p).
Proof.
  intros E Hblank db. unfold SubtaskCreateSerializer_is_valid. rewrite E.
  apply rejects_bind. exists "title". apply required_char_refused.
  intros [Hb _]. contradiction.
Qed.

Lemma unknown_priority_rejected p t s e x :
  sp_title p = Given t -> sp_description p = Absent ->
  sp_estimated_start_date p = Given s -> sp_estimated_end_date p = Given e ->
  sp_priority p = Given x ->
  existsb (String.eqb x) Task.PRIORITY_CHOICES = false ->
  rejected (SubtaskCreateSerializer_is_valid p).
Proof.
  intros Et Ed Es Ee Ep Hx db. unfold SubtaskCreateSerializer_is_valid.
  rewrite Et, Ed, Es, Ee, Ep.
  apply rejects_after; [auto with validation | intros ?].
  do 3 (apply rejects_after; [auto with validation | intros ?]).
  apply rejects_bind. unfold choice. rewrite Hx.
  eexists. reflexivity.
Qed.

Lemma rejected_invalid_subtask s db :
  rejected (SubtaskCreateSerializer_is_valid s) -> invalid_subtask s db.
Proof. intros Hs v E. destruct (Hs db) as (d & Hd). congruence. Qed.

(** C7.  A create-task request one of whose subtask entries is invalid,
    that is, not accepted by [SubtaskCreateSerializer], fails with a
    validation error, and the store is exactly as before: neither the
    top-level task nor any subtask has been written. *)
Theorem C7_create_task_validates_before_writing :
  forall (now : Z) (caller : User.t) (p : TaskPayload)
         (l : list SubtaskPayload) (s : SubtaskPayload) (db : DB),
    tk_subtasks_data p = Given l ->
    In s l ->
    invalid_subtask s db ->
    exists detail,
      TaskViewSet_create now (Some caller) p db
      = (Raise (ValidationError detail), db).
Proof.
  intros now caller p l s db El Hin Hs.
  unfold TaskViewSet_create.
  unfold bind at 1. rewrite authenticated_some.
  unfold bind at 1.
  destruct (TaskSerializer_is_valid_rejects p l s db El Hin
              (not_accepted_rejects _ db (validation_subtask s) Hs))
    as (d & ->).
  exists d. reflexivity.
Qed.

Lemma C7_witness :
  let bad := mkSubtaskPayload Absent (Given "   ") Absent (Given 11) (Given 12)
                              (Given "HIGH") Absent in
  let p := mkTaskPayload (Given "release") Absent (Given 10) (Given 20)
                         Absent Absent
                         (Given [subtask_payload Absent "notes"; bad]) in
  exists detail,
    TaskViewSet_create 30 (Some alice) p empty_db
    = (Raise (ValidationError detail), empty_db).
Proof.
  cbv zeta.
  eapply (C7_create_task_validates_before_writing 30 alice _ _
            (mkSubtaskPayload Absent (Given "   ") Absent (Given 11) (Given 12)
                              (Given "HIGH") Absent) empty_db).
  - reflexivity.
  - right. left. reflexivity.
  - apply rejected_invalid_subtask, (blank_title_rejected _ "   ");
      reflexivity.
Defined.

(** With every entry accepted the request writes the task and one row
    per entry. *)
Example TaskViewSet_create_writes_all :
  let p := mkTaskPayload (Given "release") Absent (Given 10) (Given 20)
                         Absent Absent
                         (Given [subtask_payload Absent "notes";
                                 subtask_payload Absent "tests"]) in
  map Task.title (tasks (snd (TaskViewSet_create 30 (Some alice) p empty_db)))
  = ["release"; "notes"; "tests"]
  /\ map Task.parent_task
         (tasks (snd (TaskViewSet_create 30 (Some alice) p empty_db)))
     = [None; Some 1; Some 1].
Proof. split; reflexivity. Qed.

(* ================================================================== *)
(** * Tasks: what an update does to the subtasks                       *)
(* ================================================================== *)

Lemma returns_ret {A} (P : A -> Prop) a : P a -> returns P (ret a).
Proof. intros H db a' db' E. inversion E; subst. exact H. Qed.

Lemma returns_bind {A B} (P : B -> Prop) (c : Req A) (k : A -> Req B) :
  (forall a, returns P (k a)) -> returns P (bind c k).
Proof.
  intros Hk db b db'. unfold bind.
  destruct (c db) as [[a|e] db1]; [apply Hk | discriminate].
Qed.

Lemma returns_bind_with {A B} (Q : A -> Prop) (P : B -> Prop)
    (c : Req A) (k : A -> Req B) :
  returns Q c -> (forall a, Q a -> returns P (k a)) -> returns P (bind c k).
Proof.
  intros Hc Hk db b db'. unfold bind.
  destruct (c db) as [[a|e] db1] eqn:E; [|discriminate].
  apply Hk. eapply Hc, E.
Qed.

(** The validated entry never has the key ["id"], whatever the payload
    carries. *)
Lemma SubtaskCreateSerializer_drops_id p :
  returns (fun v => sd_id v = None) (SubtaskCreateSerializer_is_valid p).
Proof.
  unfold SubtaskCreateSerializer_is_valid.
  repeat (apply returns_bind; intros ?).
  apply returns_ret. reflexivity.
Qed.

Lemma returns_map_req {A B} (P : B -> Prop) (f : A -> Req B) l :
  (forall a, returns P (f a)) -> returns (Forall P) (map_req f l).
Proof.
  intros Hf. induction l as [|x l IH]; simpl.
  - apply returns_ret. constructor.
  - apply (returns_bind_with P); [apply Hf|]. intros y Hy.
    apply (returns_bind_with (Forall P)); [exact IH|]. intros ys Hys.
    apply returns_ret. constructor; assumption.
Qed.

Lemma TaskSerializer_is_valid_without_id p :
  returns (fun v => without_id (vd_subtasks_data v)) (TaskSerializer_is_valid p).
Proof.
  unfold TaskSerializer_is_valid.
  do 7 (apply returns_bind; intros ?).
  apply returns_bind; intros entries.
  apply (returns_bind_with without_id).
  - destruct entries as [l|].
    + apply (returns_bind_with (Forall (fun sub => sd_id sub = None))).
      * apply returns_map_req, SubtaskCreateSerializer_drops_id.
      * intros subs Hsubs. apply returns_ret. exact Hsubs.
    + apply returns_ret. constructor.
  - intros subs Hsubs. apply returns_ret. exact Hsubs.
Qed.

(** Without the key the loop body of [TaskSerializer.update] is the
    create branch. *)
Lemma update_subtask_without_id now instance user sub :
  sd_id sub = None ->
  update_subtask now instance user sub
  = create_subtask now (Task.id instance) user sub.
Proof. unfold update_subtask. intros ->. reflexivity. Qed.

Lemma keeps_read_only {A} pk (c : Req A) :
  read_only c -> keeps_other_tasks pk c.
Proof. intros Hc db t Hin _. rewrite Hc. exact Hin. Qed.

Lemma keeps_bind_with {A B} pk (Q : A -> Prop) (c : Req A) (k : A -> Req B) :
  keeps_other_tasks pk c -> returns Q c ->
  (forall a, Q a -> keeps_other_tasks pk (k a)) ->
  keeps_other_tasks pk (bind c k).
Proof.
  intros Hc Hq Hk db t Hin Hne. unfold bind.
  specialize (Hc db t Hin Hne).
  destruct (c db) as [[a|e] db1] eqn:E; simpl in Hc; [|exact Hc].
  apply Hk; [eapply Hq, E | exact Hc | exact Hne].
Qed.

Lemma keeps_bind {A B} pk (c : Req A) (k : A -> Req B) :
  keeps_other_tasks pk c -> (forall a, keeps_other_tasks pk (k a)) ->
  keeps_other_tasks pk (bind c k).
Proof.
  intros Hc Hk. apply (keeps_bind_with pk (fun _ => True)); auto.
  intros db a db' _. exact I.
Qed.

Lemma keeps_Task_save now t : keeps_other_tasks (Task.id t) (Task_save now t).
Proof.
  intros db r Hin Hne. unfold Task_save, bind, modify, ret.
  cbn [snd tasks with_tasks].
  destruct (existsb _ (tasks db)).
  - apply in_map_iff. exists r. split; [|exact Hin].
    apply Z.eqb_neq in Hne. rewrite Hne. reflexivity.
  - apply in_or_app. left. exact Hin.
Qed.

Lemma keeps_create_subtask pk now parent user sub :
  keeps_other_tasks pk (create_subtask now parent user sub).
Proof.
  intros db r Hin _. unfold create_subtask, bind, Task_objects_create.
  destruct (existsb _ (tasks db)); simpl; [exact Hin|].
  apply in_or_app. left. exact Hin.
Qed.

Lemma keeps_for_each_create pk now instance user subs :
  Forall (fun sub => sd_id sub = None) subs ->
  keeps_other_tasks pk (for_each subs (update_subtask now instance user)).
Proof.
  induction 1 as [|sub subs Hsub _ IH]; simpl.
  - apply keeps_read_only, read_only_ret.
  - apply keeps_bind; [|intros _; exact IH].
    rewrite (update_subtask_without_id _ _ _ _ Hsub).
    apply keeps_create_subtask.
Qed.

Lemma TaskViewSet_get_object_id caller pk :
  returns (fun t => Task.id t = pk) (TaskViewSet_get_object caller pk).
Proof.
  intros db t db'. unfold TaskViewSet_get_object, bind, read.
  unfold get_object_or_404, catch.
  destruct (filter _ (tasks db)) as [|x [|y l]] eqn:F; simpl;
    intros E; inversion E; subst.
  destruct (filter_In_head _ _ _ _ F) as [_ Hf].
  apply andb_true_iff in Hf. destruct Hf as [Hid _].
  apply Z.eqb_eq, Hid.
Qed.

Lemma read_only_TaskViewSet_get_object caller pk :
  read_only (TaskViewSet_get_object caller pk).
Proof.
  apply read_only_bind; [apply read_only_read|]. intros db.
  apply read_only_catch; [apply read_only_get|].
  intros e k. destruct e; intros E; inversion E. apply read_only_raise.
Qed.

Lemma read_only_validation {A} (c : Req A) : validation c -> read_only c.
Proof.
  intros Hc db. destruct (Hc db) as [(a & ->) | (d & ->)]; reflexivity.
Qed.

Lemma validation_TaskSerializer_is_valid p :
  validation (TaskSerializer_is_valid p).
Proof.
  unfold TaskSerializer_is_valid.
  do 7 (apply validation_bind; [auto with validation | intros ?]).
  apply validation_bind; [auto with validation | intros entries].
  apply validation_bind; [|auto with validation].
  destruct entries as [l|]; [|auto with validation].
  apply validation_bind; [|auto with validation].
  apply validation_map_req, validation_subtask.
Qed.

(** Whatever the request, PUT /tasks/<pk>/ leaves every row other than
    the task [pk] itself as it was: no subtask is updated in place. *)
Lemma TaskViewSet_update_keeps_other_tasks now user pk p :
  keeps_other_tasks pk (TaskViewSet_update now user pk p).
Proof.
  unfold TaskViewSet_update.
  apply keeps_bind; [apply keeps_read_only, read_only_authenticated|].
  intros caller.
  apply (keeps_bind_with pk (fun t => Task.id t = pk));
    [apply keeps_read_only, read_only_TaskViewSet_get_object
    |apply TaskViewSet_get_object_id|].
  intros instance Hid.
  apply (keeps_bind_with pk (fun v => without_id (vd_subtasks_data v)));
    [apply keeps_read_only, read_only_validation,
       validation_TaskSerializer_is_valid
    |apply TaskSerializer_is_valid_without_id|].
  intros v Hv. unfold TaskSerializer_update.
  apply keeps_bind.
  - rewrite <- Hid.
    change (Task.id instance) with (Task.id (set_task_fields instance v)).
    apply keeps_Task_save.
  - intros saved.
    apply keeps_bind; [|intros _; apply keeps_read_only, read_only_ret].
    apply keeps_for_each_create, Hv.
Qed.

(** Given an entry that does carry the id of a subtask of the instance,
    [TaskSerializer.update] itself updates that row in place. *)
Example TaskSerializer_update_in_place :
  let v := mkTaskData "release 2" None 10 20 None None
             (Some [mkSubtaskData (Some 2) "changelog v2" None 11 12
                                  "HIGH" "PENDING"]) in
  tasks (snd (TaskSerializer_update 30 alice
                (Task.mk 1 "release" "" 1 None 10 20 "MEDIUM" "PENDING" 0 0)
                v task_db))
  = [Task.mk 1 "release 2" "" 1 None 10 20 "MEDIUM" "PENDING" 0 30;
     Task.mk 2 "changelog v2" "" 1 (Some 1) 11 12 "HIGH" "PENDING" 0 30].
Proof. reflexivity. Qed.

(** C4 fails on the code.  PUT /tasks/1/ by alice with one subtask
    entry that carries ["id": 2], the id of the existing subtask of
    task 1: the top-level fields are replaced, but the serializer drops
    the id, so subtask 2 keeps its old fields and a new subtask 3 is
    created from the entry. *)
Theorem C4_update_task_creates_instead_of_updating :
  let p := mkTaskPayload (Given "release 2") Absent (Given 10) (Given 20)
             Absent Absent
             (Given [subtask_payload (Given 2) "changelog v2"]) in
  let t1 := Task.mk 1 "release 2" "" 1 None 10 20 "MEDIUM" "PENDING" 0 30 in
  let t2 := Task.mk 2 "changelog" "" 1 (Some 1) 10 12 "LOW" "PENDING" 0 0 in
  let t3 := Task.mk 3 "changelog v2" "" 1 (Some 1) 11 12 "HIGH" "PENDING"
                    30 30 in
  In t2 (tasks task_db)
  /\ fst (TaskViewSet_update 30 (Some alice) 1 p task_db) = Ok t1
  /\ tasks (snd (TaskViewSet_update 30 (Some alice) 1 p task_db))
     = [t1; t2; t3].
Proof.
  cbv zeta. split; [right; left; reflexivity|]. split; reflexivity.
Qed.

(* ================================================================== *)
(** * Sending, history and lists of conversations                      *)
(* ================================================================== *)

(** [SendMessageView.post] keeps the invariant of the message table: if
    the sender of every stored message is one of the two participants
    of its conversation, the same holds after the request, whether it
    succeeds or fails. *)
Theorem SendMessageView_post_preserves_sender_invariant :
  forall (now : Z) (user : option User.t) (receiver_id : Z)
         (text : option string) (db : DB),
    senders_are_participants db ->
    senders_are_participants
      (snd (SendMessageView_post now user receiver_id text db)).
Proof.
  intros now user receiver_id text db.
  apply SendMessageView_post_keeps_senders.
Qed.

Lemma SendMessageView_post_preserves_sender_invariant_witness :
  senders_are_participants
    (snd (SendMessageView_post 5 (Some alice) 2 (Some "hi") chat_db)).
Proof.
  apply (SendMessageView_post_preserves_sender_invariant 5 (Some alice) 2
           (Some "hi") chat_db).
  constructor.
Defined.

(** POST /conversations/ never stores a conversation: with a caller it
    ends in [RelatedObjectDoesNotExist], without one in
    [NotAuthenticated], and the store is as before. *)
Theorem ConversationListCreateAPIView_create_never_stores :
  forall (now : Z) (user : option User.t) (db : DB),
    exists e, ConversationListCreateAPIView_create now user db = (Raise e, db).
Proof. intros now [caller|] db; eexists; reflexivity. Qed.

Lemma read_only_MessageSerializer_is_valid p :
  read_only (MessageSerializer_is_valid p).
Proof.
  unfold MessageSerializer_is_valid.
  apply read_only_bind;
    [apply read_only_validation, validation_required | intros pk].
  apply read_only_bind; [apply read_only_read | intros db0].
  apply read_only_bind.
  { destruct (existsb _ (conversations db0));
      [apply read_only_ret | apply read_only_raise]. }
  intros _.
  apply read_only_bind;
    [apply read_only_validation, validation_required_char | intros text].
  apply read_only_bind;
    [apply read_only_validation, validation_optional | intros is_read].
  apply read_only_ret.
Qed.

(** POST /messages/ never stores a message: the view saves the
    serializer without a sender, and the column is NOT NULL. *)
Theorem MessageListCreateAPIView_create_never_stores :
  forall (now : Z) (user : option User.t) (p : MessagePayload) (db : DB),
    exists e, MessageListCreateAPIView_create now user p db = (Raise e, db).
Proof.
  intros now user p db. unfold MessageListCreateAPIView_create.
  destruct user as [caller|]; [|eexists; reflexivity].
  unfold bind at 1. rewrite authenticated_some.
  unfold bind at 1.
  pose proof (read_only_MessageSerializer_is_valid p db) as Hro.
  destruct (MessageSerializer_is_valid p db) as [[v|e] db1]; simpl in Hro;
    subst db1; eexists; reflexivity.
Qed.

Lemma SendMessageView_post_spec now caller rid R text db :
  filter (fun u => User.id u =? rid) (users db) = [R] ->
  SendMessageView_post now (Some caller) rid text db =
  match filter (pair_is (Z.min (User.id caller) (User.id R))
                        (Z.max (User.id caller) (User.id R)))
               (conversations db) with
  | [] =>
      let c := new_conversation now (Z.min (User.id caller) (User.id R))
                                (Z.max (User.id caller) (User.id R)) db in
      deliver now caller text c (add_conversation c db)
  | [c] => deliver now caller text c db
  | _ => (Raise MultipleObjectsReturned, db)
  end.
Proof.
  intros Huser. unfold SendMessageView_post.
  unfold bind at 1. rewrite authenticated_some.
  unfold bind at 1. unfold User_objects_get_by_id, bind at 1, read.
  rewrite Huser. cbn [get ret].
  unfold bind at 1. rewrite get_or_create_conversation_spec.
  destruct (filter _ (conversations db)) as [|c [|c' r]];
    try reflexivity; destruct text; reflexivity.
Qed.

Lemma ChatHistoryView_get_spec now caller uid T db :
  filter (fun u => User.id u =? uid) (users db) = [T] ->
  ChatHistoryView_get now (Some caller) uid db =
  match filter (pair_is (Z.min (User.id caller) (User.id T))
                        (Z.max (User.id caller) (User.id T)))
               (conversations db) with
  | [] =>
      let c := new_conversation now (Z.min (User.id caller) (User.id T))
                                (Z.max (User.id caller) (User.id T)) db in
      (Ok (conversation_messages (Conversation.id c) db), add_conversation c db)
  | [c] => (Ok (conversation_messages (Conversation.id c) db), db)
  | _ => (Raise MultipleObjectsReturned, db)
  end.
Proof.
  intros Huser. unfold ChatHistoryView_get.
  unfold bind at 1. rewrite authenticated_some.
  unfold bind at 1. unfold User_objects_get_by_id, bind at 1, read.
  rewrite Huser. cbn [get ret].
  unfold bind at 1. rewrite get_or_create_conversation_spec.
  destruct (filter _ (conversations db)) as [|c [|c' r]]; reflexivity.
Qed.

(** A send request without the key ["text"] fails with [KeyError] only
    after the conversation has been created: on a first contact the
    failed request leaves a new conversation row, and no message. *)
Theorem SendMessageView_post_without_text_keeps_conversation :
  forall (now : Z) (caller receiver : User.t) (receiver_id : Z) (db : DB),
    filter (fun u => User.id u =? receiver_id) (users db) = [receiver] ->
    filter (pair_is (Z.min (User.id caller) (User.id receiver))
                    (Z.max (User.id caller) (User.id receiver)))
           (conversations db) = [] ->
    exists db',
      SendMessageView_post now (Some caller) receiver_id None db
        = (Raise KeyError, db')
      /\ conversations db'
         = conversations db
           ++ [Conversation.mk (next_id (map Conversation.id (conversations db)))
                 (Z.min (User.id caller) (User.id receiver))
                 (Z.max (User.id caller) (User.id receiver)) now]
      /\ messages db' = messages db.
Proof.
  intros now caller receiver receiver_id db Huser Hnone.
  rewrite (SendMessageView_post_spec _ _ _ _ _ _ Huser), Hnone.
  eexists. split; [reflexivity|]. split; reflexivity.
Qed.

Lemma SendMessageView_post_without_text_witness :
  exists db',
    SendMessageView_post 5 (Some carol) 1 None chat_db = (Raise KeyError, db')
    /\ conversations db' = [Conversation.mk 1 1 2 0; Conversation.mk 2 1 3 5].
Proof.
  destruct (SendMessageView_post_without_text_keeps_conversation
              5 carol alice 1 chat_db eq_refl eq_refl)
    as (db' & Hrun & Hconv & _).
  exists db'. split; [exact Hrun | exact Hconv].
Defined.

Lemma no_message_in_fresh_conversation db :
  messages_refer_to_conversations db ->
  filter (fun m => Message.conversation m
                   =? next_id (map Conversation.id (conversations db)))
         (messages db) = [].
Proof.
  intros Href. apply existsb_false_filter, not_true_is_false. intros Hex.
  apply existsb_exists in Hex. destruct Hex as (m & Hin & Heq).
  apply Z.eqb_eq in Heq. unfold messages_refer_to_conversations in Href.
  rewrite Forall_forall in Href. specialize (Href m Hin).
  rewrite Heq in Href. exact (next_id_fresh _ Href).
Qed.

(** First contact in both directions.  When A and B have no
    conversation yet, A's message to B creates the conversation of the
    pair, B's answer to A goes into the same conversation without
    creating another, and the history either of them then reads is the
    two messages in the order they were sent; reading it writes
    nothing. *)
Theorem two_way_send_shares_one_conversation :
  forall (now1 now2 now3 : Z) (A B : User.t) (t1 t2 : string) (db : DB),
    filter (fun u => User.id u =? User.id A) (users db) = [A] ->
    filter (fun u => User.id u =? User.id B) (users db) = [B] ->
    filter (pair_is (Z.min (User.id A) (User.id B))
                    (Z.max (User.id A) (User.id B)))
           (conversations db) = [] ->
    messages_refer_to_conversations db ->
    now1 <= now2 ->
    exists m1 m2 db1 db2,
      SendMessageView_post now1 (Some A) (User.id B) (Some t1) db = (Ok m1, db1)
      /\ SendMessageView_post now2 (Some B) (User.id A) (Some t2) db1
         = (Ok m2, db2)
      /\ Message.conversation m1 = Message.conversation m2
      /\ Message.sender m1 = User.id A
      /\ Message.sender m2 = User.id B
      /\ conversations db2
         = conversations db
           ++ [new_conversation now1 (Z.min (User.id A) (User.id B))
                                (Z.max (User.id A) (User.id B)) db]
      /\ ChatHistoryView_get now3 (Some A) (User.id B) db2 = (Ok [m1; m2], db2)
      /\ ChatHistoryView_get now3 (Some B) (User.id A) db2 = (Ok [m1; m2], db2).
Proof.
  intros now1 now2 now3 A B t1 t2 db HA HB Hnone Href Hle.
  set (lo := Z.min (User.id A) (User.id B)) in *.
  set (hi := Z.max (User.id A) (User.id B)) in *.
  assert (Hlo : Z.min (User.id B) (User.id A) = lo) by (subst lo; lia).
  assert (Hhi : Z.max (User.id B) (User.id A) = hi) by (subst hi; lia).
  set (c := new_conversation now1 lo hi db).
  set (m1 := Message.mk (next_id (map Message.id (messages db)))
                        (Conversation.id c) (User.id A) t1 false now1).
  set (db1 := with_messages (fun l => l ++ [m1]) (add_conversation c db)).
  set (m2 := Message.mk (next_id (map Message.id (messages db1)))
                        (Conversation.id c) (User.id B) t2 false now2).
  set (db2 := with_messages (fun l => l ++ [m2]) db1).
  assert (Hpair : filter (pair_is lo hi) (conversations db ++ [c]) = [c]).
  { rewrite filter_app, Hnone. simpl. unfold pair_is. simpl.
    rewrite !Z.eqb_refl. reflexivity. }
  assert (Hhist : conversation_messages (Conversation.id c) db2 = [m1; m2]).
  { unfold conversation_messages. subst db2 db1. cbn [messages with_messages
      add_conversation with_conversations].
    rewrite <- app_assoc, filter_app.
    change (Conversation.id c)
      with (next_id (map Conversation.id (conversations db))).
    rewrite (no_message_in_fresh_conversation db Href).
    cbn [app filter Message.conversation m1 m2 Conversation.id c
         new_conversation].
    rewrite Z.eqb_refl. cbn [sorted fold_right insert_by].
    change (Message.timestamp m1) with now1.
    change (Message.timestamp m2) with now2.
    apply Z.leb_le in Hle. rewrite Hle. reflexivity. }
  exists m1, m2, db1, db2.
  split.
  { rewrite (SendMessageView_post_spec _ _ _ _ _ _ HB). fold lo hi.
    rewrite Hnone. reflexivity. }
  split.
  { rewrite (SendMessageView_post_spec now2 B (User.id A) A (Some t2) db1 HA).
    rewrite Hlo, Hhi.
    change (conversations db1) with (conversations db ++ [c]).
    rewrite Hpair. reflexivity. }
  repeat split.
  - rewrite (ChatHistoryView_get_spec now3 A (User.id B) B db2 HB).
    fold lo hi. change (conversations db2) with (conversations db ++ [c]).
    rewrite Hpair, Hhist. reflexivity.
  - rewrite (ChatHistoryView_get_spec now3 B (User.id A) A db2 HA).
    rewrite Hlo, Hhi.
    change (conversations db2) with (conversations db ++ [c]).
    rewrite Hpair, Hhist. reflexivity.
Qed.

Lemma two_way_send_witness :
  let db := mkDB [alice; bob] [] [] [] [] [] in
  exists m1 m2 db1 db2,
    SendMessageView_post 1 (Some alice) 2 (Some "hi") db = (Ok m1, db1)
    /\ SendMessageView_post 2 (Some bob) 1 (Some "hello") db1 = (Ok m2, db2)
    /\ Message.conversation m1 = Message.conversation m2
    /\ ChatHistoryView_get 3 (Some alice) 2 db2 = (Ok [m1; m2], db2).
Proof.
  cbv zeta.
  destruct (two_way_send_shares_one_conversation 1 2 3 alice bob "hi" "hello"
              (mkDB [alice; bob] [] [] [] [] []))
    as (m1 & m2 & db1 & db2 & H1 & H2 & Hc & _ & _ & _ & Hh & _).
  - reflexivity.
  - reflexivity.
  - reflexivity.
  - constructor.
  - lia.
  - exists m1, m2, db1, db2. repeat split; assumption.
Defined.

Lemma conversation_listed_iff u c db :
  lists_conversation u c db
  <-> In c (conversations db)
      /\ (Conversation.user1 c = User.id u \/ Conversation.user2 c = User.id u).
Proof.
  unfold lists_conversation, ConversationListCreateAPIView_get_queryset,
    newest_first.
  split.
  - intros Hin.
    apply (Permutation_in _ (Permutation_sym (sorted_perm _ _))) in Hin.
    apply filter_In in Hin. destruct Hin as [Hin Hf].
    apply orb_true_iff in Hf. rewrite !Z.eqb_eq in Hf. tauto.
  - intros [Hin Hu].
    apply (Permutation_in _ (sorted_perm _ _)).
    apply filter_In. split; [exact Hin|].
    apply orb_true_iff. rewrite !Z.eqb_eq. exact Hu.
Qed.

(** After a message is sent, the conversation it went into is in the
    conversation list of the sender and of the receiver, and in the list
    of nobody else. *)
Theorem sent_conversation_is_listed_for_both :
  forall (now : Z) (caller receiver : User.t) (receiver_id : Z)
         (text : option string) (m : Message.t) (db db' : DB),
    filter (fun u => User.id u =? receiver_id) (users db) = [receiver] ->
    SendMessageView_post now (Some caller) receiver_id text db = (Ok m, db') ->
    exists c,
      In c (conversations db')
      /\ Conversation.id c = Message.conversation m
      /\ In c (ConversationListCreateAPIView_get_queryset caller db')
      /\ In c (ConversationListCreateAPIView_get_queryset receiver db')
      /\ forall other : User.t,
           User.id other <> User.id caller ->
           User.id other <> User.id receiver ->
           ~ In c (ConversationListCreateAPIView_get_queryset other db').
Proof.
  intros now caller receiver receiver_id text m db db' Huser Hrun.
  rewrite (SendMessageView_post_spec _ _ _ _ _ _ Huser) in Hrun.
  assert (H : exists c,
             In c (conversations db')
             /\ Conversation.id c = Message.conversation m
             /\ Conversation.user1 c = Z.min (User.id caller) (User.id receiver)
             /\ Conversation.user2 c
                = Z.max (User.id caller) (User.id receiver)).
  { destruct (filter _ (conversations db)) as [|c [|c' r]] eqn:F;
      [| |discriminate Hrun].
    - cbv zeta in Hrun. unfold deliver in Hrun.
      destruct text as [t|]; inversion Hrun; subst; clear Hrun.
      exists (new_conversation now (Z.min (User.id caller) (User.id receiver))
                (Z.max (User.id caller) (User.id receiver)) db).
      split; [|repeat split].
      cbn. apply in_or_app. right. left. reflexivity.
    - unfold deliver in Hrun.
      destruct text as [t|]; inversion Hrun; subst; clear Hrun.
      destruct (filter_In_head _ _ _ _ F) as [Hin Hp].
      apply pair_is_true in Hp. exists c. cbn. tauto. }
  destruct H as (c & Hin & Hid & H1 & H2).
  exists c. split; [exact Hin|]. split; [exact Hid|].
  fold (lists_conversation caller c db').
  fold (lists_conversation receiver c db').
  split; [|split].
  - apply conversation_listed_iff. split; [exact Hin | lia].
  - apply conversation_listed_iff. split; [exact Hin | lia].
  - intros other Hc Hr Hl. fold (lists_conversation other c db') in Hl.
    apply conversation_listed_iff in Hl. lia.
Qed.

Lemma sent_conversation_witness :
  exists c,
    In c (ConversationListCreateAPIView_get_queryset alice
            (snd (SendMessageView_post 5 (Some alice) 3 (Some "hi") chat_db)))
    /\ In c (ConversationListCreateAPIView_get_queryset carol
               (snd (SendMessageView_post 5 (Some alice) 3 (Some "hi") chat_db))).
Proof.
  destruct (sent_conversation_is_listed_for_both 5 alice carol 3 (Some "hi")
              (Message.mk 1 2 1 "hi" false 5) chat_db
              (snd (SendMessageView_post 5 (Some alice) 3 (Some "hi") chat_db))
              eq_refl eq_refl)
    as (c & _ & _ & Ha & Hc & _).
  exists c. split; assumption.
Defined.

(** [mark_as_read] is idempotent: the second call on the object writes
    nothing, and the message is read after the first. *)
Theorem Message_mark_as_read_idempotent :
  forall (self : Message.t) (db : DB),
    bind (Message_mark_as_read self) Message_mark_as_read db
      = Message_mark_as_read self db
    /\ (forall m db', Message_mark_as_read self db = (Ok m, db') ->
                      Message.is_read m = true
                      /\ Message_mark_as_read m db' = (Ok m, db')).
Proof.
  intros self db. unfold Message_mark_as_read.
  destruct (Message.is_read self) eqn:E; simpl.
  - split.
    + unfold bind, ret. rewrite E. reflexivity.
    + intros m db' H. inversion H; subst. rewrite E. split; reflexivity.
  - split.
    + reflexivity.
    + intros m db' H. unfold bind, Message_save, modify, ret in H.
      inversion H; subst. split; reflexivity.
Qed.

(* ================================================================== *)
(** * Users                                                            *)
(* ================================================================== *)

(** Creating users is for admins only, and listing them for admins and
    team leads: anyone else is refused before anything is read or
    written. *)
Theorem UserViewSet_create_requires_admin {ev : EmailValidator} :
  forall (u : User.t) (p : CreateUserPayload) (db : DB),
    User.is_admin u = false ->
    UserViewSet_create (Some u) p db = (Raise PermissionDenied, db)
    /\ UserViewSet_create None p db = (Raise NotAuthenticated, db)
    /\ (User.is_teamlead u = true ->
        UserViewSet_list (Some u) db = (Ok (sorted User.id (users db)), db))
    /\ (User.is_teamlead u = false ->
        UserViewSet_list (Some u) db = (Raise PermissionDenied, db)).
Proof.
  intros u p db Hadmin.
  unfold UserViewSet_create, UserViewSet_list, bind, check_permissions.
  cbn [UserViewSet_get_permissions action_eqb existsb orb forallb
       has_permission andb].
  rewrite Hadmin. cbn [andb orb].
  repeat split; intros Hlead; rewrite Hlead; reflexivity.
Qed.

Lemma UserViewSet_create_requires_admin_witness :
  UserViewSet_create (ev := sample_validator) (Some bob)
    (mkCreateUserPayload (Given "erin") (Given "erin@example.com")
                         Absent Absent Absent)
    chat_db
  = (Raise PermissionDenied, chat_db).
Proof.
  apply (UserViewSet_create_requires_admin (ev := sample_validator) bob
           (mkCreateUserPayload (Given "erin") (Given "erin@example.com")
                                Absent Absent Absent) chat_db).
  reflexivity.
Defined.

Lemma unique_char_cases field max_length format column r db :
  (exists s, unique_char field max_length format column r db
             = (Ok (strip s), db)
             /\ r = Given s /\ accepted s /\ format (strip s) = true
             /\ existsb (fun u => String.eqb (column u) (strip s)) (users db)
                = false)
  \/ (exists detail,
        unique_char field max_length format column r db
        = (Raise (ValidationError detail), db)).
Proof.
  unfold unique_char, bind, read.
  destruct (required_char_cases field r db) as [(s & E & Ha & ->) | [_ ->]];
    [|right; eexists; reflexivity].
  cbv beta iota.
  destruct (format (strip s)) eqn:Ef; [|right; eexists; reflexivity].
  cbn [ret].
  destruct (max_length <? Z.of_nat (String.length (strip s)));
    [right; eexists; reflexivity|].
  cbn [ret].
  destruct (existsb _ (users db)) eqn:Ex; [right; eexists; reflexivity|].
  left. exists s. repeat split; try assumption; apply Ha.
Qed.

Lemma validation_boolean_default_false f r :
  validation (boolean_default_false f r).
Proof.
  destruct r; simpl; first [apply validation_raise | apply validation_ret].
Qed.

Lemma existsb_orb {A} (f g : A -> bool) l :
  existsb (fun x => f x || g x) l = existsb f l || existsb g l.
Proof.
  induction l as [|x l IH]; simpl; [reflexivity|].
  rewrite IH. destruct (f x), (g x), (existsb f l), (existsb g l); reflexivity.
Qed.

(** What POST /users/ does, case by case: the row it stores holds the
    trimmed [user_id] and [email] of the payload. *)
Lemma UserViewSet_create_cases {ev : EmailValidator} user p db :
  (exists e, UserViewSet_create user p db = (Raise e, db))
  \/ exists uid mail a t act,
       cu_user_id p = Given uid /\ cu_email p = Given mail
       /\ accepted uid /\ accepted mail /\ valid_email (strip mail) = true
       /\ existsb (fun u => String.eqb (User.user_id u) (strip uid)) (users db)
          = false
       /\ existsb (fun u => String.eqb (User.email u) (strip mail)) (users db)
          = false
       /\ (cu_is_active p = Absent -> act = false)
       /\ UserViewSet_create user p db
          = (Ok (User.mk (next_id (map User.id (users db)))
                         (strip uid) (strip mail) a t act false Unusable),
             with_users
               (fun l => l ++ [User.mk (next_id (map User.id (users db)))
                                       (strip uid) (strip mail) a t act
                                       false Unusable]) db).
Proof.
  remember (UserViewSet_create user p db) as X eqn:HX.
  unfold UserViewSet_create in HX.
  unfold bind at 1 in HX.
  pose proof (read_only_check_permissions
                (UserViewSet_get_permissions create) user db) as Hro.
  destruct (check_permissions _ user db) as [[[]|e] db0]; simpl in Hro;
    subst db0; [|left; eexists; exact HX].
  unfold CreateUserSerializer_is_valid in HX.
  unfold bind at 1 2 in HX.
  destruct (unique_char_cases "user_id" 50 any_text User.user_id
              (cu_user_id p) db)
    as [(uid & Hr & Eu & Hu & _ & Xu) | (d & Hr)]; rewrite Hr in HX; clear Hr;
    [|left; eexists; exact HX].
  unfold bind at 1 in HX.
  destruct (unique_char_cases "email" 254 valid_email User.email
              (cu_email p) db)
    as [(mail & Hr & Em & Hm & Hv & Xm) | (d & Hr)]; rewrite Hr in HX;
    clear Hr; [|left; eexists; exact HX].
  unfold bind at 1 in HX.
  destruct (validation_boolean_default_false "is_admin" (cu_is_admin p) db)
    as [(a & Hr) | (d & Hr)]; rewrite Hr in HX; clear Hr;
    [|left; eexists; exact HX].
  unfold bind at 1 in HX.
  destruct (validation_boolean_default_false "is_teamlead" (cu_is_teamlead p)
              db) as [(t & Hr) | (d & Hr)]; rewrite Hr in HX; clear Hr;
    [|left; eexists; exact HX].
  unfold bind at 1 in HX.
  assert (Hins : forall act,
    CreateUserSerializer_create
      (mkCreateUserData (strip uid) (strip mail) a t act) db
    = (Ok (User.mk (next_id (map User.id (users db)))
                   (strip uid) (strip mail) a t act false Unusable),
       with_users
         (fun l => l ++ [User.mk (next_id (map User.id (users db)))
                                 (strip uid) (strip mail) a t act
                                 false Unusable]) db)).
  { intros act. unfold CreateUserSerializer_create, User_insert.
    cbn [cv_user_id cv_email cv_is_admin cv_is_teamlead cv_is_active].
    rewrite existsb_orb, Xu, Xm. reflexivity. }
  destruct (cu_is_active p) as [| |act] eqn:Eact;
    cbn [boolean_default_false] in HX;
    [|left; eexists; exact HX|].
  - right. exists uid, mail, a, t, false.
    unfold ret in HX. rewrite Hins in HX. subst X.
    repeat split; try assumption; first [apply Hu | apply Hm].
  - right. exists uid, mail, a, t, act.
    unfold ret in HX. rewrite Hins in HX. subst X.
    repeat split; try assumption; first [apply Hu | apply Hm | discriminate].
Qed.

Lemma NoDup_snoc {A} (l : list A) x : NoDup l -> ~ In x l -> NoDup (l ++ [x]).
Proof.
  induction l as [|a l IH]; simpl; intros Hnd Hx.
  - repeat constructor. tauto.
  - inversion Hnd as [|? ? Ha Hl]; subst. constructor.
    + intros Hin. apply in_app_or in Hin. simpl in Hin.
      destruct Hin as [Hin | [Heq | []]]; [contradiction|].
      apply Hx. left. symmetry. exact Heq.
    + apply IH; [exact Hl | tauto].
Qed.

Lemma column_not_taken (column : User.t -> string) s rows :
  existsb (fun u => String.eqb (column u) s) rows = false ->
  ~ In s (map column rows).
Proof.
  intros Hex Hin. apply in_map_iff in Hin. destruct Hin as (u & Hc & Hu).
  assert (H : existsb (fun u => String.eqb (column u) s) rows = true).
  { apply existsb_exists. exists u. split; [exact Hu|].
    rewrite Hc. apply String.eqb_refl. }
  congruence.
Qed.

(** POST /users/ keeps the user table free of duplicates: whatever the
    request, no two rows share the primary key, the [user_id] or the
    [email]. *)
Theorem UserViewSet_create_keeps_users_unique {ev : EmailValidator} :
  forall (user : option User.t) (p : CreateUserPayload) (db : DB),
    users_unique db -> users_unique (snd (UserViewSet_create user p db)).
Proof.
  intros user p db (Hid & Huid & Hmail).
  destruct (UserViewSet_create_cases user p db)
    as [(e & ->)
       | (uid & mail & a & t & act & _ & _ & _ & _ & _ & Xu & Xm & _ & ->)].
  - repeat split; assumption.
  - unfold users_unique. cbn [snd users with_users].
    rewrite !map_app. cbn [map User.id User.user_id User.email].
    repeat split; apply NoDup_snoc; try assumption.
    + apply next_id_fresh.
    + apply column_not_taken, Xu.
    + apply column_not_taken, Xm.
Qed.

Lemma UserViewSet_create_keeps_users_unique_witness :
  users_unique
    (snd (UserViewSet_create (ev := sample_validator) (Some dave_admin)
            (mkCreateUserPayload (Given "erin") (Given "erin@example.com")
                                 Absent Absent Absent)
            (mkDB [alice; dave_admin] [] [] [] [] []))).
Proof.
  apply (UserViewSet_create_keeps_users_unique (ev := sample_validator)
           (Some dave_admin)).
  repeat split; repeat constructor; simpl; intuition discriminate.
Defined.



(** A set-password request whose trimmed [user_id] and [email] name no
    user (both have to match one row) fails with the validation error
    "User not found" and writes nothing. *)
Theorem SetPasswordAPI_post_unknown_user {ev : EmailValidator} :
  forall (user : option User.t) (p : SetPasswordPayload)
         (uid mail pw : string) (db : DB),
    sp_user_id p = Given uid -> sp_email p = Given mail ->
    sp_password p = Given pw ->
    accepted uid -> accepted mail -> valid_email (strip mail) = true ->
    accepted pw ->
    (forall u, In u (users db) ->
               User.user_id u <> strip uid \/ User.email u <> strip mail) ->
    SetPasswordAPI_post user p db
      = (Raise (ValidationError "User not found"), db).
Proof.
  intros user p uid mail pw db Eu Em Ep Hu Hm Hv Hp Hnone.
  unfold SetPasswordAPI_post, SetPasswordSerializer_is_valid.
  rewrite Eu, Em, Ep.
  unfold bind at 1. cbn [check_permissions forallb has_permission andb ret].
  unfold bind at 1 2. rewrite (required_char_given _ _ _ Hu).
  unfold bind at 1. rewrite (email_field_given _ _ _ Hm Hv).
  unfold bind at 1. rewrite (required_char_given _ _ _ Hp).
  unfold SetPasswordSerializer_validate, User_objects_get.
  unfold bind at 1. unfold catch, bind at 1, read.
  replace (filter (names_user (strip uid) (strip mail)) (users db))
    with (@nil User.t); [reflexivity|].
  symmetry. apply existsb_false_filter, not_true_is_false. intros Hex.
  apply existsb_exists in Hex. destruct Hex as (u & Hin & Hn).
  unfold names_user in Hn. rewrite andb_true_iff, !String.eqb_eq in Hn.
  destruct (Hnone u Hin); tauto.
Qed.

Lemma SetPasswordAPI_post_unknown_user_witness :
  SetPasswordAPI_post (ev := sample_validator) None
    (mkSetPasswordPayload (Given "carol ") (Given "alice@example.com")
                          (Given "s3cret"))
    chat_db
  = (Raise (ValidationError "User not found"), chat_db).
Proof.
  apply (SetPasswordAPI_post_unknown_user (ev := sample_validator) None _
           "carol " "alice@example.com" "s3cret" chat_db);
    try reflexivity; try (split; [discriminate | reflexivity]).
  intros u [<- | [<- | [<- | []]]];
    first [left; discriminate | right; discriminate].
Defined.

(* ================================================================== *)
(** * Teams: who may change a team, and what the member list becomes   *)
(* ================================================================== *)

Lemma filter_perm {A} (f : A -> bool) l l' :
  Permutation l l' -> Permutation (filter f l) (filter f l').
Proof.
  induction 1 as [| x l l' _ IH | x y l | l l' l'' _ IH1 _ IH2]; simpl.
  - constructor.
  - destruct (f x); [constructor|]; exact IH.
  - destruct (f x), (f y); try reflexivity. apply perm_swap.
  - etransitivity; eassumption.
Qed.

Lemma filter_sorted_nil {A} (f : A -> bool) key l :
  filter f l = [] -> filter f (sorted key l) = [].
Proof.
  intros F. apply Permutation_nil.
  rewrite <- F. apply filter_perm, sorted_perm.
Qed.

Lemma filter_sorted_one {A} (f : A -> bool) key l x :
  filter f l = [x] -> filter f (sorted key l) = [x].
Proof.
  intros F. apply Permutation_length_1_inv.
  rewrite <- F. apply filter_perm, sorted_perm.
Qed.

Lemma filter_filter_comm {A} (f g : A -> bool) l :
  filter f (filter g l) = filter g (filter f l).
Proof.
  induction l as [|x l IH]; simpl; [reflexivity|].
  destruct (g x) eqn:G, (f x) eqn:F; simpl; rewrite ?G, ?F, IH; reflexivity.
Qed.

Lemma unique_key_filter {A} (key : A -> Z) k l :
  NoDup (map key l) ->
  filter (fun x => key x =? k) l = []
  \/ exists x, filter (fun x => key x =? k) l = [x].
Proof.
  induction l as [|x l IH]; simpl; intros Hnd; [left; reflexivity|].
  inversion Hnd as [|? ? Hnotin Hnd']; subst.
  destruct (key x =? k) eqn:Ex; [|apply IH, Hnd'].
  right. exists x. f_equal.
  destruct (filter (fun x => key x =? k) l) as [|y r] eqn:F; [reflexivity|].
  exfalso. apply Hnotin.
  destruct (filter_In_head _ _ _ _ F) as [Hin Hy].
  apply Z.eqb_eq in Ex. apply Z.eqb_eq in Hy. rewrite Ex, <- Hy.
  apply in_map, Hin.
Qed.

Lemma no_owned_team caller pk db :
  (forall t, In t (teams db) -> Team.id t = pk ->
             Team.created_by t <> User.id caller) ->
  filter (fun t => Team.id t =? pk)
         (filter (fun t => Team.created_by t =? User.id caller) (teams db))
  = [].
Proof.
  intros Hno. apply existsb_false_filter, not_true_is_false. intros Hex.
  apply existsb_exists in Hex. destruct Hex as (t & Hin & Hid).
  apply filter_In in Hin. destruct Hin as [Hin Hcr].
  apply Z.eqb_eq in Hid. apply Z.eqb_eq in Hcr.
  exact (Hno t Hin Hid Hcr).
Qed.

(** Only its creator can change or delete a team: for anyone else, a
    member of the team included, PUT, PATCH and DELETE answer 404, as if
    the team did not exist, and write nothing. *)
Theorem TeamViewSet_update_destroy_creator_only :
  forall (partial : bool) (caller : User.t) (pk : Z) (p : CreateTeamPayload)
         (db : DB),
    (forall t, In t (teams db) -> Team.id t = pk ->
               Team.created_by t <> User.id caller) ->
    TeamViewSet_update partial (Some caller) pk p db = (Raise Http404, db)
    /\ TeamViewSet_destroy (Some caller) pk db = (Raise Http404, db).
Proof.
  intros partial caller pk p db Hno.
  pose proof (no_owned_team caller pk db Hno) as F.
  assert (Hobj : forall a,
             existsb (action_eqb a) [update; partial_update; destroy] = true ->
             TeamViewSet_get_object a (Some caller) caller pk db
             = (Raise Http404, db)).
  { intros a Ha. unfold TeamViewSet_get_object, TeamViewSet_get_queryset.
    rewrite Ha. unfold bind at 1, read. unfold bind at 1.
    unfold newest_first. rewrite (filter_sorted_nil _ _ _ F). reflexivity. }
  split.
  - unfold TeamViewSet_update.
    assert (Ha : existsb (action_eqb (if partial then partial_update else update))
                         [update; partial_update; destroy] = true)
      by (destruct partial; reflexivity).
    unfold bind at 1.
    assert (Hperm : check_permissions
                      (TeamViewSet_get_permissions
                         (if partial then partial_update else update))
                      (Some caller) db = (Ok tt, db))
      by (destruct partial; reflexivity).
    rewrite Hperm. unfold bind at 1. rewrite authenticated_some.
    unfold bind at 1. rewrite (Hobj _ Ha). reflexivity.
  - unfold TeamViewSet_destroy.
    unfold bind at 1. cbn [check_permissions TeamViewSet_get_permissions
      existsb action_eqb orb forallb has_permission andb ret].
    unfold bind at 1. rewrite authenticated_some.
    unfold bind at 1. rewrite (Hobj destroy eq_refl). reflexivity.
Qed.

Lemma TeamViewSet_update_destroy_creator_only_witness :
  TeamViewSet_update false (Some alice) 1
    (mkCreateTeamPayload (Given "mine") Absent Absent) team_db
  = (Raise Http404, team_db).
Proof.
  apply (TeamViewSet_update_destroy_creator_only false alice 1
           (mkCreateTeamPayload (Given "mine") Absent Absent) team_db).
  intros t [<- | []] _. discriminate.
Defined.

(** [IsTeamCreatorForTask] fails closed.  For the create action it
    grants permission exactly when the payload names, by a non-zero id,
    a team the caller created; a missing key, a zero id or an unknown
    team deny.  Every other action is allowed. *)
Theorem IsTeamCreatorForTask_fails_closed :
  forall (user : User.t) (team : option Z) (db : DB),
    NoDup (map Team.id (teams db)) ->
    exists b,
      IsTeamCreatorForTask_has_permission user create team db = (Ok b, db)
      /\ (b = true <->
          exists team_id t,
            team = Some team_id /\ team_id <> 0
            /\ In t (teams db) /\ Team.id t = team_id
            /\ Team.created_by t = User.id user).
Proof.
  intros user team db Hnd.
  unfold IsTeamCreatorForTask_has_permission. cbn [action_eqb negb].
  destruct team as [team_id|].
  2:{ exists false. split; [reflexivity|]. split; [discriminate|].
      intros (x & t & H & _). discriminate. }
  destruct (team_id =? 0) eqn:Ez.
  { exists false. split; [reflexivity|]. split; [discriminate|].
    intros (x & t & H & Hx & _). injection H as Hk. rewrite <- Hk in Hx.
    apply Z.eqb_eq in Ez. contradiction. }
  apply Z.eqb_neq in Ez.
  unfold bind at 1, read. unfold catch, bind.
  destruct (unique_key_filter Team.id team_id (teams db) Hnd) as [F | (t & F)];
    rewrite F.
  - exists false. split; [reflexivity|]. split; [discriminate|].
    intros (x & t & H & _ & Hin & Hid & _). injection H as Hx.
    rewrite <- Hx in Hid.
    assert (Hf : In t (filter (fun t => Team.id t =? team_id) (teams db)))
      by (apply filter_In; split; [exact Hin | apply Z.eqb_eq, Hid]).
    rewrite F in Hf. destruct Hf.
  - destruct (filter_In_head _ _ _ _ F) as [Hin Hid]. apply Z.eqb_eq in Hid.
    exists (Team.created_by t =? User.id user). split; [reflexivity|].
    rewrite Z.eqb_eq. split.
    + intros Hc. exists team_id, t. repeat split; assumption.
    + intros (x & t0 & H & _ & Hin0 & Hid0 & Hc0). injection H as Hx.
      rewrite <- Hx in Hid0.
      assert (Hf : In t0 (filter (fun t => Team.id t =? team_id) (teams db)))
        by (apply filter_In; split; [exact Hin0 | apply Z.eqb_eq, Hid0]).
      rewrite F in Hf. destruct Hf as [<- | []]. exact Hc0.
Qed.

Lemma IsTeamCreatorForTask_fails_closed_witness :
  exists b,
    IsTeamCreatorForTask_has_permission alice create (Some 1) team_db
    = (Ok b, team_db)
    /\ b = false.
Proof.
  destruct (IsTeamCreatorForTask_fails_closed alice (Some 1) team_db)
    as (b & Hrun & Hb).
  - repeat constructor. simpl. tauto.
  - exists b. split; [exact Hrun|].
    destruct b; [|reflexivity]. exfalso.
    destruct (proj1 Hb eq_refl) as (k & t & Hk & _ & Hin & _ & Hc).
    destruct Hin as [<- | []]. discriminate Hc.
Defined.






Lemma filter_map_same_test {A} (f : A -> bool) (g : A -> A) l :
  (forall x, f (g x) = f x) -> filter f (map g l) = map g (filter f l).
Proof.
  intros H. induction l as [|x l IH]; simpl; [reflexivity|].
  rewrite H. destruct (f x); simpl; rewrite IH; reflexivity.
Qed.

Lemma only_row_with_key {A} (key : A -> Z) k l t r :
  filter (fun x => key x =? k) l = [t] -> In r l -> key r = k -> r = t.
Proof.
  intros F Hin Hk.
  assert (H : In r (filter (fun x => key x =? k) l))
    by (apply filter_In; split; [exact Hin | apply Z.eqb_eq, Hk]).
  rewrite F in H. destruct H as [<- | []]. reflexivity.
Qed.

Lemma TeamViewSet_get_object_creator a caller pk t db :
  existsb (action_eqb a) [update; partial_update; destroy] = true ->
  filter (fun t => Team.id t =? pk) (teams db) = [t] ->
  Team.created_by t = User.id caller ->
  TeamViewSet_get_object a (Some caller) caller pk db = (Ok t, db).
Proof.
  intros Ha F Hc. unfold TeamViewSet_get_object, TeamViewSet_get_queryset.
  unfold TeamViewSet_get_permissions. rewrite Ha.
  unfold bind at 1, read. unfold bind at 1. unfold newest_first.
  rewrite (filter_sorted_one _ _ _ t).
  - cbn [get_object_or_404 catch get ret forallb has_object_permission
         views_IsTeamCreator andb].
    unfold views_IsTeamCreator.
    apply Z.eqb_eq in Hc. rewrite Hc. reflexivity.
  - rewrite filter_filter_comm, F. simpl.
    apply Z.eqb_eq in Hc. rewrite Hc. reflexivity.
Qed.



Lemma returns_raise {A} (P : A -> Prop) e : returns P (raise e).
Proof. intros db a db' E. discriminate E. Qed.




(** A delete by the creator removes the row of that team and no other
    row. *)
Theorem TeamViewSet_destroy_removes_the_team :
  forall (caller : User.t) (pk : Z) (t : Team.t) (db : DB),
    filter (fun t => Team.id t =? pk) (teams db) = [t] ->
    Team.created_by t = User.id caller ->
    exists db',
      TeamViewSet_destroy (Some caller) pk db = (Ok tt, db')
      /\ (forall r, In r (teams db') <-> In r (teams db) /\ Team.id r <> pk)
      /\ users db' = users db /\ tasks db' = tasks db.
Proof.
  intros caller pk t db F Hc.
  destruct (filter_In_head _ _ _ _ F) as [_ Hid]. apply Z.eqb_eq in Hid.
  exists (with_teams (filter (fun r => negb (Team.id r =? pk))) db).
  split.
  - unfold TeamViewSet_destroy.
    unfold bind at 1. cbn [check_permissions TeamViewSet_get_permissions
      existsb action_eqb orb forallb has_permission andb ret].
    unfold bind at 1. rewrite authenticated_some.
    unfold bind at 1.
    rewrite (TeamViewSet_get_object_creator destroy _ _ _ _ eq_refl F Hc).
    rewrite Hid. reflexivity.
  - split; [|split; reflexivity].
    intros r. cbn [teams with_teams]. rewrite filter_In, negb_true_iff.
    rewrite Z.eqb_neq. reflexivity.
Qed.

Lemma TeamViewSet_destroy_witness :
  exists db', TeamViewSet_destroy (Some bob) 1 team_db = (Ok tt, db')
              /\ teams db' = [].
Proof.
  destruct (TeamViewSet_destroy_removes_the_team bob 1
              (Team.mk 1 "search" "" 2 [2; 1] 0) team_db eq_refl eq_refl)
    as (db' & Hrun & Hrows & _).
  exists db'. split; [exact Hrun|].
  destruct (teams db') as [|r l] eqn:E; [reflexivity|]. exfalso.
  destruct (proj1 (Hrows r) (or_introl eq_refl)) as [[<- | []] Hne].
  apply Hne. reflexivity.
Defined.

(* ================================================================== *)
(** * Todos                                                            *)
(* ================================================================== *)

Lemma filter_andb {A} (f g : A -> bool) l :
  filter (fun x => f x && g x) l = filter g (filter f l).
Proof.
  induction l as [|x l IH]; simpl; [reflexivity|].
  destruct (f x); simpl; [destruct (g x)|]; rewrite IH; reflexivity.
Qed.

Lemma TodoViewSet_list_open caller date db :
  exists l,
    TodoViewSet_list (Some caller) date db = (Ok l, db)
    /\ forall t, In t l -> In t (todos db) /\ Todo.is_done t = false.
Proof.
  unfold TodoViewSet_list. eexists. split; [reflexivity|].
  intros t Hin.
  apply (Permutation_in _ (Permutation_sym (sorted_perm _ _))) in Hin.
  destruct date as [d|]; apply filter_In in Hin; destruct Hin as [Hin Hf];
    rewrite !andb_true_iff, negb_true_iff in Hf; tauto.
Qed.

(** The todo list of a caller holds exactly the caller's own todos that
    are not done (of the given date, when one is given), ordered by
    date; reading it writes nothing. *)
Theorem TodoViewSet_list_own_open_todos :
  forall (caller : User.t) (date : option Z) (db : DB),
    exists l,
      TodoViewSet_list (Some caller) date db = (Ok l, db)
      /\ StronglySorted (key_le Todo.date) l
      /\ forall t,
           In t l <->
           In t (todos db)
           /\ Todo.created_by t = User.id caller
           /\ Todo.is_done t = false
           /\ (forall d, date = Some d -> Todo.date t = d).
Proof.
  intros caller date db. unfold TodoViewSet_list.
  eexists. split; [reflexivity|]. split; [apply sorted_sorted|].
  intros t. split.
  - intros Hin.
    apply (Permutation_in _ (Permutation_sym (sorted_perm _ _))) in Hin.
    destruct date as [d|]; apply filter_In in Hin; destruct Hin as [Hin Hf];
      rewrite !andb_true_iff, negb_true_iff, !Z.eqb_eq in Hf.
    + repeat split; try tauto. intros d' E. inversion E; subst. tauto.
    + repeat split; try tauto. discriminate.
  - intros (Hin & Hc & Hd & Hdate).
    apply (Permutation_in _ (sorted_perm _ _)).
    destruct date as [d|]; apply filter_In; split; try exact Hin;
      rewrite !andb_true_iff, negb_true_iff, !Z.eqb_eq.
    + repeat split; auto.
    + split; assumption.
Qed.

Lemma TodoSerializer_is_valid_accepted p title date db :
  tdp_title p = Given title -> accepted title ->
  Z.of_nat (String.length (strip title)) <= 255 ->
  tdp_date p = Given date -> tdp_is_done p <> Malformed ->
  exists is_done,
    TodoSerializer_is_valid p db
    = (Ok (mkTodoData (strip title) date is_done), db)
    /\ or_default is_done false = given_or (tdp_is_done p) false.
Proof.
  intros Et Ha Hlen Ed Hdone. unfold TodoSerializer_is_valid.
  rewrite Et, Ed.
  unfold bind at 1. rewrite (required_char_given _ _ _ Ha).
  apply Z.ltb_ge in Hlen. rewrite Hlen.
  destruct (tdp_is_done p) as [| |b]; [| contradiction |];
    eexists; split; reflexivity.
Qed.

Lemma TodoSerializer_is_valid_refused p db :
  ~ todo_accepted p ->
  exists detail,
    TodoSerializer_is_valid p db = (Raise (ValidationError detail), db).
Proof.
  intros Hno. unfold TodoSerializer_is_valid, bind.
  destruct (required_char_cases "title" (tdp_title p) db)
    as [(s & Et & Ha & ->) | [_ ->]]; [|eexists; reflexivity].
  cbv beta iota.
  destruct (255 <? Z.of_nat (String.length (strip s))) eqn:Elen;
    [eexists; reflexivity|].
  cbn [ret].
  destruct (tdp_date p) as [| |date] eqn:Ed; try (eexists; reflexivity).
  cbn [required ret].
  destruct (tdp_is_done p) as [| |done] eqn:Ei; try (eexists; reflexivity);
    exfalso; apply Hno; exists s, date; apply Z.ltb_ge in Elen;
    rewrite Ei; repeat split; try assumption; try apply Ha; discriminate.
Qed.

(** POST /todos/ is decided by the payload.  An accepted payload (a
    title that is not blank once trimmed and has at most 255
    characters, a date, a well-formed flag or none) is answered 201 and
    stored as one new todo under a fresh key: the trimmed title, the
    date, the flag of the payload or false, owned by the caller.  Every
    other payload is answered with a 400 response, not an exception,
    and writes nothing. *)
Theorem TodoViewSet_create_answers :
  forall (caller : User.t) (p : TodoPayload) (db : DB),
    (forall title date,
       tdp_title p = Given title -> accepted title ->
       Z.of_nat (String.length (strip title)) <= 255 ->
       tdp_date p = Given date -> tdp_is_done p <> Malformed ->
       let t := Todo.mk (next_id (map Todo.id (todos db))) (strip title) date
                        (given_or (tdp_is_done p) false) (User.id caller) in
       TodoViewSet_create (Some caller) p db
       = (Ok (mkResponse 201 (inl t)), with_todos (fun l => l ++ [t]) db)
       /\ ~ In (Todo.id t) (map Todo.id (todos db)))
    /\ (~ todo_accepted p ->
        exists errors,
          TodoViewSet_create (Some caller) p db
          = (Ok (mkResponse 400 (inr errors)), db)).
Proof.
  intros caller p db. split.
  - intros title date Et Ha Hlen Ed Hdone. cbv zeta.
    split; [|apply next_id_fresh].
    destruct (TodoSerializer_is_valid_accepted p title date db
                Et Ha Hlen Ed Hdone) as (is_done & Hv & Hflag).
    unfold TodoViewSet_create.
    unfold bind at 1. rewrite authenticated_some.
    unfold bind at 1. unfold catch. unfold bind at 1. rewrite Hv.
    unfold ret at 1. unfold bind at 1. unfold Todo_objects_create.
    cbn [tdv_title tdv_date tdv_is_done]. rewrite Hflag. reflexivity.
  - intros Hno.
    destruct (TodoSerializer_is_valid_refused p db Hno) as (d & Hd).
    exists d. unfold TodoViewSet_create.
    unfold bind at 1. rewrite authenticated_some.
    unfold bind at 1. unfold catch. unfold bind at 1. rewrite Hd.
    reflexivity.
Qed.

Lemma TodoViewSet_create_answers_witness :
  let p := mkTodoPayload (Given " buy milk ") (Given 7) Absent in
  let t := Todo.mk 4 "buy milk" 7 false 1 in
  TodoViewSet_create (Some alice) p todo_db
  = (Ok (mkResponse 201 (inl t)), with_todos (fun l => l ++ [t]) todo_db).
Proof.
  cbv zeta.
  refine (proj1 (proj1 (TodoViewSet_create_answers alice
            (mkTodoPayload (Given " buy milk ") (Given 7) Absent) todo_db)
            " buy milk " 7 eq_refl _ _ eq_refl _)).
  - split; [discriminate | reflexivity].
  - vm_compute. discriminate.
  - discriminate.
Defined.

(** Completing a todo that is missing or belongs to someone else
    answers 404 and writes nothing. *)
Theorem TodoViewSet_update_not_found :
  forall (caller : User.t) (pk : Z) (db : DB),
    (forall t, In t (todos db) -> Todo.id t = pk ->
               Todo.created_by t <> User.id caller) ->
    TodoViewSet_update (Some caller) pk db
      = (Ok (mkResponse 404 "Todo not found"), db).
Proof.
  intros caller pk db Hno. unfold TodoViewSet_update.
  unfold bind at 1. rewrite authenticated_some.
  unfold bind at 1, read. unfold bind at 1. unfold catch, bind.
  replace (filter _ (todos db)) with (@nil Todo.t); [reflexivity|].
  symmetry. apply existsb_false_filter, not_true_is_false. intros Hex.
  apply existsb_exists in Hex. destruct Hex as (t & Hin & Hf).
  rewrite andb_true_iff, !Z.eqb_eq in Hf. destruct Hf as [Hid Hc].
  exact (Hno t Hin Hid Hc).
Qed.

Lemma TodoViewSet_update_not_found_witness :
  TodoViewSet_update (Some alice) 3 todo_db
  = (Ok (mkResponse 404 "Todo not found"), todo_db).
Proof.
  apply (TodoViewSet_update_not_found alice 3 todo_db).
  intros t [<- | [<- | [<- | []]]] Hid; discriminate.
Defined.

Lemma TodoViewSet_update_spec caller pk t db :
  filter (fun t => Todo.id t =? pk) (todos db) = [t] ->
  Todo.created_by t = User.id caller ->
  TodoViewSet_update (Some caller) pk db
  = (Ok (mkResponse 200 "completed"),
     with_todos (map (fun r => if Todo.id r =? pk then set_is_done true t
                               else r)) db).
Proof.
  intros F Hc.
  destruct (filter_In_head _ _ _ _ F) as [Hin Hid]. apply Z.eqb_eq in Hid.
  unfold TodoViewSet_update.
  unfold bind at 1. rewrite authenticated_some.
  unfold bind at 1, read. unfold bind at 1. unfold catch, bind at 1.
  rewrite filter_andb, F. cbn [filter].
  apply Z.eqb_eq in Hc. rewrite Hc. cbn [get ret].
  unfold bind, Todo_save, modify, ret. cbn [Todo.id set_is_done].
  assert (Hex : existsb (fun r => Todo.id r =? Todo.id t) (todos db) = true).
  { apply existsb_exists. exists t. split; [exact Hin | apply Z.eqb_refl]. }
  unfold with_todos. rewrite Hex, Hid. reflexivity.
Qed.

(** Completing a todo takes it off the caller's list, whatever the date
    filter, and completing it again changes nothing more. *)
Theorem TodoViewSet_update_completes :
  forall (caller : User.t) (pk : Z) (t : Todo.t) (date : option Z) (db : DB),
    filter (fun t => Todo.id t =? pk) (todos db) = [t] ->
    Todo.created_by t = User.id caller ->
    exists db' l,
      TodoViewSet_update (Some caller) pk db
        = (Ok (mkResponse 200 "completed"), db')
      /\ TodoViewSet_list (Some caller) date db' = (Ok l, db')
      /\ (forall r, In r l -> Todo.id r <> pk)
      /\ (forall r, In r (todos db) -> Todo.id r <> pk -> In r (todos db'))
      /\ TodoViewSet_update (Some caller) pk db'
         = (Ok (mkResponse 200 "completed"), db').
Proof.
  intros caller pk t date db F Hc.
  destruct (filter_In_head _ _ _ _ F) as [Hin Hid]. apply Z.eqb_eq in Hid.
  set (g := fun r => if Todo.id r =? pk then set_is_done true t else r).
  assert (Hg : forall r, Todo.id (g r) = Todo.id r).
  { intros r. unfold g. destruct (Todo.id r =? pk) eqn:E; [|reflexivity].
    apply Z.eqb_eq in E. cbn. congruence. }
  assert (F' : filter (fun t => Todo.id t =? pk) (map g (todos db))
               = [set_is_done true t]).
  { rewrite filter_map_same_test by (intros r; rewrite Hg; reflexivity).
    rewrite F. cbn [map]. unfold g. rewrite Hid, Z.eqb_refl. reflexivity. }
  destruct (TodoViewSet_list_open caller date (with_todos (map g) db))
    as (l & Hlist & Hl).
  exists (with_todos (map g) db), l.
  split; [apply TodoViewSet_update_spec; assumption|].
  split; [exact Hlist|]. split; [|split].
  - intros r Hr Hpk. apply Hl in Hr. destruct Hr as (Hr & Hdone).
    cbn [todos with_todos] in Hr.
    rewrite (only_row_with_key Todo.id pk _ _ r F' Hr Hpk) in Hdone.
    discriminate Hdone.
  - intros r Hr Hne. cbn [todos with_todos]. apply in_map_iff.
    exists r. split; [|exact Hr]. unfold g.
    apply Z.eqb_neq in Hne. rewrite Hne. reflexivity.
  - rewrite (TodoViewSet_update_spec caller pk (set_is_done true t)
               (with_todos (map g) db) F' Hc).
    f_equal. unfold with_todos. cbn [todos users teams tasks conversations
      messages]. f_equal. rewrite map_map. apply map_ext. intros r.
    unfold g. destruct (Todo.id r =? pk) eqn:E.
    + cbn [Todo.id set_is_done]. rewrite Hid, Z.eqb_refl. reflexivity.
    + rewrite E. reflexivity.
Qed.

Lemma TodoViewSet_update_completes_witness :
  exists db' l,
    TodoViewSet_update (Some alice) 2 todo_db
      = (Ok (mkResponse 200 "completed"), db')
    /\ TodoViewSet_list (Some alice) None db' = (Ok l, db')
    /\ forall r, In r l -> Todo.id r <> 2.
Proof.
  destruct (TodoViewSet_update_completes alice 2
              (Todo.mk 2 "file taxes" 10 false 1) None todo_db
              eq_refl eq_refl)
    as (db' & l & Hrun & Hlist & Hgone & _).
  exists db', l. repeat split; assumption.
Defined.

(* ================================================================== *)
(** * Tasks: what is created, and how deep the nesting goes            *)
(* ================================================================== *)

Lemma no_task_with_fresh_key (rows : list Task.t) :
  existsb (fun t => Task.id t =? next_id (map Task.id rows)) rows = false.
Proof.
  apply not_true_is_false. intros Hex. apply existsb_exists in Hex.
  destruct Hex as (t & Hin & E). apply Z.eqb_eq in E.
  apply (next_id_fresh (map Task.id rows)). rewrite <- E. apply in_map, Hin.
Qed.

Lemma create_subtask_spec now parent user sub db :
  sd_id sub = None ->
  create_subtask now parent user sub db
  = (Ok tt,
     with_tasks (fun l => l ++ [subtask_row now parent user sub
                                  (next_id (map Task.id l))]) db).
Proof.
  intros Hid. unfold create_subtask, bind, Task_objects_create.
  rewrite Hid. cbn [or_default]. rewrite no_task_with_fresh_key.
  reflexivity.
Qed.

Lemma for_each_create_spec now parent user subs : forall db,
  Forall (fun sub => sd_id sub = None) subs ->
  for_each subs (create_subtask now parent user) db
  = (Ok tt, with_tasks (append_subtasks now parent user subs) db).
Proof.
  induction subs as [|sub subs IH]; intros db Hsubs.
  - destruct db; reflexivity.
  - inversion Hsubs as [|? ? Hsub Hrest]; subst.
    cbn [for_each]. unfold bind.
    rewrite (create_subtask_spec _ _ _ _ _ Hsub).
    rewrite (IH _ Hrest). reflexivity.
Qed.

Lemma for_each_update_is_create now instance user subs :
  Forall (fun sub => sd_id sub = None) subs ->
  for_each subs (update_subtask now instance user)
  = for_each subs (create_subtask now (Task.id instance) user).
Proof.
  induction 1 as [|sub subs Hsub _ IH]; [reflexivity|].
  cbn [for_each]. rewrite IH, (update_subtask_without_id _ _ _ _ Hsub).
  reflexivity.
Qed.

(** The rows the loop appends. *)
Lemma append_subtasks_rows now parent user subs : forall rows,
  exists news,
    append_subtasks now parent user subs rows = rows ++ news
    /\ List.length news = List.length subs
    /\ map Task.title news = map sd_title subs
    /\ Forall (fun r => Task.parent_task r = Some parent
                        /\ Task.created_by r = User.id user) news.
Proof.
  induction subs as [|sub subs IH]; intros rows.
  - exists []. rewrite app_nil_r. repeat split. constructor.
  - cbn [append_subtasks].
    destruct (IH (rows ++ [subtask_row now parent user sub
                             (next_id (map Task.id rows))]))
      as (news & Happ & Hlen & Htitles & Hall).
    exists (subtask_row now parent user sub (next_id (map Task.id rows))
            :: news).
    rewrite Happ, <- app_assoc. cbn. rewrite Hlen, Htitles.
    repeat split. constructor; [split; reflexivity | exact Hall].
Qed.

Lemma TaskViewSet_create_spec now caller p v db :
  TaskSerializer_is_valid p db = (Ok v, db) ->
  let main := main_task_row now caller v (next_id (map Task.id (tasks db))) in
  TaskViewSet_create now (Some caller) p db
  = (Ok main,
     with_tasks (fun l => append_subtasks now (Task.id main) caller
                            (or_default (vd_subtasks_data v) [])
                            (l ++ [main])) db).
Proof.
  intros Hv. cbv zeta.
  pose proof (TaskSerializer_is_valid_without_id p db v db Hv) as Hsubs.
  unfold without_id in Hsubs.
  unfold TaskViewSet_create.
  unfold bind at 1. rewrite authenticated_some.
  unfold bind at 1. rewrite Hv.
  unfold TaskSerializer_create.
  unfold bind at 1. unfold Task_objects_create at 1.
  cbn [or_default]. rewrite no_task_with_fresh_key.
  unfold bind. rewrite (for_each_create_spec _ _ _ _ _ Hsubs).
  reflexivity.
Qed.



Lemma TaskViewSet_add_subtask_spec now caller pk p parent v db :
  filter (fun t => (Task.id t =? pk)
                   && (Task.created_by t =? User.id caller)
                   && negb (Task.is_subtask t))
         (tasks db) = [parent] ->
  SubtaskCreateSerializer_is_valid p db = (Ok v, db) ->
  TaskViewSet_add_subtask now (Some caller) pk p db
  = (Ok "Subtask created successfully",
     with_tasks (fun l => l ++ [subtask_row now pk caller v
                                  (next_id (map Task.id l))]) db).
Proof.
  intros F Hv.
  destruct (filter_In_head _ _ _ _ F) as [_ Hf].
  rewrite !andb_true_iff, Z.eqb_eq in Hf. destruct Hf as [[Hid _] _].
  unfold TaskViewSet_add_subtask.
  unfold bind at 1. rewrite authenticated_some.
  unfold bind at 1, read. unfold bind at 1. rewrite F.
  cbn [get_object_or_404 catch get ret].
  unfold bind at 1. rewrite Hv.
  unfold bind.
  rewrite (create_subtask_spec _ _ _ _ _
             (SubtaskCreateSerializer_drops_id p db v db Hv)).
  rewrite Hid. reflexivity.
Qed.

(** [add_subtask] on a top-level task of the caller, with an accepted
    payload, appends one row: a subtask of that task, owned by the
    caller, which the task then shows among its subtasks. *)
Theorem TaskViewSet_add_subtask_attaches :
  forall (now : Z) (caller : User.t) (pk : Z) (p : SubtaskPayload)
         (parent : Task.t) (v : SubtaskData) (db : DB),
    filter (fun t => (Task.id t =? pk)
                     && (Task.created_by t =? User.id caller)
                     && negb (Task.is_subtask t))
           (tasks db) = [parent] ->
    SubtaskCreateSerializer_is_valid p db = (Ok v, db) ->
    exists row db',
      TaskViewSet_add_subtask now (Some caller) pk p db
        = (Ok "Subtask created successfully", db')
      /\ tasks db' = tasks db ++ [row]
      /\ Task.parent_task row = Some pk
      /\ Task.created_by row = User.id caller
      /\ Task.title row = sd_title v
      /\ ~ In (Task.id row) (map Task.id (tasks db))
      /\ In row (subtasks_of parent db').
Proof.
  intros now caller pk p parent v db F Hv.
  destruct (filter_In_head _ _ _ _ F) as [_ Hf].
  rewrite !andb_true_iff, Z.eqb_eq in Hf. destruct Hf as [[Hid _] _].
  eexists. eexists.
  split; [apply (TaskViewSet_add_subtask_spec _ _ _ _ _ _ _ F Hv)|].
  cbn [tasks with_tasks].
  split; [reflexivity|]. split; [reflexivity|]. split; [reflexivity|].
  split; [reflexivity|]. split; [apply next_id_fresh|].
  unfold subtasks_of, newest_first.
  apply (Permutation_in _ (sorted_perm _ _)).
  apply filter_In. split.
  - cbn. apply in_or_app. right. left. reflexivity.
  - cbn. rewrite Hid. apply Z.eqb_refl.
Qed.

Lemma TaskViewSet_add_subtask_attaches_witness :
  exists row db',
    TaskViewSet_add_subtask 30 (Some alice) 1 (subtask_payload Absent "notes")
                            task_db
    = (Ok "Subtask created successfully", db')
    /\ tasks db' = tasks task_db ++ [row]
    /\ Task.parent_task row = Some 1.
Proof.
  destruct (TaskViewSet_add_subtask_attaches 30 alice 1
              (subtask_payload Absent "notes")
              (Task.mk 1 "release" "" 1 None 10 20 "MEDIUM" "PENDING" 0 0)
              (mkSubtaskData None "notes" None 11 12 "HIGH" "PENDING")
              task_db eq_refl eq_refl)
    as (row & db' & Hrun & Hrows & Hparent & _).
  exists row, db'. repeat split; assumption.
Defined.

Lemma key_identifies {A} (key : A -> Z) (rows : list A) a b :
  NoDup (map key rows) -> In a rows -> In b rows -> key a = key b -> a = b.
Proof.
  induction rows as [|x rows IH]; simpl; intros Hnd Ha Hb Hk; [tauto|].
  inversion Hnd as [|? ? Hnotin Hnd']; subst.
  destruct Ha as [->|Ha], Hb as [->|Hb]; try reflexivity.
  - exfalso. apply Hnotin. rewrite Hk. apply in_map, Hb.
  - exfalso. apply Hnotin. rewrite <- Hk. apply in_map, Ha.
  - apply IH; assumption.
Qed.

Lemma well_formed_add_top rows r :
  NoDup (map Task.id rows) /\ nested_once rows ->
  Task.id r = next_id (map Task.id rows) ->
  Task.parent_task r = None ->
  NoDup (map Task.id (rows ++ [r])) /\ nested_once (rows ++ [r]).
Proof.
  intros [Hnd Hnest] Hid Htop. split.
  - rewrite map_app. apply NoDup_snoc; [exact Hnd|].
    simpl. rewrite Hid. apply next_id_fresh.
  - intros t p Hin Hp. apply in_app_or in Hin.
    destruct Hin as [Hin | [<- | []]]; [|congruence].
    destruct (Hnest t p Hin Hp) as [(q & Hq & Hqid) Hall]. split.
    + exists q. split; [apply in_or_app; left; exact Hq | exact Hqid].
    + intros q' Hq' Hid'. apply in_app_or in Hq'.
      destruct Hq' as [Hq' | [<- | []]]; [apply Hall; assumption | exact Htop].
Qed.

Lemma well_formed_add_child rows r m :
  NoDup (map Task.id rows) /\ nested_once rows ->
  Task.id r = next_id (map Task.id rows) ->
  Task.parent_task r = Some m ->
  (exists q, In q rows /\ Task.id q = m /\ Task.parent_task q = None) ->
  NoDup (map Task.id (rows ++ [r])) /\ nested_once (rows ++ [r]).
Proof.
  intros [Hnd Hnest] Hid Hparent (q0 & Hq0 & Hq0id & Hq0top).
  assert (Hfresh : forall q, In q rows -> Task.id q <> Task.id r).
  { intros q Hq E. apply (next_id_fresh (map Task.id rows)).
    rewrite <- Hid, <- E. apply in_map, Hq. }
  split.
  - rewrite map_app. apply NoDup_snoc; [exact Hnd|].
    simpl. rewrite Hid. apply next_id_fresh.
  - intros t p Hin Hp. apply in_app_or in Hin.
    destruct Hin as [Hin | [<- | []]].
    + destruct (Hnest t p Hin Hp) as [(q & Hq & Hqid) Hall]. split.
      * exists q. split; [apply in_or_app; left; exact Hq | exact Hqid].
      * intros q' Hq' Hid'. apply in_app_or in Hq'.
        destruct Hq' as [Hq' | [<- | []]]; [apply Hall; assumption|].
        exfalso. apply (Hfresh q Hq). congruence.
    + rewrite Hparent in Hp. inversion Hp; subst p. split.
      * exists q0. split; [apply in_or_app; left; exact Hq0 | exact Hq0id].
      * intros q' Hq' Hid'. apply in_app_or in Hq'.
        destruct Hq' as [Hq' | [<- | []]].
        -- rewrite (key_identifies Task.id rows q' q0 Hnd Hq' Hq0);
             [exact Hq0top | congruence].
        -- exfalso. apply (Hfresh q0 Hq0). congruence.
Qed.

Lemma well_formed_append_subtasks now m user subs : forall rows,
  NoDup (map Task.id rows) /\ nested_once rows ->
  (exists q, In q rows /\ Task.id q = m /\ Task.parent_task q = None) ->
  NoDup (map Task.id (append_subtasks now m user subs rows))
  /\ nested_once (append_subtasks now m user subs rows).
Proof.
  induction subs as [|sub subs IH]; intros rows Hwf Hq; [exact Hwf|].
  cbn [append_subtasks]. apply IH.
  - apply (well_formed_add_child rows _ m); try assumption; reflexivity.
  - destruct Hq as (q & Hin & Hrest). exists q.
    split; [apply in_or_app; left; exact Hin | exact Hrest].
Qed.

Lemma TaskViewSet_create_cases now user p db :
  (exists e, TaskViewSet_create now user p db = (Raise e, db))
  \/ exists caller v,
       user = Some caller /\ TaskSerializer_is_valid p db = (Ok v, db).
Proof.
  destruct user as [caller|]; [|left; eexists; reflexivity].
  destruct (validation_TaskSerializer_is_valid p db) as [(v & Hv) | (d & Hd)].
  - right. exists caller, v. split; [reflexivity | exact Hv].
  - left. exists (ValidationError d). unfold TaskViewSet_create.
    unfold bind at 1. rewrite authenticated_some.
    unfold bind at 1. rewrite Hd. reflexivity.
Qed.

Lemma TaskViewSet_add_subtask_cases now user pk p db :
  (exists e, TaskViewSet_add_subtask now user pk p db = (Raise e, db))
  \/ exists caller parent v,
       user = Some caller
       /\ filter (fun t => (Task.id t =? pk)
                           && (Task.created_by t =? User.id caller)
                           && negb (Task.is_subtask t))
                 (tasks db) = [parent]
       /\ SubtaskCreateSerializer_is_valid p db = (Ok v, db).
Proof.
  destruct user as [caller|]; [|left; eexists; reflexivity].
  destruct (filter (fun t => (Task.id t =? pk)
                             && (Task.created_by t =? User.id caller)
                             && negb (Task.is_subtask t)) (tasks db))
    as [|parent [|x l]] eqn:F.
  - left. eexists. unfold TaskViewSet_add_subtask.
    unfold bind at 1. rewrite authenticated_some.
    unfold bind at 1, read. unfold bind at 1. rewrite F. reflexivity.
  - destruct (validation_subtask p db) as [(v & Hv) | (d & Hd)].
    + right. exists caller, parent, v. repeat split; assumption.
    + left. exists (ValidationError d). unfold TaskViewSet_add_subtask.
      unfold bind at 1. rewrite authenticated_some.
      unfold bind at 1, read. unfold bind at 1. rewrite F.
      cbn [get_object_or_404 catch get ret].
      unfold bind at 1. rewrite Hd. reflexivity.
  - left. eexists. unfold TaskViewSet_add_subtask.
    unfold bind at 1. rewrite authenticated_some.
    unfold bind at 1, read. unfold bind at 1. rewrite F. reflexivity.
Qed.

(** Creating tasks and adding subtasks keep the nesting one level deep:
    if primary keys are distinct and every subtask's parent exists and
    is top-level, the same holds after any create-task request and any
    add-subtask request. *)
Theorem create_and_add_subtask_keep_nesting :
  forall (now : Z) (user : option User.t) (db : DB),
    tasks_well_formed db ->
    (forall p, tasks_well_formed (snd (TaskViewSet_create now user p db)))
    /\ (forall pk p,
          tasks_well_formed (snd (TaskViewSet_add_subtask now user pk p db))).
Proof.
  intros now user db Hwf. split.
  - intros p.
    destruct (TaskViewSet_create_cases now user p db)
      as [(e & ->) | (caller & v & -> & Hv)]; [exact Hwf|].
    rewrite (TaskViewSet_create_spec now caller p v db Hv).
    unfold tasks_well_formed. cbn [snd tasks with_tasks].
    apply well_formed_append_subtasks.
    + apply well_formed_add_top; [exact Hwf | reflexivity | reflexivity].
    + eexists. split; [apply in_or_app; right; left; reflexivity|].
      split; reflexivity.
  - intros pk p.
    destruct (TaskViewSet_add_subtask_cases now user pk p db)
      as [(e & ->) | (caller & parent & v & -> & F & Hv)]; [exact Hwf|].
    rewrite (TaskViewSet_add_subtask_spec _ _ _ _ _ _ _ F Hv).
    unfold tasks_well_formed. cbn [snd tasks with_tasks].
    destruct (filter_In_head _ _ _ _ F) as [Hin Hf].
    rewrite !andb_true_iff, Z.eqb_eq, negb_true_iff in Hf.
    destruct Hf as [[Hid _] Htop].
    apply (well_formed_add_child _ _ pk); [exact Hwf | reflexivity
                                          | reflexivity|].
    exists parent. repeat split; try assumption.
    unfold Task.is_subtask in Htop.
    destruct (Task.parent_task parent); [discriminate | reflexivity].
Qed.

Lemma create_and_add_subtask_keep_nesting_witness :
  tasks_well_formed
    (snd (TaskViewSet_add_subtask 30 (Some alice) 1
            (subtask_payload Absent "notes") task_db)).
Proof.
  refine (proj2 (create_and_add_subtask_keep_nesting 30 (Some alice) task_db _)
                1 (subtask_payload Absent "notes")).
  split.
  - repeat constructor; simpl; intuition discriminate.
  - intros t p [<- | [<- | []]] Hp; [discriminate Hp|].
    inversion Hp; subst p. split.
    + eexists. split; [left; reflexivity | reflexivity].
    + intros q [<- | [<- | []]] Hq; [reflexivity | discriminate Hq].
Defined.

Lemma TaskViewSet_get_object_found caller pk s db :
  filter (fun t => (Task.id t =? pk) && (Task.created_by t =? User.id caller))
         (tasks db) = [s] ->
  TaskViewSet_get_object caller pk db = (Ok s, db).
Proof.
  intros F. unfold TaskViewSet_get_object, bind, read. rewrite F.
  reflexivity.
Qed.

Lemma TaskViewSet_update_spec now caller pk p s v db :
  filter (fun t => (Task.id t =? pk) && (Task.created_by t =? User.id caller))
         (tasks db) = [s] ->
  TaskSerializer_is_valid p db = (Ok v, db) ->
  TaskViewSet_update now (Some caller) pk p db
  = (Ok (saved_task now s v),
     with_tasks
       (fun l => append_subtasks now pk caller
                   (or_default (vd_subtasks_data v) [])
                   (map (fun r => if Task.id r =? pk then saved_task now s v
                                  else r) l)) db).
Proof.
  intros F Hv.
  destruct (filter_In_head _ _ _ _ F) as [Hin Hf].
  rewrite andb_true_iff, Z.eqb_eq in Hf. destruct Hf as [Hid _].
  pose proof (TaskSerializer_is_valid_without_id p db v db Hv) as Hsubs.
  unfold without_id in Hsubs.
  unfold TaskViewSet_update.
  unfold bind at 1. rewrite authenticated_some.
  unfold bind at 1. rewrite (TaskViewSet_get_object_found _ _ _ _ F).
  unfold bind at 1. rewrite Hv.
  subst pk. clear F.
  unfold TaskSerializer_update.
  assert (Hsave :
    Task_save now (set_task_fields s v) db
    = (Ok (saved_task now s v),
       with_tasks (map (fun r => if Task.id r =? Task.id s
                                 then saved_task now s v else r)) db)).
  { unfold Task_save, bind, modify, ret, with_tasks.
    cbn [set_task_fields Task.id].
    assert (Hex : existsb (fun r => Task.id r =? Task.id s) (tasks db) = true).
    { apply existsb_exists. exists s. split; [exact Hin | apply Z.eqb_refl]. }
    rewrite Hex. reflexivity. }
  unfold bind at 1. rewrite Hsave.
  rewrite (for_each_update_is_create _ _ _ _ Hsubs).
  unfold bind. rewrite (for_each_create_spec _ _ _ _ _ Hsubs).
  reflexivity.
Qed.

(** The update path does not keep the nesting one level deep.
    [get_object] accepts any task of the caller, a subtask too, so a PUT
    on a subtask with at least one subtask entry stores a subtask of
    that subtask. *)
Theorem TaskViewSet_update_nests_under_a_subtask :
  forall (now : Z) (caller : User.t) (pk q : Z) (p : TaskPayload)
         (s : Task.t) (v : TaskData) (sub : SubtaskData)
         (subs : list SubtaskData) (db : DB),
    filter (fun t => (Task.id t =? pk)
                     && (Task.created_by t =? User.id caller))
           (tasks db) = [s] ->
    Task.parent_task s = Some q ->
    TaskSerializer_is_valid p db = (Ok v, db) ->
    vd_subtasks_data v = Some (sub :: subs) ->
    exists t db' child parent,
      TaskViewSet_update now (Some caller) pk p db = (Ok t, db')
      /\ In child (tasks db')
      /\ In parent (tasks db')
      /\ Task.parent_task child = Some (Task.id parent)
      /\ Task.parent_task parent = Some q
      /\ ~ nested_once (tasks db').
Proof.
  intros now caller pk q p s v sub subs db F Hq Hv Hsubs.
  destruct (filter_In_head _ _ _ _ F) as [Hin Hf].
  rewrite andb_true_iff, Z.eqb_eq in Hf. destruct Hf as [Hid _].
  pose proof (TaskViewSet_update_spec now caller pk p s v db F Hv) as Hrun.
  rewrite Hsubs in Hrun. cbn [or_default] in Hrun.
  set (rows := map (fun r => if Task.id r =? pk then saved_task now s v else r)
                   (tasks db)) in *.
  destruct (append_subtasks_rows now pk caller (sub :: subs) rows)
    as (news & Happ & Hlen & _ & Hall).
  destruct news as [|child news]; [discriminate Hlen|].
  destruct (Forall_inv Hall) as [Hchild _].
  assert (Hparent : In (saved_task now s v) rows).
  { unfold rows. apply in_map_iff. exists s. split; [|exact Hin].
    rewrite Hid, Z.eqb_refl. reflexivity. }
  assert (Hpid : Task.id (saved_task now s v) = pk) by exact Hid.
  assert (Hpq : Task.parent_task (saved_task now s v) = Some q) by exact Hq.
  assert (Hc : In child (rows ++ child :: news))
    by (apply in_or_app; right; left; reflexivity).
  assert (Hp : In (saved_task now s v) (rows ++ child :: news))
    by (apply in_or_app; left; exact Hparent).
  subst rows.
  eexists. eexists. exists child, (saved_task now s v).
  split; [exact Hrun|]. cbn [tasks with_tasks]. rewrite Happ.
  split; [exact Hc|]. split; [exact Hp|].
  split; [rewrite Hpid; exact Hchild|]. split; [exact Hpq|].
  intros Hnest.
  destruct (Hnest child pk Hc Hchild) as [_ Htop].
  specialize (Htop _ Hp Hpid). congruence.
Qed.

Lemma TaskViewSet_update_nests_witness :
  exists t db' child parent,
    TaskViewSet_update 30 (Some alice) 2
      (mkTaskPayload (Given "changelog") Absent (Given 10) (Given 12)
                     Absent Absent (Given [subtask_payload Absent "deep"]))
      task_db
    = (Ok t, db')
    /\ In child (tasks db') /\ In parent (tasks db')
    /\ Task.parent_task child = Some (Task.id parent)
    /\ Task.parent_task parent = Some 1.
Proof.
  destruct (TaskViewSet_update_nests_under_a_subtask 30 alice 2 1
              (mkTaskPayload (Given "changelog") Absent (Given 10) (Given 12)
                             Absent Absent
                             (Given [subtask_payload Absent "deep"]))
              (Task.mk 2 "changelog" "" 1 (Some 1) 10 12 "LOW" "PENDING" 0 0)
              (mkTaskData "changelog" None 10 12 None None
                 (Some [mkSubtaskData None "deep" None 11 12 "HIGH" "PENDING"]))
              (mkSubtaskData None "deep" None 11 12 "HIGH" "PENDING") []
              task_db eq_refl eq_refl eq_refl eq_refl)
    as (t & db' & child & parent & Hrun & Hc & Hp & Hcp & Hpq & _).
  exists t, db', child, parent. repeat split; assumption.
Defined.

(** PUT /tasks/<pk>/ changes no row but that of task [pk]: every other
    task, the subtasks of [pk] included, is in the table afterwards
    exactly as it was, whatever the payload carries. *)
Theorem TaskViewSet_update_touches_only_its_task :
  forall (now : Z) (user : option User.t) (pk : Z) (p : TaskPayload)
         (t : Task.t) (db : DB),
    In t (tasks db) ->
    Task.id t <> pk ->
    In t (tasks (snd (TaskViewSet_update now user pk p db))).
Proof.
  intros now user pk p t db Hin Hne.
  exact (TaskViewSet_update_keeps_other_tasks now user pk p db t Hin Hne).
Qed.

Lemma TaskViewSet_update_touches_only_witness :
  In (Task.mk 2 "changelog" "" 1 (Some 1) 10 12 "LOW" "PENDING" 0 0)
     (tasks (snd (TaskViewSet_update 30 (Some alice) 1
                    (mkTaskPayload (Given "release 2") Absent (Given 10)
                                   (Given 20) Absent Absent
                                   (Given [subtask_payload (Given 2) "x"]))
                    task_db))).
Proof.
  apply (TaskViewSet_update_touches_only_its_task 30 (Some alice) 1 _
           (Task.mk 2 "changelog" "" 1 (Some 1) 10 12 "LOW" "PENDING" 0 0)
           task_db).
  - right. left. reflexivity.
  - discriminate.
Defined.

(** The task list holds exactly the caller's top-level tasks, and each
    comes with exactly the rows whose parent it is. *)
Theorem TaskViewSet_list_top_level_with_subtasks :
  forall (caller : User.t) (db : DB),
    exists l,
      TaskViewSet_list (Some caller) db = (Ok l, db)
      /\ (forall t, In t (map fst l) <->
                    In t (tasks db)
                    /\ Task.created_by t = User.id caller
                    /\ Task.parent_task t = None)
      /\ (forall t subs, In (t, subs) l ->
            forall s, In s subs <->
                      In s (tasks db) /\ Task.parent_task s = Some (Task.id t)).
Proof.
  intros caller db. unfold TaskViewSet_list.
  eexists. split; [reflexivity|]. split.
  - intros t. rewrite map_map. cbn [fst]. rewrite map_id.
    unfold TaskViewSet_get_queryset, newest_first. split.
    + intros Hin.
      apply (Permutation_in _ (Permutation_sym (sorted_perm _ _))) in Hin.
      apply filter_In in Hin. destruct Hin as [Hin Hf].
      rewrite andb_true_iff, Z.eqb_eq, negb_true_iff in Hf.
      unfold Task.is_subtask in Hf.
      destruct (Task.parent_task t); [destruct Hf; discriminate | tauto].
    + intros (Hin & Hc & Htop).
      apply (Permutation_in _ (sorted_perm _ _)).
      apply filter_In. split; [exact Hin|].
      rewrite andb_true_iff, Z.eqb_eq, negb_true_iff.
      unfold Task.is_subtask. rewrite Htop. tauto.
  - intros t subs Hin s. apply in_map_iff in Hin.
    destruct Hin as (t' & E & _). inversion E; subst t' subs.
    unfold subtasks_of, newest_first. split.
    + intros Hs.
      apply (Permutation_in _ (Permutation_sym (sorted_perm _ _))) in Hs.
      apply filter_In in Hs. destruct Hs as [Hs Hf].
      destruct (Task.parent_task s) as [x|]; [|discriminate].
      apply Z.eqb_eq in Hf. subst x. tauto.
    + intros [Hs Hp].
      apply (Permutation_in _ (sorted_perm _ _)).
      apply filter_In. split; [exact Hs|]. rewrite Hp. apply Z.eqb_refl.
Qed.

(* ================================================================== *)
(** * Tasks: delete                                                    *)
(* ================================================================== *)

Lemma existsb_eqb_In x l : existsb (Z.eqb x) l = true <-> In x l.
Proof.
  rewrite existsb_exists. split.
  - intros (y & Hy & E). apply Z.eqb_eq in E. subst y. exact Hy.
  - intros H. exists x. split; [exact H | apply Z.eqb_refl].
Qed.

Lemma cascade_mono rows : forall n ids x,
  In x ids -> In x (cascade n ids rows).
Proof.
  induction n as [|n IH]; intros ids x Hx; [exact Hx|].
  cbn [cascade]. apply IH, in_or_app. left. exact Hx.
Qed.

Lemma cascade_children rows pk r : forall n ids,
  In pk ids -> In r rows -> Task.parent_task r = Some pk ->
  In (Task.id r) (cascade (S n) ids rows).
Proof.
  intros n ids Hpk Hr Hp. cbn [cascade]. apply cascade_mono, in_or_app.
  right. apply in_map, filter_In. split; [exact Hr|].
  unfold has_parent_in. rewrite Hp. apply existsb_eqb_In, Hpk.
Qed.

Lemma cascade_sound rows pk :
  nested_once rows ->
  forall n ids,
    (forall x, In x ids ->
               x = pk \/ exists r, In r rows /\ Task.id r = x
                                   /\ Task.parent_task r = Some pk) ->
    forall x, In x (cascade n ids rows) ->
              x = pk \/ exists r, In r rows /\ Task.id r = x
                                  /\ Task.parent_task r = Some pk.
Proof.
  intros Hnest. induction n as [|n IH]; intros ids Hids x Hx;
    [apply Hids, Hx|].
  cbn [cascade] in Hx. apply (IH _) in Hx; [exact Hx|].
  clear x Hx. intros x Hx. apply in_app_or in Hx.
  destruct Hx as [Hx | Hx]; [apply Hids, Hx|].
  apply in_map_iff in Hx. destruct Hx as (r & Hid & Hr).
  apply filter_In in Hr. destruct Hr as [Hr Hp].
  unfold has_parent_in in Hp.
  destruct (Task.parent_task r) as [p|] eqn:Ep; [|discriminate].
  apply existsb_eqb_In in Hp.
  destruct (Hids p Hp) as [-> | (c & Hc & Hcid & Hcp)].
  - right. exists r. repeat split; assumption.
  - exfalso. destruct (Hnest r p Hr Ep) as [_ Htop].
    specialize (Htop c Hc Hcid). congruence.
Qed.

Lemma NoDup_map_filter {A B} (f : A -> B) (g : A -> bool) l :
  NoDup (map f l) -> NoDup (map f (filter g l)).
Proof.
  induction l as [|x l IH]; simpl; intros Hnd; [constructor|].
  inversion Hnd as [|? ? Hx Hl]; subst.
  destruct (g x); simpl; [|apply IH, Hl].
  constructor; [|apply IH, Hl].
  intros Hin. apply Hx. apply in_map_iff in Hin.
  destruct Hin as (y & Hy & Hyin). apply filter_In in Hyin.
  rewrite <- Hy. apply in_map. tauto.
Qed.

(** Deleting an own task removes it together with its subtasks, and
    nothing else, when nesting is one level deep; the table stays well
    formed, so no subtask is left without its parent. *)
Theorem TaskViewSet_destroy_removes_task_and_subtasks :
  forall (caller : User.t) (pk : Z) (s : Task.t) (db : DB),
    tasks_well_formed db ->
    filter (fun t => (Task.id t =? pk)
                     && (Task.created_by t =? User.id caller))
           (tasks db) = [s] ->
    exists db',
      TaskViewSet_destroy (Some caller) pk db = (Ok tt, db')
      /\ (forall r, In r (tasks db') <->
                    In r (tasks db) /\ Task.id r <> pk
                    /\ Task.parent_task r <> Some pk)
      /\ tasks_well_formed db'.
Proof.
  intros caller pk s db [Hnd Hnest] F.
  destruct (filter_In_head _ _ _ _ F) as [Hin Hf].
  rewrite andb_true_iff, Z.eqb_eq in Hf. destruct Hf as [Hid _].
  set (collected := cascade (List.length (tasks db)) [Task.id s] (tasks db)).
  assert (Hsound : forall x, In x collected ->
             x = pk \/ exists r, In r (tasks db) /\ Task.id r = x
                                 /\ Task.parent_task r = Some pk).
  { apply (cascade_sound _ pk Hnest). intros x [<- | []]. left. exact Hid. }
  assert (Hpk : In pk collected)
    by (apply cascade_mono; left; exact Hid).
  assert (Hchild : forall r, In r (tasks db) -> Task.parent_task r = Some pk ->
                             In (Task.id r) collected).
  { intros r Hr Hp. unfold collected.
    destruct (tasks db) as [|x l] eqn:E; [destruct Hin|].
    cbn [List.length]. rewrite <- E in *.
    apply (cascade_children _ pk); [left; exact Hid | exact Hr | exact Hp]. }
  assert (Hrows : forall r,
             In r (filter (fun r => negb (existsb (Z.eqb (Task.id r)) collected))
                          (tasks db))
             <-> In r (tasks db) /\ Task.id r <> pk
                 /\ Task.parent_task r <> Some pk).
  { intros r. rewrite filter_In, negb_true_iff. split.
    - intros [Hr Hout]. split; [exact Hr|].
      assert (Hnot : ~ In (Task.id r) collected).
      { intros H. apply existsb_eqb_In in H. congruence. }
      split.
      + intros E. apply Hnot. rewrite E. exact Hpk.
      + intros Hp. apply Hnot, Hchild; assumption.
    - intros (Hr & Hne & Hp). split; [exact Hr|].
      apply not_true_is_false. intros H. apply existsb_eqb_In in H.
      destruct (Hsound _ H) as [E | (r' & Hr' & Hid' & Hp')];
        [contradiction|].
      rewrite (key_identifies Task.id _ r' r Hnd Hr' Hr Hid') in Hp'.
      contradiction. }
  exists (with_tasks
            (filter (fun r => negb (existsb (Z.eqb (Task.id r)) collected)))
            db).
  split; [|split].
  - unfold TaskViewSet_destroy.
    unfold bind at 1. rewrite authenticated_some.
    unfold bind at 1. rewrite (TaskViewSet_get_object_found _ _ _ _ F).
    reflexivity.
  - exact Hrows.
  - split; cbn [tasks with_tasks].
    + apply NoDup_map_filter, Hnd.
    + intros t p Ht Hp. apply Hrows in Ht. destruct Ht as (Ht & Htid & Htp).
      destruct (Hnest t p Ht Hp) as [(q & Hq & Hqid) Htop]. split.
      * exists q. split; [|exact Hqid]. apply Hrows.
        split; [exact Hq|]. split.
        -- intros E. apply Htp. rewrite Hp. f_equal. congruence.
        -- rewrite (Htop q Hq Hqid). discriminate.
      * intros q' Hq' Hid'. apply Hrows in Hq'. apply Htop; tauto.
Qed.

Lemma TaskViewSet_destroy_witness :
  exists db', TaskViewSet_destroy (Some alice) 1 task_db = (Ok tt, db')
              /\ tasks db' = [].
Proof.
  destruct (TaskViewSet_destroy_removes_task_and_subtasks alice 1
              (Task.mk 1 "release" "" 1 None 10 20 "MEDIUM" "PENDING" 0 0)
              task_db)
    as (db' & Hrun & Hrows & _).
  - split.
    + repeat constructor; simpl; intuition discriminate.
    + intros t p [<- | [<- | []]] Hp; [discriminate Hp|].
      inversion Hp; subst p. split.
      * eexists. split; [left; reflexivity | reflexivity].
      * intros q [<- | [<- | []]] Hq; [reflexivity | discriminate Hq].
  - reflexivity.
  - exists db'. split; [exact Hrun|].
    destruct (tasks db') as [|r l] eqn:E; [reflexivity|]. exfalso.
    destruct (proj1 (Hrows r) (or_introl eq_refl)) as ([<- | [<- | []]] & H1 & H2).
    + apply H1. reflexivity.
    + apply H2. reflexivity.
Defined.

(* ================================================================== *)
(** * Users: update                                                    *)
(* ================================================================== *)

Lemma unique_char_on_update_cases
    field max_length format column partial inst r db :
  (exists o,
     unique_char_on_update field max_length format column partial inst r db
     = (Ok o, db)
     /\ forall s, o = Some s ->
          existsb (fun u => String.eqb (column u) s
                            && negb (User.id u =? User.id inst)) (users db)
          = false)
  \/ (exists detail,
        unique_char_on_update field max_length format column partial inst r db
        = (Raise (ValidationError detail), db)).
Proof.
  unfold unique_char_on_update.
  destruct r as [| |s].
  - destruct partial; [left | right]; eexists; [split|]; try reflexivity.
    intros s E. discriminate E.
  - right. eexists. reflexivity.
  - unfold bind, read.
    destruct (required_char_cases field (Given s) db)
      as [(s' & E & _ & ->) | [_ ->]]; [|right; eexists; reflexivity].
    inversion E; subst s'. cbv beta iota.
    destruct (format (strip s)); [|right; eexists; reflexivity].
    cbn [ret].
    destruct (max_length <? Z.of_nat (String.length (strip s)));
      [right; eexists; reflexivity|].
    cbn [ret].
    destruct (existsb _ (users db)) eqn:Ex; [right; eexists; reflexivity|].
    left. eexists. split; [reflexivity|].
    intros s' E'. inversion E'; subst s'. exact Ex.
Qed.

(** What PUT and PATCH /users/<pk>/ do, case by case. *)
Lemma UserViewSet_update_cases {ev : EmailValidator} partial user pk p db :
  NoDup (map User.id (users db)) ->
  (exists e, UserViewSet_update partial user pk p db = (Raise e, db))
  \/ exists inst v,
       In inst (users db) /\ User.id inst = pk
       /\ (forall s, uv_user_id v = Some s ->
             existsb (fun u => String.eqb (User.user_id u) s
                               && negb (User.id u =? User.id inst)) (users db)
             = false)
       /\ (forall s, uv_email v = Some s ->
             existsb (fun u => String.eqb (User.email u) s
                               && negb (User.id u =? User.id inst)) (users db)
             = false)
       /\ UserViewSet_update partial user pk p db
          = (Ok (set_user_fields inst v),
             with_users (replace_user inst (set_user_fields inst v)) db).
Proof.
  intros Hnd.
  remember (UserViewSet_update partial user pk p db) as X eqn:HX.
  unfold UserViewSet_update in HX.
  unfold bind at 1 in HX.
  pose proof (read_only_check_permissions
                (UserViewSet_get_permissions
                   (if partial then partial_update else update)) user db) as Hro.
  destruct (check_permissions _ user db) as [[[]|e] db0]; simpl in Hro;
    subst db0; [|left; eexists; exact HX].
  unfold bind at 1 in HX. unfold read at 1 in HX.
  unfold bind at 1 in HX.
  destruct (unique_key_filter User.id pk (users db) Hnd) as [F | (inst & F)].
  { rewrite (filter_sorted_nil _ _ _ F) in HX. left. eexists. exact HX. }
  rewrite (filter_sorted_one _ _ _ _ F) in HX.
  cbn [get_object_or_404 catch get ret] in HX.
  destruct (filter_In_head _ _ _ _ F) as [Hin Hid]. apply Z.eqb_eq in Hid.
  unfold UserSerializer_is_valid in HX.
  unfold bind at 1 2 in HX.
  destruct (unique_char_on_update_cases "user_id" 50 any_text User.user_id
              partial inst (cu_user_id p) db) as [(ou & Hr & Hou) | (d & Hr)];
    rewrite Hr in HX; clear Hr; [|left; eexists; exact HX].
  unfold bind at 1 in HX.
  destruct (unique_char_on_update_cases "email" 254 valid_email User.email
              partial inst (cu_email p) db) as [(oe & Hr & Hoe) | (d & Hr)];
    rewrite Hr in HX; clear Hr; [|left; eexists; exact HX].
  unfold bind at 1 in HX.
  destruct (validation_optional "is_admin" (cu_is_admin p) db)
    as [(a & Hr) | (d & Hr)]; rewrite Hr in HX; clear Hr;
    [|left; eexists; exact HX].
  unfold bind at 1 in HX.
  destruct (validation_optional "is_teamlead" (cu_is_teamlead p) db)
    as [(t & Hr) | (d & Hr)]; rewrite Hr in HX; clear Hr;
    [|left; eexists; exact HX].
  unfold bind at 1 in HX.
  destruct (validation_optional "is_active" (cu_is_active p) db)
    as [(act & Hr) | (d & Hr)]; rewrite Hr in HX; clear Hr;
    [|left; eexists; exact HX].
  right. exists inst, (mkUserData ou oe a t act).
  split; [exact Hin|]. split; [exact Hid|].
  split; [exact Hou|]. split; [exact Hoe|].
  unfold ret at 1 in HX. unfold bind, User_save, modify, ret in HX.
  cbn [set_user_fields User.id] in HX.
  assert (Hex : existsb (fun r => User.id r =? User.id inst) (users db) = true).
  { apply existsb_exists. exists inst. split; [exact Hin | apply Z.eqb_refl]. }
  unfold with_users in HX. rewrite Hex in HX. subst X. reflexivity.
Qed.

(** No request to PUT or PATCH /users/<pk>/ touches a credential: the
    rows are the same in number and order, each with the primary key
    and the password state it had, so a usable password stays usable. *)
Theorem UserViewSet_update_never_touches_credentials {ev : EmailValidator} :
  forall (partial : bool) (user : option User.t) (pk : Z)
         (p : CreateUserPayload) (db : DB),
    NoDup (map User.id (users db)) ->
    map (fun u => (User.id u, User.password u))
        (users (snd (UserViewSet_update partial user pk p db)))
    = map (fun u => (User.id u, User.password u)) (users db).
Proof.
  intros partial user pk p db Hnd.
  destruct (UserViewSet_update_cases partial user pk p db Hnd)
    as [(e & ->) | (inst & v & Hin & _ & _ & _ & ->)]; [reflexivity|].
  cbn [snd users with_users]. unfold replace_user. rewrite map_map.
  apply map_ext_in. intros r Hr.
  destruct (User.id r =? User.id inst) eqn:E; [|reflexivity].
  apply Z.eqb_eq in E.
  rewrite (key_identifies User.id _ r inst Hnd Hr Hin E). reflexivity.
Qed.

Lemma UserViewSet_update_credentials_witness :
  map (fun u => (User.id u, User.password u))
      (users (snd (UserViewSet_update (ev := sample_validator) true
                     (Some dave_admin) 1
                     (mkCreateUserPayload (Given "alicia") Absent
                                          Absent (Given true) Absent)
                     (mkDB [alice; dave_admin] [] [] [] [] []))))
  = [(1, Usable "pw"); (4, Usable "pw")].
Proof.
  apply (UserViewSet_update_never_touches_credentials
           (ev := sample_validator) true (Some dave_admin) 1
           (mkCreateUserPayload (Given "alicia") Absent Absent (Given true)
                                Absent)
           (mkDB [alice; dave_admin] [] [] [] [] [])).
  repeat constructor; simpl; intuition discriminate.
Defined.

Lemma column_identifies {A B} (f : A -> B) (rows : list A) a b :
  NoDup (map f rows) -> In a rows -> In b rows -> f a = f b -> a = b.
Proof.
  induction rows as [|x rows IH]; simpl; intros Hnd Ha Hb Hk; [tauto|].
  inversion Hnd as [|? ? Hnotin Hnd']; subst.
  destruct Ha as [->|Ha], Hb as [->|Hb]; try reflexivity.
  - exfalso. apply Hnotin. rewrite Hk. apply in_map, Hb.
  - exfalso. apply Hnotin. rewrite <- Hk. apply in_map, Ha.
  - apply IH; assumption.
Qed.

Lemma NoDup_of_map {A B} (f : A -> B) l : NoDup (map f l) -> NoDup l.
Proof.
  induction l as [|x l IH]; simpl; intros Hnd; [constructor|].
  inversion Hnd as [|? ? Hx Hl]; subst.
  constructor; [|apply IH, Hl]. intros Hin. apply Hx, in_map, Hin.
Qed.

Lemma NoDup_map_in {A B} (f : A -> B) l :
  NoDup l -> (forall a b, In a l -> In b l -> f a = f b -> a = b) ->
  NoDup (map f l).
Proof.
  induction l as [|x l IH]; simpl; intros Hnd Hinj; [constructor|].
  inversion Hnd as [|? ? Hx Hl]; subst. constructor.
  - intros Hin. apply in_map_iff in Hin. destruct Hin as (y & Hy & Hyin).
    apply Hx. rewrite (Hinj x y); auto.
  - apply IH; [exact Hl|]. intros a b Ha Hb. apply Hinj; right; assumption.
Qed.

Lemma replace_user_keeps_column_unique (column : User.t -> string)
    inst inst' rows :
  NoDup (map User.id rows) ->
  NoDup (map column rows) ->
  In inst rows ->
  (column inst' = column inst
   \/ existsb (fun u => String.eqb (column u) (column inst')
                        && negb (User.id u =? User.id inst)) rows = false) ->
  NoDup (map column (replace_user inst inst' rows)).
Proof.
  intros Hid Hcol Hin Hnew. unfold replace_user. rewrite map_map.
  apply NoDup_map_in; [apply (NoDup_of_map User.id), Hid|].
  assert (Hother : forall r, In r rows -> User.id r <> User.id inst ->
                             column r <> column inst').
  { intros r Hr Hne E. destruct Hnew as [Hsame | Hfree].
    - apply Hne. f_equal.
      apply (column_identifies column rows); congruence.
    - assert (H : existsb (fun u => String.eqb (column u) (column inst')
                                    && negb (User.id u =? User.id inst)) rows
                  = true).
      { apply existsb_exists. exists r. split; [exact Hr|].
        apply andb_true_iff. split; [apply String.eqb_eq, E|].
        apply negb_true_iff, Z.eqb_neq, Hne. }
      congruence. }
  intros a b Ha Hb.
  destruct (User.id a =? User.id inst) eqn:Ea,
           (User.id b =? User.id inst) eqn:Eb; intros E.
  - apply Z.eqb_eq in Ea. apply Z.eqb_eq in Eb.
    apply (key_identifies User.id rows); congruence.
  - apply Z.eqb_neq in Eb. exfalso. apply (Hother b Hb Eb). congruence.
  - apply Z.eqb_neq in Ea. exfalso. apply (Hother a Ha Ea). congruence.
  - apply (column_identifies column rows); assumption.
Qed.

(** PUT and PATCH /users/<pk>/ keep the user table free of duplicates:
    primary keys, [user_id] values and [email] values stay pairwise
    distinct, whatever the request. *)
Theorem UserViewSet_update_keeps_users_unique {ev : EmailValidator} :
  forall (partial : bool) (user : option User.t) (pk : Z)
         (p : CreateUserPayload) (db : DB),
    users_unique db ->
    users_unique (snd (UserViewSet_update partial user pk p db)).
Proof.
  intros partial user pk p db (Hid & Huid & Hmail).
  destruct (UserViewSet_update_cases partial user pk p db Hid)
    as [(e & ->) | (inst & v & Hin & _ & Hu & Hm & ->)].
  - repeat split; assumption.
  - unfold users_unique. cbn [snd users with_users]. split; [|split].
    + unfold replace_user. rewrite map_map.
      replace (map (fun x => User.id (if User.id x =? User.id inst
                                      then set_user_fields inst v else x))
                   (users db))
        with (map User.id (users db)); [exact Hid|].
      apply map_ext. intros r.
      destruct (User.id r =? User.id inst) eqn:E; [|reflexivity].
      apply Z.eqb_eq in E. exact E.
    + apply replace_user_keeps_column_unique; try assumption.
      cbn [set_user_fields User.user_id].
      destruct (uv_user_id v) as [s|]; [right; apply Hu; reflexivity
                                       |left; reflexivity].
    + apply replace_user_keeps_column_unique; try assumption.
      cbn [set_user_fields User.email].
      destruct (uv_email v) as [s|]; [right; apply Hm; reflexivity
                                     |left; reflexivity].
Qed.

Lemma UserViewSet_update_keeps_users_unique_witness :
  users_unique
    (snd (UserViewSet_update (ev := sample_validator) true (Some dave_admin) 1
            (mkCreateUserPayload (Given "dave") Absent Absent Absent Absent)
            (mkDB [alice; dave_admin] [] [] [] [] []))).
Proof.
  apply (UserViewSet_update_keeps_users_unique (ev := sample_validator)
           true (Some dave_admin) 1).
  repeat split; repeat constructor; simpl; intuition discriminate.
Defined.
